(** * Storage gateway: WebDAV / file-system handlers over an S3 store

    A shallow embedding of the request handlers of the storage gateway
    (authService.js, S3FileOperations.js, the WebDAV PUT and MKCOL methods,
    the /api/fs routes, the /api/url/commit and /api/url/cancel routes) and
    the properties of its specification that concern them, followed by
    further properties of the same code.

    Handlers are asynchronous JavaScript functions that talk to collaborators
    (the S3 client, repositories, the FileSystem facade).  They are embedded as
    computations in a state-and-exception monad over an abstract world: every
    call to a collaborator is answered by an oracle [perform], may throw, and
    is recorded in a trace, so that statements such as "before any storage
    call" are statements about the trace. *)

From Stdlib Require Import ZArith String Ascii List Bool Lia DecimalString.
From stdpp Require Import gmap strings.
Import ListNotations.

Local Open Scope string_scope.
Local Open Scope list_scope.
Local Open Scope Z_scope.

(** ** HTTP status constants *)

Module ApiStatus.
(** Modelled from the spec: [constants/index.js] (the [ApiStatus] table) is
    absent from the sources; the members keep their names and carry the
    HTTP status codes the specification's error mapping gives them
    (invalidPath 400, pathForbidden 403, notFound 404, conflict 409,
    other 500). *)
Definition SUCCESS : Z := 200.
Definition BAD_REQUEST : Z := 400.
Definition UNAUTHORIZED : Z := 401.
Definition FORBIDDEN : Z := 403.
Definition NOT_FOUND : Z := 404.
Definition CONFLICT : Z := 409.
Definition INTERNAL_ERROR : Z := 500.
End ApiStatus.

(** ** JavaScript values and string primitives *)

Module Js.

(** A JSON / database value as the handlers inspect it. A number is an
    IEEE 754 double; the embedding has the doubles with an integer value,
    [JNum n] with [n] the value ([to_double] below rounds an integer to the
    nearest of them). Fractions, magnitudes from 2^1024 on (Infinity) and
    the negative zero are not modelled; [NaN] appears only as the failure of
    [parseInt]. *)
Inductive JsVal :=
| JUndefined
| JNull
| JBool (b : bool)
| JNum (n : Z)
| JStr (s : string).

Definition truthy_str (s : string) : bool := negb (String.eqb s EmptyString).

(** ToBoolean *)
Definition truthy (v : JsVal) : bool :=
  match v with
  | JUndefined | JNull => false
  | JBool b => b
  | JNum n => negb (n =? 0)
  | JStr s => truthy_str s
  end.

(** [o || d] for an optional string *)
Definition str_or (o : option string) (d : string) : string :=
  match o with
  | Some s => if truthy_str s then s else d
  | None => d
  end.

(** [o || d] for an optional number *)
Definition num_or (o : option Z) (d : Z) : Z :=
  match o with
  | Some n => if n =? 0 then d else n
  | None => d
  end.

Definition truthy_opt (o : option string) : bool :=
  match o with Some s => truthy_str s | None => false end.

(** [s.length]; a character of the embedding stands for one code unit. *)
Definition length (s : string) : Z := Z.of_nat (String.length s).

Definition startsWith (s p : string) : bool := String.prefix p s.

Fixpoint endsWith_aux (fuel : nat) (s p : string) : bool :=
  if String.eqb s p then true
  else match fuel, s with
       | S f, String _ r => endsWith_aux f r p
       | _, _ => false
       end.

Definition endsWith (s p : string) : bool := endsWith_aux (String.length s) s p.

(** [s.substring(n)] *)
Definition substring_from (n : nat) (s : string) : string :=
  String.substring n (String.length s - n) s.

(** [s.indexOf(c)] for a one-character needle; [None] stands for -1 *)
Fixpoint indexOf_char (c : ascii) (s : string) : option nat :=
  match s with
  | EmptyString => None
  | String d r =>
      if Ascii.eqb c d then Some O
      else match indexOf_char c r with
           | Some i => Some (S i)
           | None => None
           end
  end.

Definition includes_char (c : ascii) (s : string) : bool :=
  match indexOf_char c s with Some _ => true | None => false end.

(** [s.split(c)] *)
Fixpoint split_aux (c : ascii) (s : string) (cur : string) : list string :=
  match s with
  | EmptyString => [cur]
  | String d r =>
      if Ascii.eqb c d then cur :: split_aux c r EmptyString
      else split_aux c r (cur +:+ String d EmptyString)
  end.

Definition split (c : ascii) (s : string) : list string := split_aux c s EmptyString.

(** [s.split(c).pop()] *)
Definition split_pop (c : ascii) (s : string) : string :=
  List.last (split c s) EmptyString.

(** [s.split(c).filter(Boolean).pop()] for the slash; [None] stands for
    undefined *)
Definition last_segment (s : string) : option string :=
  match List.rev (List.filter truthy_str (split "/" s)) with
  | x :: _ => Some x
  | [] => None
  end.

(** [s.replace] of every double-quote character by nothing, as in the
    source's etag clean-up *)
Fixpoint strip_quotes (s : string) : string :=
  match s with
  | EmptyString => EmptyString
  | String d r =>
      if Ascii.eqb d (Ascii.ascii_of_nat 34) then strip_quotes r
      else String d (strip_quotes r)
  end.

(** The nearest double of an integer, ties to the even significand: an
    integer of at most 53 bits is a double; of a longer one the 53 leading
    bits are kept and rounded. *)
Definition to_double (x : Z) : Z :=
  let a := Z.abs x in
  let e := Z.log2 a - 52 in
  if e <=? 0 then x
  else
    let q := Z.shiftr a e in
    let r := a - Z.shiftl q e in
    let half := Z.shiftl 1 (e - 1) in
    let q' := if r <? half then q
              else if half <? r then q + 1
              else if Z.even q then q else q + 1 in
    Z.sgn x * Z.shiftl q' e.

(** [a + b] and [a - b] on numbers *)
Definition plus (a b : Z) : Z := to_double (a + b).

Definition minus (a b : Z) : Z := to_double (a - b).

(** The white space and line terminators [parseInt] skips, among the code
    units up to 255: TAB, LF, VT, FF, CR, SPACE and the no-break space. *)
Definition is_space (c : ascii) : bool :=
  let n := Ascii.nat_of_ascii c in
  (Nat.eqb n 32 || Nat.eqb n 9 || Nat.eqb n 10 || Nat.eqb n 11 || Nat.eqb n 12 || Nat.eqb n 13
   || Nat.eqb n 160)%bool.

Fixpoint skip_spaces (s : string) : string :=
  match s with
  | String c r => if is_space c then skip_spaces r else s
  | EmptyString => s
  end.

(** Value of a digit in the given radix, if it is one. *)
Definition digit_val (radix : Z) (c : ascii) : option Z :=
  let n := Z.of_nat (Ascii.nat_of_ascii c) in
  let v := if (48 <=? n) && (n <=? 57) then n - 48
           else if (97 <=? n) && (n <=? 122) then n - 87
           else if (65 <=? n) && (n <=? 90) then n - 55
           else 99 in
  if v <? radix then Some v else None.

(** Longest prefix of digits, most significant first. *)
Fixpoint digits (radix : Z) (s : string) (acc : option Z) : option Z :=
  match s with
  | String c r =>
      match digit_val radix c with
      | Some v => digits radix r (Some (match acc with Some a => a * radix + v | None => v end))
      | None => acc
      end
  | EmptyString => acc
  end.

(** [parseInt(s, radix)]: leading white space is skipped, a sign is read,
    with no radix given an [0x] prefix selects base 16, the longest digit
    prefix is converted and the integer it denotes is rounded to a number;
    [None] is [NaN]. *)
Definition parseInt_str (s : string) (radix : option Z) : option Z :=
  let s1 := skip_spaces s in
  let '(sign, s2) :=
    match s1 with
    | String "-" r => (-1, r)
    | String "+" r => (1, r)
    | _ => (1, s1)
    end in
  let '(rdx, s3) :=
    match radix, s2 with
    | None, String "0" (String "x" r) => (16, r)
    | None, String "0" (String "X" r) => (16, r)
    | None, _ => (10, s2)
    | Some r, _ => (r, s2)
    end in
  match digits rdx s3 None with
  | Some v => Some (to_double (sign * v))
  | None => None
  end.

(** The largest of [p], [10 p], [100 p], ... that is at most [a]. *)
Fixpoint top_power (fuel : nat) (p a : Z) : Z :=
  match fuel with
  | O => p
  | S f => if p * 10 <=? a then top_power f (p * 10) a else p
  end.

(** The first digit of [String(a)] for a number [a] of 10^21 or more, which
    is written in exponent notation with the fewest digits that still read
    back as [a]: when a single digit does ([d] times the power of ten, or
    the next power of ten), that digit (1 for the next power); otherwise no
    multiple of the power of ten lies among the decimals that read back as
    [a], and they all begin with the first digit of [a] itself. *)
Definition first_digit (a : Z) : Z :=
  let p := top_power (Z.to_nat (Z.log2 a)) 1 a in
  match List.find (fun d => to_double (d * p) =? a) [1; 2; 3; 4; 5; 6; 7; 8; 9; 10] with
  | Some d => if d =? 10 then 1 else d
  | None => a / p
  end.

(** [parseInt(n)] on a number: the argument is first converted to a string.
    Below 10^21 the string is the decimal numeral of a decimal that reads
    back as [n]; from 10^21 on it is in exponent notation, [d.ddde+21], of
    which the digits before the point are read: the first one. *)
Definition parseInt_num (n : Z) : Z :=
  if Z.abs n <? 10 ^ 21 then n else Z.sgn n * first_digit (Z.abs n).

(** [parseInt(v)] on a JSON value: the argument is first converted to a
    string; [undefined], [null], [true] and [false] give texts without
    digits. *)
Definition parseInt (v : JsVal) : option Z :=
  match v with
  | JNum n => Some (parseInt_num n)
  | JStr s => parseInt_str s None
  | JUndefined | JNull | JBool _ => None
  end.

(** The value of a character of the base64 alphabet *)
Definition b64_val (c : ascii) : option N :=
  let n := N.of_nat (Ascii.nat_of_ascii c) in
  if ((65 <=? n) && (n <=? 90))%N then Some (n - 65)%N
  else if ((97 <=? n) && (n <=? 122))%N then Some (n - 71)%N
  else if ((48 <=? n) && (n <=? 57))%N then Some (n + 4)%N
  else if (n =? 43)%N then Some 62%N
  else if (n =? 47)%N then Some 63%N
  else None.

Fixpoint b64_vals (s : string) : option (list N) :=
  match s with
  | EmptyString => Some []
  | String c r =>
      match b64_val c, b64_vals r with
      | Some v, Some vs => Some (v :: vs)
      | _, _ => None
      end
  end.

Definition byte_char (n : N) : ascii := Ascii.ascii_of_N (n mod 256).

(** Groups of four sextets give three bytes; a final group of two gives one
    byte, of three gives two; a final single sextet is an error. *)
Fixpoint b64_bytes (fuel : nat) (vs : list N) : option string :=
  match fuel with
  | O => None
  | S f =>
      match vs with
      | [] => Some EmptyString
      | [_] => None
      | [a; b] => Some (String (byte_char (a * 4 + b / 16)) EmptyString)
      | [a; b; c] =>
          Some (String (byte_char (a * 4 + b / 16))
                  (String (byte_char ((b mod 16) * 16 + c / 4)) EmptyString))
      | a :: b :: c :: d :: rest =>
          match b64_bytes f rest with
          | Some r =>
              Some (String (byte_char (a * 4 + b / 16))
                      (String (byte_char ((b mod 16) * 16 + c / 4))
                         (String (byte_char ((c mod 4) * 64 + d)) r)))
          | None => None
          end
      end
  end%N.

(** ASCII white space, which [atob] removes: TAB, LF, FF, CR and SPACE. The
    vertical tab is not among them. *)
Definition is_ascii_whitespace (c : ascii) : bool :=
  let n := Ascii.nat_of_ascii c in
  (Nat.eqb n 9 || Nat.eqb n 10 || Nat.eqb n 12 || Nat.eqb n 13 || Nat.eqb n 32)%bool.

Fixpoint remove_spaces (s : string) : string :=
  match s with
  | EmptyString => EmptyString
  | String c r =>
      if is_ascii_whitespace c then remove_spaces r else String c (remove_spaces r)
  end.

Definition drop_last (s : string) : string := String.substring 0 (String.length s - 1) s.

Definition ends_with_eq (s : string) : bool := endsWith s "=".

(** [atob(s)]: ASCII white space is removed, up to two padding characters
    are dropped from a text whose length is a multiple of four, the rest is
    decoded; [None] stands for the exception thrown on malformed input (a
    character outside the alphabet, a vertical tab included, or a length
    that leaves a single sextet). *)
Definition atob (s : string) : option string :=
  let s1 := remove_spaces s in
  let s2 :=
    if Nat.eqb (Nat.modulo (String.length s1) 4) 0 then
      if ends_with_eq s1 then
        let t := drop_last s1 in
        if ends_with_eq t then drop_last t else t
      else s1
    else s1 in
  match b64_vals s2 with
  | Some vs => b64_bytes (S (List.length vs)) vs
  | None => None
  end.

(** [s.lastIndexOf(c, fromIndex)] for a one-character needle: the last
    position not after [fromIndex] (a negative [fromIndex] counts as 0);
    [None] stands for -1 *)
Fixpoint lastIndexOf_aux (c : ascii) (s : string) (i limit : nat) (best : option nat)
  : option nat :=
  match s with
  | EmptyString => best
  | String d r =>
      if Nat.leb i limit
      then lastIndexOf_aux c r (S i) limit (if Ascii.eqb c d then Some i else best)
      else best
  end.

Definition lastIndexOf_char (c : ascii) (s : string) (fromIndex : Z) : option nat :=
  lastIndexOf_aux c s 0 (Z.to_nat (Z.max fromIndex 0)) None.

(** [s.toLowerCase()]: among the code units up to 255, the letters A to Z
    and the capital letters from 192 to 222 (but the multiplication sign,
    215) have their small letter 32 places further. *)
Definition lower_char (c : ascii) : ascii :=
  let n := Ascii.nat_of_ascii c in
  if (Nat.leb 65 n && Nat.leb n 90)%bool then Ascii.ascii_of_nat (n + 32)
  else if (Nat.leb 192 n && Nat.leb n 222 && negb (Nat.eqb n 215))%bool
       then Ascii.ascii_of_nat (n + 32)
  else c.

Fixpoint toLowerCase (s : string) : string :=
  match s with
  | EmptyString => EmptyString
  | String c r => String (lower_char c) (toLowerCase r)
  end.

(** [s.includes(sub)] *)
Definition includes (s sub : string) : bool :=
  match String.index 0 sub s with
  | Some _ => true
  | None => false
  end.

(** [String(v)] is the one-character string 1 *)
Definition String_is_1 (v : JsVal) : bool :=
  match v with
  | JNum n => n =? 1
  | JStr s => String.eqb s "1"
  | _ => false
  end.

(** [v === 1] *)
Definition strict_eq_1 (v : JsVal) : bool :=
  match v with JNum n => n =? 1 | _ => false end.

(** [v === true] *)
Definition strict_eq_true (v : JsVal) : bool :=
  match v with JBool b => b | _ => false end.

End Js.

(** ** Exceptions and the handler monad *)

(** What a handler can catch: hono's [HTTPException], or any other error.
    An error raised by the S3 client carries [$metadata.httpStatusCode]; a
    plain [Error] has no metadata. *)
Inductive Exn :=
| HTTPException (status : Z) (message : string)
| ServiceError (httpStatusCode : option Z) (name : string) (message : string).

Definition exn_httpStatusCode (e : Exn) : option Z :=
  match e with
  | HTTPException _ _ => None
  | ServiceError c _ _ => c
  end.

Definition exn_name (e : Exn) : string :=
  match e with
  | HTTPException _ _ => "Error"
  | ServiceError _ n _ => n
  end.

Definition exn_message (e : Exn) : string :=
  match e with
  | HTTPException _ m => m
  | ServiceError _ _ m => m
  end.

Definition is_HTTPException (e : Exn) : bool :=
  match e with HTTPException _ _ => true | _ => false end.

Definition status_is (e : Exn) (code : Z) : bool :=
  match exn_httpStatusCode e with
  | Some c => c =? code
  | None => false
  end.

Section Effects.
Context {Call : Type -> Type} {World : Type}.

(** The collaborators: a call is answered with a result or an exception and
    may change the world. *)
Variable perform : forall R, Call R -> World -> (Exn + R) * World.

Inductive Event := Ev (R : Type) (c : Call R).

Record St := mkSt { world : World; trace : list Event }.

Definition M (A : Type) : Type := St -> (Exn + A) * St.

Definition ret {A} (a : A) : M A := fun s => (inr a, s).

Definition throw {A} (e : Exn) : M A := fun s => (inl e, s).

Definition bind {A B} (m : M A) (k : A -> M B) : M B :=
  fun s => match m s with
           | (inr a, s') => k a s'
           | (inl e, s') => (inl e, s')
           end.

(** [try { m } catch (e) { h e }] *)
Definition try_catch {A} (m : M A) (h : Exn -> M A) : M A :=
  fun s => match m s with
           | (inl e, s') => h e s'
           | r => r
           end.

(** [await collaborator(...)] *)
Definition call {R} (c : Call R) : M R :=
  fun s => let (r, w) := perform R c (world s) in
           (r, mkSt w (trace s ++ [Ev R c])).

(** A handler started in world [w] with an empty trace. *)
Definition run {A} (m : M A) (w : World) : (Exn + A) * St := m (mkSt w []).

(** A computation only ever adds to the end of the trace. *)
Definition appends {A} (m : M A) : Prop :=
  forall s, exists l, trace (snd (m s)) = trace s ++ l.

(** The first thing a handler does is the call [c]. *)
Definition starts_with {A R} (c : Call R) (m : M A) : Prop :=
  forall w, exists rest, trace (snd (run m w)) = Ev R c :: rest.

(** Every call a computation makes satisfies [P]. *)
Definition emits_only {A} (P : Event -> bool) (m : M A) : Prop :=
  forall s, exists l, trace (snd (m s)) = trace s ++ l /\ forallb P l = true.

(** A computation that returns, whatever the collaborators answer. *)
Definition never_throws {A} (m : M A) : Prop :=
  forall s, exists a s', m s = (inr a, s').

End Effects.

Arguments Event : clear implicits.
Arguments St : clear implicits.
Arguments M : clear implicits.
Arguments Ev {Call R} c.
Arguments mkSt {Call World} _ _.

Notation "x <- m ;; k" := (bind m (fun x => k))
  (at level 90, m at level 80, right associativity).
Notation "m ;;; k" := (bind m (fun _ => k))
  (at level 90, right associativity).

(** ** S3FileOperations.js: stat, inline update and rename on one bucket *)

Module S3FileOperations.

(** The body of an upload: a JavaScript string, an ArrayBuffer (its bytes),
    or a value of another type. *)
Inductive Content :=
| StringContent (s : string)
| ArrayBufferContent (bytes : list Byte.byte)
| OtherContent.

(** The commands the module sends through the S3 client. [CopySource] is
    the URI-encoded text bucket/key in the source; it is kept here as its
    two components. *)
Inductive S3Command :=
| HeadObject (Bucket Key : string)
| GetObject (Bucket Key : string) (Range : option string)
| PutObject (Bucket Key : string) (Body : Content) (ContentType : option string)
| DeleteObject (Bucket Key : string)
| CopyObject (Bucket : string) (CopySourceBucket CopySourceKey : string) (Key : string).

(** The fields of an S3 response the module reads. *)
Record S3Output := {
  ContentType : option string;
  ContentLength : option Z;
  LastModified : option string;
  ETag : option string
}.

Record CacheOptions := {
  co_userType : option string;
  co_userId : option string;
  enableCache : bool
}.

(** The storage driver's capability set. Modelled from the spec:
    [storage/interfaces/capabilities/index.js] is absent; these are the
    capabilities section 4.2 lists. *)
Inductive Capability := READ | WRITE | LIST | PRESIGN | MULTIPART | COPY | PROXY.

(** [this.driver]: possibly null, and [hasCapability] possibly missing
    (the source guards both with optional chaining). *)
Record Driver := { hasCapability : option (Capability -> bool) }.

Record Mount := {
  mount_id : string;
  storage_type : string;
  web_proxy : Js.JsVal;
  cache_ttl : option Z
}.

Record Options := {
  mount : Mount;
  path : string;
  userType : option string;
  userId : option string
}.

Record FileInfo := {
  fi_path : string;
  fi_name : string;
  isDirectory : bool;
  size : Z;
  modified : string;
  mimetype : string;
  etag : option string;
  fi_mount_id : string;
  fi_storage_type : string;
  fi_type : Z;
  typeName : string;
  preview_url : option string;
  download_url : option string
}.

Definition set_preview_url (u : string) (r : FileInfo) : FileInfo :=
  {| fi_path := fi_path r; fi_name := fi_name r; isDirectory := isDirectory r;
     size := size r; modified := modified r; mimetype := mimetype r;
     etag := etag r; fi_mount_id := fi_mount_id r;
     fi_storage_type := fi_storage_type r; fi_type := fi_type r;
     typeName := typeName r; preview_url := Some u;
     download_url := download_url r |}.

Definition set_download_url (u : string) (r : FileInfo) : FileInfo :=
  {| fi_path := fi_path r; fi_name := fi_name r; isDirectory := isDirectory r;
     size := size r; modified := modified r; mimetype := mimetype r;
     etag := etag r; fi_mount_id := fi_mount_id r;
     fi_storage_type := fi_storage_type r; fi_type := fi_type r;
     typeName := typeName r; preview_url := preview_url r;
     download_url := Some u |}.

Record UpdateResult := {
  ur_success : bool;
  ur_path : string;
  ur_etag : option string;
  ur_mimetype : string;
  ur_message : string;
  isNewFile : bool
}.

Record RenameResult := {
  rr_success : bool;
  oldPath : string;
  newPath : string;
  rr_message : string
}.

(** The collaborators of the module. *)
Inductive Call : Type -> Type :=
| Send (cmd : S3Command) : Call S3Output
| GetFileType (fileName : string) : Call Z
| GetFileTypeName (fileName : string) : Call string
| GenerateProxyUrl (path : string) (download : bool) : Call string
| GeneratePresignedUrl (key : string) (expiresIn : option Z)
    (forceDownload : bool) (cacheOptions : CacheOptions) : Call string
| UpdateParentDirectoriesModifiedTime (bucket key : string) : Call unit.

Definition MAX_FILE_SIZE : Z := 10 * 1024 * 1024.

Definition x_directory : string := "application/x-directory".

Record CopyResult := {
  cr_success : bool;
  skipped : bool;
  source : string;
  target : string;
  cr_message : string
}.

Section Operations.
Context {World : Type}.
Variable perform : forall R, Call R -> World -> (Exn + R) * World.

(** [this.config.bucket_name], [this.driver] *)
Variable bucket_name : string.
Variable driver : option Driver.

(** Constants and pure helpers imported from modules that are not part of
    the sources: [FILE_TYPES.FOLDER], [FILE_TYPE_NAMES[FILE_TYPES.FOLDER]],
    [getMimeTypeFromFilename] of the backend's utils/fileUtils.js. *)
Variable FILE_TYPES_FOLDER : Z.
Variable FILE_TYPE_NAMES_FOLDER : string.
Variable getMimeTypeFromFilename : string -> string.

(** The reading of the clock, [new Date().toISOString()]. *)
Variable now : string.

Local Abbreviation M := (M Call World).
Local Abbreviation call := (call perform).

(** storage/fs/utils/ErrorHandler.js *)
Definition handleFsError {A} (fn : M A) (operationName defaultErrorMessage : string) : M A :=
  try_catch fn (fun error =>
    if is_HTTPException error then throw error
    else throw (HTTPException ApiStatus.INTERNAL_ERROR
                  (if Js.truthy_str (exn_message error) then exn_message error
                   else defaultErrorMessage))).

(** [this.driver?.hasCapability?.(CAPABILITIES.PROXY)] *)
Definition driver_has_proxy : bool :=
  match driver with
  | Some d => match hasCapability d with
              | Some f => f PROXY
              | None => false
              end
  | None => false
  end.

(** The two presigned URLs. [result] is a mutable object in the source and
    an enclosing [catch (urlError)] only logs: an URL assigned before a
    later signing throws stays on the result. *)
Definition presigned_urls (s3SubPath : string) (cacheOptions : CacheOptions)
    (result : FileInfo) : M FileInfo :=
  try_catch
    (previewUrl <- call (GeneratePresignedUrl s3SubPath None false cacheOptions) ;;
     let result1 := set_preview_url previewUrl result in
     try_catch
       (downloadUrl <- call (GeneratePresignedUrl s3SubPath None true cacheOptions) ;;
        ret (set_download_url downloadUrl result1))
       (fun urlError => ret result1))
    (fun urlError => ret result).

(** getFileInfo, lines 172-212 and again 266-306: choice of the URLs. *)
Definition attach_urls (s3SubPath : string) (o : Options) (result : FileInfo) : M FileInfo :=
  if Js.truthy_opt (userType o) && Js.truthy_opt (userId o) then
    let cacheOptions :=
      {| co_userType := userType o; co_userId := userId o;
         enableCache := match cache_ttl (mount o) with
                        | Some t => 0 <? t
                        | None => false
                        end |} in
    if Js.truthy (web_proxy (mount o)) && driver_has_proxy then
      try_catch
        (previewProxy <- call (GenerateProxyUrl (path o) false) ;;
         downloadProxy <- call (GenerateProxyUrl (path o) true) ;;
         ret (set_download_url downloadProxy (set_preview_url previewProxy result)))
        (fun error => presigned_urls s3SubPath cacheOptions result)
    else presigned_urls s3SubPath cacheOptions result
  else ret result.

(** getFileInfo, lines 149-215 and again 244-309: the entry built from a
    HEAD or a GET response. *)
Definition build_info (s3SubPath : string) (o : Options) (response : S3Output) : M FileInfo :=
  let fileName := match Js.last_segment (path o) with
                  | Some n => n
                  | None => "/"
                  end in
  let isDir := match ContentType response with
               | Some t => String.eqb t x_directory
               | None => false
               end in
  fileType <- (if isDir then ret FILE_TYPES_FOLDER else call (GetFileType fileName)) ;;
  fileTypeName <- (if isDir then ret FILE_TYPE_NAMES_FOLDER else call (GetFileTypeName fileName)) ;;
  let result :=
    {| fi_path := path o;
       fi_name := fileName;
       isDirectory := isDir;
       size := if isDir then 0 else Js.num_or (ContentLength response) 0;
       modified := match LastModified response with Some d => d | None => now end;
       mimetype := Js.str_or (ContentType response) "application/octet-stream";
       etag := match ETag response with
               | Some e => if Js.truthy_str e then Some (Js.strip_quotes e) else None
               | None => None
               end;
       fi_mount_id := mount_id (mount o);
       fi_storage_type := storage_type (mount o);
       fi_type := fileType;
       typeName := fileTypeName;
       preview_url := None;
       download_url := None |} in
  attach_urls s3SubPath o result.

Definition getFileInfo (s3SubPath : string) (o : Options) : M FileInfo :=
  handleFsError
    (try_catch
       (headResponse <- call (Send (HeadObject bucket_name s3SubPath)) ;;
        build_info s3SubPath o headResponse)
       (fun headError =>
          if status_is headError 405 || status_is headError 403 then
            getResponse <- call (Send (GetObject bucket_name s3SubPath (Some "bytes=0-0"))) ;;
            build_info s3SubPath o getResponse
          else if status_is headError 404 || String.eqb (exn_name headError) "NotFound" then
            throw (HTTPException ApiStatus.NOT_FOUND "文件不存在")
          else throw headError))
    "获取文件信息" "获取文件信息失败".

(** The size check of updateFile, lines 426-430. *)
Definition content_too_large (content : Content) : bool :=
  match content with
  | StringContent s => MAX_FILE_SIZE <? Js.length s
  | ArrayBufferContent b => MAX_FILE_SIZE <? Z.of_nat (List.length b)
  | OtherContent => false
  end.

Definition clean_etag (r : S3Output) : option string :=
  match ETag r with
  | Some e => if Js.truthy_str e then Some (Js.strip_quotes e) else None
  | None => None
  end.

Definition updateFile (s3SubPath : string) (content : Content) (fileName : option string)
    : M UpdateResult :=
  handleFsError
    (if content_too_large content then
       throw (HTTPException ApiStatus.BAD_REQUEST "文件内容过大，超过最大限制(10MB)")
     else
       let contentType := getMimeTypeFromFilename (Js.str_or fileName s3SubPath) in
       originalMetadata <-
         try_catch
           (r <- call (Send (HeadObject bucket_name s3SubPath)) ;; ret (Some r))
           (fun error => ret None) ;;
       result <- call (Send (PutObject bucket_name s3SubPath content (Some contentType))) ;;
       call (UpdateParentDirectoriesModifiedTime bucket_name s3SubPath) ;;;
       ret {| ur_success := true;
              ur_path := s3SubPath;
              ur_etag := clean_etag result;
              ur_mimetype := contentType;
              ur_message := "文件更新成功";
              isNewFile := match originalMetadata with Some _ => false | None => true end |})
    "更新文件" "更新文件失败".

Definition renameFile (oldS3SubPath newS3SubPath : string) : M RenameResult :=
  handleFsError
    (call (Send (HeadObject bucket_name oldS3SubPath)) ;;;
     try_catch
       (call (Send (HeadObject bucket_name newS3SubPath)) ;;;
        throw (HTTPException ApiStatus.CONFLICT "目标文件已存在"))
       (fun error =>
          if status_is error 404 then ret tt else throw error) ;;;
     call (Send (CopyObject bucket_name bucket_name oldS3SubPath newS3SubPath)) ;;;
     call (Send (DeleteObject bucket_name oldS3SubPath)) ;;;
     ret {| rr_success := true;
            oldPath := oldS3SubPath;
            newPath := newS3SubPath;
            rr_message := "文件重命名成功" |})
    "重命名文件" "重命名文件失败".

(** exists, lines 392-409: both branches of the catch answer false. *)
Definition exists_ (s3SubPath : string) : M bool :=
  try_catch
    (call (Send (HeadObject bucket_name s3SubPath)) ;;;
     ret true)
    (fun error => if status_is error 404 then ret false else ret false).

(** copyFile, lines 553-624. The copy command of this method also sets
    MetadataDirective to COPY, the default of the service, which the command
    type does not carry. [existing] is the early return from inside the
    inner try. *)
Definition copyFile (sourceS3SubPath targetS3SubPath : string) (skipExisting : bool)
    : M CopyResult :=
  try_catch
    (call (Send (HeadObject bucket_name sourceS3SubPath)) ;;;
     existing <-
       (if skipExisting then
          try_catch
            (call (Send (HeadObject bucket_name targetS3SubPath)) ;;;
             ret true)
            (fun error => if negb (status_is error 404) then throw error else ret false)
        else ret false) ;;
     if existing : bool then
       ret {| cr_success := true; skipped := true; source := sourceS3SubPath;
              target := targetS3SubPath; cr_message := "文件已存在，跳过复制" |}
     else
       call (Send (CopyObject bucket_name bucket_name sourceS3SubPath targetS3SubPath)) ;;;
       call (UpdateParentDirectoriesModifiedTime bucket_name targetS3SubPath) ;;;
       ret {| cr_success := true; skipped := false; source := sourceS3SubPath;
              target := targetS3SubPath; cr_message := "文件复制成功" |})
    (fun error =>
       if status_is error 404
       then throw (HTTPException ApiStatus.NOT_FOUND "源文件不存在")
       else throw (HTTPException ApiStatus.INTERNAL_ERROR
                     ("复制文件失败: " +:+ exn_message error))).

End Operations.

(** The trace entry of a command sent to the store. *)
Definition sent (cmd : S3Command) : Event Call := Ev (Send cmd).

(** The result of a successful rename. *)
Definition renamed (old new : string) : RenameResult :=
  {| rr_success := true; oldPath := old; newPath := new;
     rr_message := "文件重命名成功" |}.

(** The size of a content as the check of updateFile measures it: the
    length of a string, the byteLength of an ArrayBuffer. *)
Definition measured_size (content : Content) : option Z :=
  match content with
  | StringContent s => Some (Js.length s)
  | ArrayBufferContent b => Some (Z.of_nat (List.length b))
  | OtherContent => None
  end.

Definition ten_MiB : Z := 10485760.

(** A string of [n] characters. *)
Definition filler (n : N) : string := N.iter n (String "a") EmptyString.

(** The calls that leave the bucket as it is: HEAD and GET, the file type
    look-ups and the generation of URLs. *)
Definition is_read (ev : Event Call) : bool :=
  match ev with
  | Ev c => match c with
            | Send (HeadObject _ _) | Send (GetObject _ _ _) => true
            | Send _ => false
            | UpdateParentDirectoriesModifiedTime _ _ => false
            | _ => true
            end
  end.

(** The calls of a copy: anything but a PutObject or a DeleteObject. *)
Definition keeps_objects (ev : Event Call) : bool :=
  match ev with
  | Ev c => match c with
            | Send (PutObject _ _ _ _) | Send (DeleteObject _ _) => false
            | _ => true
            end
  end.

(** The generation of an URL. *)
Definition is_url_call (ev : Event Call) : bool :=
  match ev with
  | Ev c => match c with
            | GenerateProxyUrl _ _ | GeneratePresignedUrl _ _ _ _ => true
            | _ => false
            end
  end.

(** *** A reference store

    An in-memory bucket answering the collaborators' calls, used to run the
    operations on concrete requests. [head_rejected] is the status with
    which the service refuses every HEAD (some S3-compatible services do);
    [proxy_fails] makes the driver's proxy URL generation throw. *)
Module Sim.

Record Object := { o_body : Content; o_type : option string; o_etag : string }.

Record Store := {
  objects : gmap string Object;
  head_rejected : option Z;
  proxy_fails : bool
}.

Definition body_length (c : Content) : Z :=
  match c with
  | StringContent s => Js.length s
  | ArrayBufferContent b => Z.of_nat (List.length b)
  | OtherContent => 0
  end.

Definition output_of (o : Object) : S3Output :=
  {| ContentType := o_type o;
     ContentLength := Some (body_length (o_body o));
     LastModified := Some "2024-01-01T00:00:00.000Z";
     ETag := Some (o_etag o) |}.

Definition no_output : S3Output :=
  {| ContentType := None; ContentLength := None; LastModified := None; ETag := None |}.

Definition with_objects (m : gmap string Object) (w : Store) : Store :=
  {| objects := m; head_rejected := head_rejected w; proxy_fails := proxy_fails w |}.

Definition send (cmd : S3Command) (w : Store) : (Exn + S3Output) * Store :=
  match cmd with
  | HeadObject _ k =>
      match head_rejected w with
      | Some code => (inl (ServiceError (Some code) "Error" "HEAD rejected"), w)
      | None =>
          match objects w !! k with
          | Some o => (inr (output_of o), w)
          | None => (inl (ServiceError (Some 404) "NotFound" "NotFound"), w)
          end
      end
  | GetObject _ k _ =>
      match objects w !! k with
      | Some o => (inr (output_of o), w)
      | None => (inl (ServiceError (Some 404) "NoSuchKey" "The specified key does not exist."), w)
      end
  | PutObject _ k body ct =>
      (inr no_output,
       with_objects (<[k := {| o_body := body; o_type := ct; o_etag := "new" |}]> (objects w)) w)
  | DeleteObject _ k => (inr no_output, with_objects (delete k (objects w)) w)
  | CopyObject _ _ src k =>
      match objects w !! src with
      | Some o => (inr no_output, with_objects (<[k := o]> (objects w)) w)
      | None => (inl (ServiceError (Some 404) "NoSuchKey" "The specified key does not exist."), w)
      end
  end.

Definition perform (R : Type) (c : Call R) (w : Store) : (Exn + R) * Store :=
  match c in Call T return (Exn + T) * Store with
  | Send cmd => send cmd w
  | GetFileType _ => (inr 5, w)
  | GetFileTypeName _ => (inr "file", w)
  | GenerateProxyUrl p download =>
      if proxy_fails w then (inl (ServiceError None "Error" "proxy unavailable"), w)
      else (inr ((if download then "/api/fs/download?path=" else "/api/fs/preview?path=") +:+ p), w)
  | GeneratePresignedUrl k _ forceDownload _ =>
      (inr ("https://bucket.s3.example/" +:+ k +:+
            (if forceDownload then "?X-Amz-Signature=s&attachment" else "?X-Amz-Signature=s")), w)
  | UpdateParentDirectoriesModifiedTime _ _ => (inr tt, w)
  end.

Definition text_object (s : string) : Object :=
  {| o_body := StringContent s; o_type := Some "text/plain"; o_etag := "abc" |}.

Definition store (l : list (string * Object)) (rej : option Z) (pf : bool) : Store :=
  {| objects := list_to_map l; head_rejected := rej; proxy_fails := pf |}.

Definition a_mount (proxy : Js.JsVal) : Mount :=
  {| mount_id := "m1"; storage_type := "S3"; web_proxy := proxy; cache_ttl := Some 300 |}.

Definition options (proxy : Js.JsVal) (p : string) : Options :=
  {| mount := a_mount proxy; path := p; userType := Some "admin"; userId := Some "1" |}.

Definition proxy_driver : Driver := {| hasCapability := Some (fun _ => true) |}.

(** The options of a caller that did not say who it is. *)
Definition anonymous_options (p : string) : Options :=
  {| mount := a_mount (Js.JBool false); path := p; userType := None; userId := None |}.

Definition mime (name : string) : string :=
  if Js.endsWith name ".txt" then "text/plain" else "application/octet-stream".


End Sim.

End S3FileOperations.

(** ** HTTP responses of the WebDAV handlers *)

Record Response := {
  status : Z;
  resp_body : option string;
  headers : list (string * string)
}.

Definition text_response (message : string) (code : Z) : Response :=
  {| status := code; resp_body := Some message;
     headers := [("Content-Type", "text/plain")] |}.

(** [new Response(null, { status: 201, ... })] *)
Definition created_response : Response :=
  {| status := 201; resp_body := None;
     headers := [("Content-Type", "text/plain"); ("Content-Length", "0")] |}.

(** ** webdav/methods/put.js: the PUT handler

    The version of the handler that selects the upload path from the
    [webdav_upload_mode] setting. Its helpers for a buffered multipart upload
    are defined in the file but not reached from handlePut; they are embedded
    apart, in WebdavPutParts (managedMultipartUpload is left out);
    identifyClient only feeds the log. *)

Module WebdavPut.

(** The request body: the chunks the reader yields, and the error with which
    reading ends if the stream breaks. *)
Record Stream := {
  chunks : list (list Byte.byte);
  failure : option Exn
}.

Record PutRequest := {
  If : option string;
  ContentLength : option string;
  TransferEncoding : option string;
  body : option Stream
}.

(** [new File([data], filename, { type })] *)
Record File := {
  file_data : list Byte.byte;
  file_name : string;
  file_type : string
}.

Record LockConflict := { lc_status : Z; lc_message : string }.

Record Setting := { value : option string }.

Record MountRef := { id : string }.

(** What [mountManager.getDriverByPath] resolves to. *)
Record DriverInfo := {
  s3Client : bool;
  bucket_name : option string;
  mount : option MountRef;
  subPath : string
}.

Record UploadOptions := { useMultipart : bool }.

(** The collaborators of the handler. [StreamingUpload] is the managed
    upload of @aws-sdk/lib-storage ([new Upload(...).done()]), the streaming
    multipart pipeline. *)
Inductive Call : Type -> Type :=
| CheckLockPermission (path : string) (ifHeader : option string) (method : string)
    : Call (option LockConflict)
| GetSettingMetadata (key : string) : Call (option Setting)
| UploadFile (path : string) (file : File) (userId userType : string)
    (options : UploadOptions) : Call unit
| GetDriverByPath (path : string) (userId userType : string) : Call DriverInfo
| ClearDirectoryCache (mountId : string) : Call unit
| StreamingUpload (Bucket Key : string) (Body : Stream) (ContentType : string)
    (queueSize partSize : Z) (leavePartsOnError : bool) : Call unit.

(** The streaming multipart pipeline was entered. *)
Definition is_multipart (ev : Event Call) : bool :=
  match ev with
  | Ev c => match c with
            | StreamingUpload _ _ _ _ _ _ _ => true
            | _ => false
            end
  end.

(** An upload of either kind. *)
Definition is_upload (ev : Event Call) : bool :=
  match ev with
  | Ev c => match c with
            | StreamingUpload _ _ _ _ _ _ _ => true
            | UploadFile _ _ _ _ _ => true
            | _ => false
            end
  end.

(** The upload mode chosen from the answer of the settings lookup. *)
Definition mode_of (answer : Exn + option Setting) : string :=
  match answer with
  | inr (Some st) => match value st with
                     | Some v => if Js.truthy_str v then v else "direct"
                     | None => "direct"
                     end
  | _ => "direct"
  end.

(** A direct upload of the given file was asked of the FileSystem. *)
Definition direct_upload (path : string) (file : File) (userId userType : string)
  : Event Call :=
  Ev (UploadFile path file userId userType {| useMultipart := false |}).

Section Handler.
Context {World : Type}.
Variable perform : forall R, Call R -> World -> (Exn + R) * World.

(** Helpers of modules that are not part of the sources:
    [getMimeTypeFromFilename] (utils/fileUtils.js), [handleWebDAVError]
    (webdav/utils/errorUtils.js), the driver's [_normalizeFilePath]. *)
Variable getMimeTypeFromFilename : string -> string.
Variable handleWebDAVError : string -> Exn -> Response.
Variable normalizeFilePath : string -> string -> string -> string.

Local Abbreviation M := (M Call World).
Local Abbreviation call := (call perform).

(** [transferEncoding && transferEncoding.toLowerCase().includes(chunked)],
    as a condition *)
Definition isChunked (transferEncoding : option string) : bool :=
  match transferEncoding with
  | Some te => Js.truthy_str te && Js.includes (Js.toLowerCase te) "chunked"
  | None => false
  end.

(** Lines 515-531: the declared length ([None] is NaN) and the empty-body
    check. *)
Definition declared_length (req : PutRequest) : option Z * bool :=
  match ContentLength req with
  | Some contentLength =>
      let declaredContentLength := Js.parseInt_str contentLength (Some 10) in
      (declaredContentLength,
       match declaredContentLength with Some n => n =? 0 | None => false end)
  | None =>
      if isChunked (TransferEncoding req) then (Some (-1), false)
      else (Some 0, true)
  end.

(** Lines 556-570: the upload mode, direct unless the setting says
    otherwise; a failing lookup is logged and ignored. *)
Definition upload_mode : M string :=
  try_catch
    (uploadModeSetting <- call (GetSettingMetadata "webdav_upload_mode") ;;
     ret (match uploadModeSetting with
          | Some st => match value st with
                       | Some v => if Js.truthy_str v then v else "direct"
                       | None => "direct"
                       end
          | None => "direct"
          end))
    (fun error => ret "direct").

(** Reading the whole body: [reader.read()] until done. *)
Definition read_all (stream : Stream) : M (list Byte.byte) :=
  match failure stream with
  | Some e => throw e
  | None => ret (List.concat (chunks stream))
  end.

Definition clear_mount_cache (path userId userType : string) : M unit :=
  info <- call (GetDriverByPath path userId userType) ;;
  match mount info with
  | Some m => call (ClearDirectoryCache (id m))
  | None => ret tt
  end.

(** trueStreamingUpload *)
Definition trueStreamingUpload (stream : Stream) (key : string)
    (contentLength : option Z) (contentType path userIdOrInfo userType : string)
    : M (option Z) :=
  try_catch
    (info <- call (GetDriverByPath path userIdOrInfo userType) ;;
     if negb (s3Client info) then throw (ServiceError None "Error" "无法获取S3客户端实例")
     else
       match bucket_name info with
       | Some bucketName =>
           if Js.truthy_str bucketName then
             call (StreamingUpload bucketName key stream contentType 3 (5 * 1024 * 1024) false) ;;;
             ret contentLength
           else throw (ServiceError None "Error" "无法获取S3 bucket名称")
       | None => throw (ServiceError None "Error" "无法获取S3 bucket名称")
       end)
    (fun error => throw error).

Definition handlePut (req : PutRequest) (path userId userType : string) : M Response :=
  try_catch
    (lockConflict <- call (CheckLockPermission path (If req) "PUT") ;;
     match lockConflict with
     | Some conflict => ret (text_response (lc_message conflict) (lc_status conflict))
     | None =>
         let '(declaredContentLength, emptyBodyCheck) := declared_length req in
         let filename := Js.split_pop "/" path in
         let contentType := getMimeTypeFromFilename filename in
         webdavUploadMode <- upload_mode ;;
         let shouldUseDirect := String.eqb webdavUploadMode "direct" in
         if emptyBodyCheck then
           let emptyFile := {| file_data := []; file_name := filename;
                               file_type := contentType |} in
           call (UploadFile path emptyFile userId userType {| useMultipart := false |}) ;;;
           clear_mount_cache path userId userType ;;;
           ret created_response
         else if shouldUseDirect then
           try_catch
             (match body req with
              | None => ret (text_response "请求体不可用" 400)
              | Some bodyStream =>
                  fileData <- read_all bodyStream ;;
                  let file := {| file_data := fileData; file_name := filename;
                                 file_type := contentType |} in
                  call (UploadFile path file userId userType {| useMultipart := false |}) ;;;
                  clear_mount_cache path userId userType ;;;
                  ret created_response
              end)
             (fun error => throw error)
         else
           match body req with
           | None => ret (text_response "请求体不可用" 400)
           | Some bodyStream =>
               try_catch
                 (info <- call (GetDriverByPath path userId userType) ;;
                  let s3Key := normalizeFilePath (subPath info) path filename in
                  trueStreamingUpload bodyStream s3Key declaredContentLength
                    contentType path userId userType ;;;
                  match mount info with
                  | Some m => call (ClearDirectoryCache (id m))
                  | None => ret tt
                  end ;;;
                  ret created_response)
                 (fun error => throw error)
           end
     end)
    (fun error => ret (handleWebDAVError "PUT" error)).

End Handler.

(** *** A reference server for PUT: a settings table, a lock table left
    empty, and the list of files the FileSystem was asked to store. *)
Module Sim.

Record Server := {
  upload_mode_setting : option string;
  stored : list (string * list Byte.byte);
  streamed : list string
}.

Definition perform (R : Type) (c : Call R) (w : Server) : (Exn + R) * Server :=
  match c in Call T return (Exn + T) * Server with
  | CheckLockPermission _ _ _ => (inr None, w)
  | GetSettingMetadata _ =>
      (inr (match upload_mode_setting w with
            | Some v => Some {| value := Some v |}
            | None => None
            end), w)
  | UploadFile p f _ _ _ =>
      (inr tt, {| upload_mode_setting := upload_mode_setting w;
                  stored := (p, file_data f) :: stored w;
                  streamed := streamed w |})
  | GetDriverByPath p _ _ =>
      (inr {| s3Client := true; bucket_name := Some "bkt";
              mount := Some {| id := "m1" |}; subPath := p |}, w)
  | ClearDirectoryCache _ => (inr tt, w)
  | StreamingUpload _ k _ _ _ _ _ =>
      (inr tt, {| upload_mode_setting := upload_mode_setting w;
                  stored := stored w;
                  streamed := k :: streamed w |})
  end.

Definition mime (name : string) : string :=
  if Js.endsWith name ".txt" then "text/plain" else "application/octet-stream".

Definition on_error (method : string) (e : Exn) : Response :=
  match e with
  | HTTPException code m => text_response m code
  | ServiceError _ _ m => text_response m 500
  end.

Definition key_of (subPath path filename : string) : string := Js.substring_from 1 subPath.

Definition server (mode : option string) : Server :=
  {| upload_mode_setting := mode; stored := []; streamed := [] |}.

Definition hello : list Byte.byte := [Byte.x68; Byte.x65; Byte.x6c; Byte.x6c; Byte.x6f].


(** A PUT declaring an empty body. *)
Definition empty_put : PutRequest :=
  {| If := None; ContentLength := Some "0"; TransferEncoding := None;
     body := None |}.

(** A PUT carrying five bytes that declares neither a length nor chunks. *)
Definition bare_put : PutRequest :=
  {| If := None; ContentLength := None; TransferEncoding := None;
     body := Some {| chunks := [hello]; failure := None |} |}.

(** The same server with every path under a lock the request does not
    hold: the lock check reports the conflict. *)
Definition locked : LockConflict := {| lc_status := 423; lc_message := "Locked" |}.

Definition perform_locked (R : Type) (c : Call R) (w : Server) : (Exn + R) * Server :=
  match c in Call T return (Exn + T) * Server with
  | CheckLockPermission _ _ _ => (inr (Some locked), w)
  | GetSettingMetadata k => perform _ (GetSettingMetadata k) w
  | UploadFile p f u t o => perform _ (UploadFile p f u t o) w
  | GetDriverByPath p u t => perform _ (GetDriverByPath p u t) w
  | ClearDirectoryCache m => perform _ (ClearDirectoryCache m) w
  | StreamingUpload b k s ct q ps l => perform _ (StreamingUpload b k s ct q ps l) w
  end.

End Sim.

End WebdavPut.

(** ** webdav/methods/mkcol.js: the MKCOL handler *)

Module WebdavMkcol.

Record Mount := { id : string; storage_config_id : string }.

Record S3Config := { bucket_name : string; root_prefix : option string }.

(** The answer of [findMountPointByPath]: an error to report, or the mount
    and the path below it. *)
Inductive MountResult :=
| MountError (status : Z) (message : string)
| MountFound (mount : Mount) (subPath : string).

Inductive Call : Type -> Type :=
| FindMountPointByPath (path userId userType : string) : Call MountResult
| ReqText : Call string
| FindS3Config (id : string) : Call (option S3Config)
| CreateS3Client (config : S3Config) : Call unit
| CheckDirectoryExists (bucket key : string) : Call bool
| PutObject (Bucket Key : string) (ContentLength : Z) (Body : string) : Call unit
| ClearCacheAfterWebDAVOperation (key : string) (config : S3Config) (isDirectory : bool)
    : Call unit
| UpdateMountLastUsed (mountId : string) : Call unit.

Definition ROOT_MARKER : string := "_MARK_ROOT_DONT_DELETE_ME/".

(** Lines 55-62: the key of the marker object. *)
Definition valid_key (s3SubPath : string) : string :=
  if Js.truthy_str s3SubPath then s3SubPath else ROOT_MARKER.

(** Lines 72-75: the parent whose existence is checked, if any. *)
Definition parent_of (validS3SubPath : string) : option string :=
  if Js.includes_char "/" validS3SubPath then
    let idx := Js.lastIndexOf_char "/" validS3SubPath (Js.length validS3SubPath - 2) in
    let parentPath :=
      String.substring 0 (match idx with Some i => S i | None => 0 end) validS3SubPath in
    if Js.truthy_str parentPath then Some parentPath else None
  else None.

Definition plain_response (message : string) (code : Z) : Response :=
  {| status := code; resp_body := Some message; headers := [] |}.

(** The answer of the outer catch. The source appends an error id made from
    the time and a random number to the message; the id is left out. *)
Definition internal_error_response : Response :=
  text_response "内部服务器错误" 500.

Section Handler.
Context {World : Type}.
Variable perform : forall R, Call R -> World -> (Exn + R) * World.

(** [normalizeS3SubPath] of webdav/utils/webdavUtils.js, which is not part of
    the sources. *)
Variable normalizeS3SubPath : string -> S3Config -> bool -> string.

Local Abbreviation M := (M Call World).
Local Abbreviation call := (call perform).

Definition handleMkcol (path userId userType : string) : M Response :=
  try_catch
    (mountResult <- call (FindMountPointByPath path userId userType) ;;
     match mountResult with
     | MountError code message => ret (text_response message code)
     | MountFound mount subPath =>
         body <- call ReqText ;;
         if 0 <? Js.length body then ret (text_response "MKCOL请求不应包含正文" 415)
         else
           s3Config <- call (FindS3Config (storage_config_id mount)) ;;
           match s3Config with
           | None => ret (plain_response "存储配置不存在" 404)
           | Some s3Config =>
               call (CreateS3Client s3Config) ;;;
               let s3SubPath := normalizeS3SubPath subPath s3Config true in
               let validS3SubPath := valid_key s3SubPath in
               dirExists <- call (CheckDirectoryExists (bucket_name s3Config) validS3SubPath) ;;
               if dirExists : bool then ret (plain_response "目录已存在" 405)
               else
                 parentMissing <-
                   match parent_of validS3SubPath with
                   | Some parentPath =>
                       parentExists <- call (CheckDirectoryExists (bucket_name s3Config) parentPath) ;;
                       ret (negb parentExists)
                   | None => ret false
                   end ;;
                 if parentMissing : bool then ret (plain_response "父目录不存在" 409)
                 else
                   call (PutObject (bucket_name s3Config) validS3SubPath 0 EmptyString) ;;;
                   call (ClearCacheAfterWebDAVOperation validS3SubPath s3Config true) ;;;
                   call (UpdateMountLastUsed (id mount)) ;;;
                   ret created_response
           end
     end)
    (fun error => ret internal_error_response).

End Handler.

(** The handler sent a PutObject. *)
Definition is_put (ev : Event Call) : bool :=
  match ev with
  | Ev c => match c with
            | PutObject _ _ _ _ => true
            | _ => false
            end
  end.

(** What the handler may send to the bucket: an empty object under a key
    that is not empty. *)
Definition puts_marker_only (ev : Event Call) : bool :=
  match ev with
  | Ev c => match c with
            | PutObject _ key contentLength body =>
                Js.truthy_str key && (contentLength =? 0) && String.eqb body EmptyString
            | _ => true
            end
  end.

(** *** A reference server for MKCOL: one mount at /dav over one bucket whose
    keys are a set; a request body is part of the world. *)
Module Sim.

Record Server := {
  keys : gset string;
  request_body : string
}.

Definition the_mount : Mount := {| id := "m1"; storage_config_id := "c1" |}.
Definition the_config : S3Config := {| bucket_name := "bkt"; root_prefix := None |}.

Definition perform (R : Type) (c : Call R) (w : Server) : (Exn + R) * Server :=
  match c in Call T return (Exn + T) * Server with
  | FindMountPointByPath p _ _ =>
      if Js.startsWith p "/dav/"
      then (inr (MountFound the_mount (Js.substring_from 4 p)), w)
      else (inr (MountError 404 "挂载点不存在"), w)
  | ReqText => (inr (request_body w), w)
  | FindS3Config i => (inr (if String.eqb i "c1" then Some the_config else None), w)
  | CreateS3Client _ => (inr tt, w)
  | CheckDirectoryExists _ k => (inr (bool_decide (k ∈ keys w)), w)
  | PutObject _ k _ _ => (inr tt, {| keys := {[k]} ∪ keys w; request_body := request_body w |})
  | ClearCacheAfterWebDAVOperation _ _ _ => (inr tt, w)
  | UpdateMountLastUsed _ => (inr tt, w)
  end.

(** Drops the leading slash and makes a directory key end in a slash. *)
Definition normalize (subPath : string) (cfg : S3Config) (asDirectory : bool) : string :=
  let k := if Js.startsWith subPath "/" then Js.substring_from 1 subPath else subPath in
  if asDirectory && Js.truthy_str k && negb (Js.endsWith k "/") then k +:+ "/" else k.

Definition server (l : list string) (b : string) : Server :=
  {| keys := list_to_set l; request_body := b |}.

End Sim.

End WebdavMkcol.

(** ** services/authService.js: credentials and the path check *)

Module AuthService.

(** PermissionType, AuthType *)
Definition ADMIN : string := "admin".
Definition API_KEY : string := "apikey".
Definition NONE : string := "none".

Inductive PermissionType := TEXT | FILE | MOUNT | ADMIN_PERMISSION.

Record Permissions := {
  text : bool;
  file : bool;
  mount : bool;
  admin : bool
}.

(** The default [permissions = {}] *)
Definition no_permissions : Permissions :=
  {| text := false; file := false; mount := false; admin := false |}.

Definition all_permissions : Permissions :=
  {| text := true; file := true; mount := true; admin := true |}.

Record KeyInfo := {
  ki_id : string;
  ki_name : string;
  ki_key : string;
  ki_basicPath : string;
  ki_permissions : Permissions
}.

Record AuthResult := {
  isAuthenticated : bool;
  authType : string;
  userId : option string;
  permissions : Permissions;
  basicPath : string;
  keyInfo : option KeyInfo;
  adminId : option string;
  _isAdmin : bool
}.

(** [new AuthResult()] *)
Definition unauthenticated : AuthResult :=
  {| isAuthenticated := false; authType := NONE; userId := None;
     permissions := no_permissions; basicPath := "/"; keyInfo := None;
     adminId := None; _isAdmin := false |}.

Definition isAdmin (a : AuthResult) : bool :=
  String.eqb (authType a) ADMIN || _isAdmin a.

Definition hasPermission (a : AuthResult) (p : PermissionType) : bool :=
  if String.eqb (authType a) ADMIN || _isAdmin a then true
  else match p with
       | TEXT => text (permissions a)
       | FILE => file (permissions a)
       | MOUNT => mount (permissions a)
       | ADMIN_PERMISSION => admin (permissions a)
       end.

(** The members of PermissionType, lines 17-22 *)
Definition permission_name (p : PermissionType) : string :=
  match p with
  | TEXT => "text"
  | FILE => "file"
  | MOUNT => "mount"
  | ADMIN_PERMISSION => "admin"
  end.

(** Rows of the admins and api_keys tables. *)
Record Admin := { admin_id : string; admin_password : string }.

Record ApiKeyRecord := {
  key_id : string;
  key_name : string;
  key : string;
  text_permission : Js.JsVal;
  file_permission : Js.JsVal;
  mount_permission : Js.JsVal;
  basic_path : option string
}.

Inductive Call : Type -> Type :=
| ValidateAdminToken (token : string) : Call (option string)
| FindAdminByUsername (username : string) : Call (option Admin)
| VerifyPassword (password hash : string) : Call bool
| FindOneApiKey (key : string) : Call (option ApiKeyRecord)
| CheckAndDeleteExpiredApiKey (record : ApiKeyRecord) : Call bool
| UpdateLastUsed (keyId : string) : Call unit.

(** The result for an API key record. *)
Definition key_permissions (keyRecord : ApiKeyRecord) : Permissions :=
  {| text := Js.strict_eq_1 (text_permission keyRecord);
     file := Js.strict_eq_1 (file_permission keyRecord);
     mount := Js.strict_eq_1 (mount_permission keyRecord);
     admin := false |}.

Definition api_key_result (keyRecord : ApiKeyRecord) (keyText : string) : AuthResult :=
  let permissions := key_permissions keyRecord in
  {| isAuthenticated := true;
     authType := API_KEY;
     userId := Some (key_id keyRecord);
     permissions := permissions;
     basicPath := Js.str_or (basic_path keyRecord) "/";
     keyInfo := Some {| ki_id := key_id keyRecord;
                        ki_name := key_name keyRecord;
                        ki_key := keyText;
                        ki_basicPath := Js.str_or (basic_path keyRecord) "/";
                        ki_permissions := permissions |};
     adminId := None;
     _isAdmin := false |}.

(** The result for an administrator signed in with Basic credentials. *)
Definition basic_admin_result (a : Admin) : AuthResult :=
  {| isAuthenticated := true;
     authType := "basic";
     userId := Some (admin_id a);
     permissions := all_permissions;
     basicPath := "/";
     keyInfo := None;
     adminId := Some (admin_id a);
     _isAdmin := true |}.

(** The result for a Bearer token. *)
Definition bearer_admin_result (adminId : string) : AuthResult :=
  {| isAuthenticated := true;
     authType := ADMIN;
     userId := Some adminId;
     permissions := all_permissions;
     basicPath := "/";
     keyInfo := None;
     adminId := Some adminId;
     _isAdmin := false |}.

Section Service.
Context {World : Type}.
Variable perform : forall R, Call R -> World -> (Exn + R) * World.

(** [PermissionUtils.checkPathPermission] of utils/permissionUtils.js, which
    is not part of the sources: the path-permission predicate. *)
Variable pathPermission : string -> string -> bool.

Local Abbreviation M := (M Call World).
Local Abbreviation call := (call perform).

Definition parseAuthHeader (authHeader : option string) : option string * option string :=
  match authHeader with
  | None => (None, None)
  | Some h =>
      if negb (Js.truthy_str h) then (None, None)
      else if Js.startsWith h "Bearer " then (Some "bearer", Some (Js.substring_from 7 h))
      else if Js.startsWith h "ApiKey " then (Some "apikey", Some (Js.substring_from 7 h))
      else if Js.startsWith h "Basic " then (Some "basic", Some (Js.substring_from 6 h))
      else (None, None)
  end.

Definition validateAdminAuth (token : string) : M AuthResult :=
  try_catch
    (adminId <- call (ValidateAdminToken token) ;;
     match adminId with
     | Some i => if Js.truthy_str i then ret (bearer_admin_result i) else ret unauthenticated
     | None => ret unauthenticated
     end)
    (fun error => ret unauthenticated).

(** ApiKeyRepository.findByKey *)
Definition findByKey (k : string) : M (option ApiKeyRecord) :=
  if negb (Js.truthy_str k) then ret None else call (FindOneApiKey k).

(** validateBasicAuth, lines 166-207: [Some] is a value returned from inside
    the block, [None] means control falls through to what follows. *)
Definition basic_admin (username password : string) : M (option AuthResult) :=
  try_catch
    (admin <- call (FindAdminByUsername username) ;;
     match admin with
     | Some a =>
         try_catch
           (isPasswordValid <- call (VerifyPassword password (admin_password a)) ;;
            if isPasswordValid : bool then ret (Some (basic_admin_result a)) else ret None)
           (fun verifyError => ret None)
     | None => ret None
     end)
    (fun error => ret None).

(** validateBasicAuth, lines 209-260 *)
Definition basic_api_key (username password : string) : M (option AuthResult) :=
  try_catch
    (keyRecord <- findByKey username ;;
     match keyRecord with
     | Some keyRecord =>
         let hasMountPermission :=
           Js.String_is_1 (mount_permission keyRecord)
           || Js.strict_eq_true (mount_permission keyRecord) in
         if hasMountPermission then
           if String.eqb username password then
             expired <- call (CheckAndDeleteExpiredApiKey keyRecord) ;;
             if expired : bool then ret (Some unauthenticated)
             else
               call (UpdateLastUsed (key_id keyRecord)) ;;;
               ret (Some (api_key_result keyRecord (key keyRecord)))
           else ret None
         else ret None
     | None => ret None
     end)
    (fun error => ret None).

Definition validateBasicAuth (basicToken : string) : M AuthResult :=
  try_catch
    (match Js.atob basicToken with
     | None => throw (ServiceError None "InvalidCharacterError" "invalid base64")
     | Some decoded =>
         match Js.indexOf_char ":" decoded with
         | None => ret unauthenticated
         | Some separatorIndex =>
             let username := String.substring 0 separatorIndex decoded in
             let password := Js.substring_from (S separatorIndex) decoded in
             if negb (Js.truthy_str username) || negb (Js.truthy_str password)
             then ret unauthenticated
             else
               asAdmin <- basic_admin username password ;;
               match asAdmin with
               | Some result => ret result
               | None =>
                   asKey <- basic_api_key username password ;;
                   match asKey with
                   | Some result => ret result
                   | None => ret unauthenticated
                   end
               end
         end
     end)
    (fun error => ret unauthenticated).

Definition validateApiKeyAuth (apiKey : string) : M AuthResult :=
  try_catch
    (keyRecord <- findByKey apiKey ;;
     match keyRecord with
     | None => ret unauthenticated
     | Some keyRecord =>
         expired <- call (CheckAndDeleteExpiredApiKey keyRecord) ;;
         if expired : bool then ret unauthenticated
         else
           call (UpdateLastUsed (key_id keyRecord)) ;;;
           ret (api_key_result keyRecord apiKey)
     end)
    (fun error => ret unauthenticated).

Definition authenticate (authHeader : option string) : M AuthResult :=
  match parseAuthHeader authHeader with
  | (Some type, Some token) =>
      if negb (Js.truthy_str token) then ret unauthenticated
      else if String.eqb type "bearer" then validateAdminAuth token
      else if String.eqb type "apikey" then validateApiKeyAuth token
      else if String.eqb type "basic" then validateBasicAuth token
      else ret unauthenticated
  | _ => ret unauthenticated
  end.

Definition checkPermission (authResult : AuthResult) (requiredPermission : PermissionType) : bool :=
  if negb (isAuthenticated authResult) then false
  else hasPermission authResult requiredPermission.

(** checkPathPermission, lines 366-385 *)
Definition checkPathPermission (authResult : AuthResult) (requestPath : string) : bool :=
  if negb (isAuthenticated authResult) then false
  else if isAdmin authResult then true
  else if String.eqb (authType authResult) API_KEY then
    let basicPath := if Js.truthy_str (basicPath authResult) then basicPath authResult else "/" in
    pathPermission basicPath requestPath
  else false.

(** requirePermission, lines 395-417; [requestPath] defaults to null. *)
Definition requirePermission (authHeader : option string)
    (requiredPermission : PermissionType) (requestPath : option string) : M AuthResult :=
  authResult <- authenticate authHeader ;;
  if negb (isAuthenticated authResult)
  then throw (HTTPException ApiStatus.UNAUTHORIZED "需要认证访问")
  else if negb (checkPermission authResult requiredPermission)
  then throw (HTTPException ApiStatus.FORBIDDEN
                ("需要" +:+ permission_name requiredPermission +:+ "权限"))
  else if Js.truthy_opt requestPath
          && negb (checkPathPermission authResult (Js.str_or requestPath EmptyString))
  then throw (HTTPException ApiStatus.FORBIDDEN "路径权限不足")
  else ret authResult.

(** requireAdmin, lines 425-435 *)
Definition requireAdmin (authHeader : option string) : M AuthResult :=
  authResult <- authenticate authHeader ;;
  if negb (isAuthenticated authResult) || negb (isAdmin authResult)
  then throw (HTTPException ApiStatus.FORBIDDEN "需要管理员权限")
  else ret authResult.

End Service.

(** The use stamp of an API key was written. *)
Definition is_last_used (ev : Event Call) : bool :=
  match ev with
  | Ev c => match c with
            | UpdateLastUsed _ => true
            | _ => false
            end
  end.

(** *** A reference metadata store for authentication *)
Module Sim.

Record Db := {
  admins : gmap string Admin;
  api_keys : gmap string ApiKeyRecord;
  expired_keys : gset string
}.

(** Passwords are stored reversed, standing for their hash. *)
Definition hash (p : string) : string := String.string_of_list_ascii (List.rev (String.list_ascii_of_string p)).

Definition perform (R : Type) (c : Call R) (w : Db) : (Exn + R) * Db :=
  match c in Call T return (Exn + T) * Db with
  | ValidateAdminToken t => (inr (if String.eqb t "token-1" then Some "admin-1" else None), w)
  | FindAdminByUsername u => (inr (admins w !! u), w)
  | VerifyPassword p h => (inr (String.eqb (hash p) h), w)
  | FindOneApiKey k => (inr (api_keys w !! k), w)
  | CheckAndDeleteExpiredApiKey r =>
      if bool_decide (key r ∈ expired_keys w)
      then (inr true, {| admins := admins w; api_keys := delete (key r) (api_keys w);
                         expired_keys := expired_keys w |})
      else (inr false, w)
  | UpdateLastUsed _ => (inr tt, w)
  end.

Definition a_key (k : string) (mountPermission : Js.JsVal) (path : option string) : ApiKeyRecord :=
  {| key_id := "id-" +:+ k; key_name := "name-" +:+ k; key := k;
     text_permission := Js.JNum 0; file_permission := Js.JNum 1;
     mount_permission := mountPermission; basic_path := path |}.

Definition db : Db :=
  {| admins := {[ "root" := {| admin_id := "admin-1"; admin_password := hash "s3cret" |} ]};
     api_keys := {[ "key1" := a_key "key1" (Js.JNum 1) (Some "/team-a/");
                    "key2" := a_key "key2" (Js.JNum 0) (Some "/team-b/") ]};
     expired_keys := ∅ |}.

(** The path-permission predicate of the reference store: the basic path,
    with a final slash, is a prefix of the request path with a final slash. *)
Definition with_slash (p : string) : string :=
  if Js.endsWith p "/" then p else p +:+ "/".

Definition prefix_permission (basicPath requestPath : string) : bool :=
  String.eqb basicPath "/" || Js.startsWith (with_slash requestPath) (with_slash basicPath).

(** The same tables, with key1 past its expiry. *)
Definition db_expired : Db :=
  {| admins := admins db; api_keys := api_keys db; expired_keys := {[ "key1" ]} |}.

End Sim.

End AuthService.

(** ** routes/fsRoutes.js: the /api/fs operations guarded by the path check *)

Module FsRoutes.

(** A JSON payload handed through by the routes. *)
#[local] Unset Elimination Schemes.
Inductive Json :=
| JsonNull
| JsonBool (b : bool)
| JsonNum (n : Z)
| JsonStr (s : string)
| JsonArr (l : list Json)
| JsonObj (l : list (string * Json)).
#[local] Set Elimination Schemes.

(** The unified response envelope [{code, message, data, success}] sent with
    an HTTP status. Modelled from the spec: [createErrorResponse] of
    utils/common.js is absent; it fills the envelope of section 6 with the
    status as code and success false. *)
Record ApiResponse := {
  http_status : Z;
  code : Z;
  message : string;
  data : option Json;
  success : bool
}.

Definition error_json (code : Z) (message : string) : ApiResponse :=
  {| http_status := code; code := code; message := message; data := None;
     success := false |}.

Definition success_json (message : string) (data : option Json) : ApiResponse :=
  {| http_status := 200; code := ApiStatus.SUCCESS; message := message; data := data;
     success := true |}.

(** [userInfo], set by unifiedFsAuthMiddleware: an administrator
    (hasFullAccess true) or an API key user with the key's info. *)
Inductive UserInfo :=
| AdminUser (id : option string)
| ApiKeyUser (info : AuthService.KeyInfo).

Definition hasFullAccess (u : UserInfo) : bool :=
  match u with
  | AdminUser _ => true
  | ApiKeyUser _ => false
  end.

(** unifiedFsAuthMiddleware: the user for an authentication result, or the
    exception it throws. An API key result always carries its keyInfo; for a
    result without one the source would fail at the first read of
    [userInfo.info.basicPath], which is reported here. *)
Definition unifiedFsAuth (authResult : option AuthService.AuthResult) : Exn + UserInfo :=
  match authResult with
  | None => inl (HTTPException ApiStatus.UNAUTHORIZED "需要认证访问")
  | Some a =>
      if negb (AuthService.isAuthenticated a)
      then inl (HTTPException ApiStatus.UNAUTHORIZED "需要认证访问")
      else if AuthService.isAdmin a
      then inr (AdminUser (match AuthService.userId a with
                           | Some i => if Js.truthy_str i then Some i else AuthService.adminId a
                           | None => AuthService.adminId a
                           end))
      else if AuthService.hasPermission a AuthService.FILE
      then match AuthService.keyInfo a with
           | Some k => inr (ApiKeyUser k)
           | None => inl (ServiceError None "TypeError" "keyInfo is null")
           end
      else inl (HTTPException ApiStatus.FORBIDDEN "需要文件权限")
  end.

Record S3Config := {
  cfg_id : string;
  root_prefix : option string
}.

Record Mount := {
  mount_id : string;
  storage_type : string;
  mount_path : string;
  storage_config_id : string
}.

Inductive MountResult :=
| MountError (status : Z) (message : string)
| MountFound (mount : option Mount) (subPath : string).

Record UploadedFile := { file_name : string; file_bytes : list Byte.byte }.

Record UploadResult := { useMultipart : bool; upload_data : Json }.

Record BatchCopyResult := {
  hasCrossStorageOperations : bool;
  bc_success : Z;
  bc_skipped : Z;
  bc_failed : list Json;
  crossStorageResults : Json;
  details : Json
}.

(** The services behind the routes (services/fsService.js and the helpers of
    the presign route); every one of them reaches the metadata store or the
    object store. *)
Inductive Call : Type -> Type :=
| CreateDirectory (path : string) (user : UserInfo) : Call unit
| UploadFile (path : string) (file : UploadedFile) (user : UserInfo) (useMultipart : bool)
    : Call UploadResult
| RemoveItem (path : string) (user : UserInfo) : Call unit
| RenameItem (oldPath newPath : string) (user : UserInfo) : Call unit
| BatchRemoveItems (paths : list string) (user : UserInfo) : Call Json
| UpdateFile (path : string) (content : Json) (user : UserInfo) : Call Json
| BatchCopyItems (items : list (string * string)) (user : UserInfo) (skipExisting : bool)
    : Call BatchCopyResult
| FindMountPointByPath (path : string) (user : UserInfo) : Call MountResult
| FindS3Config (id : string) : Call (option S3Config)
| GeneratePresignedPutUrl (config : S3Config) (s3Path contentType : string) : Call string
| GenerateFileId : Call string.

(** The requests, as the handlers read them from the JSON body, the form or
    the query string; [None] is a missing field. *)
Inductive FsRequest :=
| Mkdir (path : option string)
| Upload (file : option UploadedFile) (path : option string) (use_multipart : bool)
| Remove (path : option string)
| Rename (oldPath newPath : option string)
| BatchRemove (paths : option (list string))
| BatchCopy (items : option (list (string * string))) (skipExisting : bool)
| Update (path : option string) (content : option Json)
| Presign (path fileName : option string).

(** [path.endsWith(/) ? path + fileName : path + / + fileName] *)
Definition target_path (path fileName : string) : string :=
  if Js.endsWith path "/" then path +:+ fileName else path +:+ "/" +:+ fileName.

(** The paths a request puts to the path check. *)
Definition checked_paths (req : FsRequest) : list string :=
  match req with
  | Mkdir (Some p) | Upload _ (Some p) _ | Remove (Some p) | Update (Some p) _ => [p]
  | Rename (Some o) (Some n) => [o; n]
  | BatchRemove (Some ps) => ps
  | BatchCopy (Some items) _ => List.concat (List.map (fun it => [fst it; snd it]) items)
  | Presign (Some p) (Some f) => [target_path p f]
  | _ => []
  end.

(** The request carries the parameters its handler requires before it comes
    to the path check. *)
Definition has_required_parameters (req : FsRequest) : bool :=
  match req with
  | Mkdir p | Remove p => Js.truthy_opt p
  | Upload f p _ => match f with Some _ => Js.truthy_opt p | None => false end
  | Rename o n => Js.truthy_opt o && Js.truthy_opt n
  | BatchRemove ps => match ps with Some (_ :: _) => true | _ => false end
  | BatchCopy items _ => match items with Some (_ :: _) => true | _ => false end
  | Update p c => Js.truthy_opt p && match c with Some _ => true | None => false end
  | Presign p f => Js.truthy_opt p && Js.truthy_opt f
  end.

(** Decimal text of a number in a message. *)
Definition show (n : Z) : string := DecimalString.NilZero.string_of_int (Z.to_int n).

(** The query string of /api/fs/search; [None] is a parameter left out. *)
Record SearchQuery := {
  q : option string;
  sq_scope : option string;
  mount_id_param : option string;
  sq_path : option string;
  sq_limit : option string;
  sq_offset : option string
}.

Record SearchParams := {
  query : string;
  scope : string;
  mountId : string;
  sp_path : string;
  limit : Z;
  offset : Z
}.

(** extractSearchParams, lines 1739-1755; [parseInt(undefined)] is NaN. *)
Definition extractSearchParams (queryParams : SearchQuery) : SearchParams :=
  let query := Js.str_or (q queryParams) EmptyString in
  let scope := Js.str_or (sq_scope queryParams) "global" in
  let mountId := Js.str_or (mount_id_param queryParams) EmptyString in
  let path := Js.str_or (sq_path queryParams) EmptyString in
  let limit := Js.num_or (match sq_limit queryParams with
                          | Some s => Js.parseInt_str s None
                          | None => None
                          end) 50 in
  let offset := Js.num_or (match sq_offset queryParams with
                           | Some s => Js.parseInt_str s None
                           | None => None
                           end) 0 in
  {| query := query; scope := scope; mountId := mountId; sp_path := path;
     limit := Z.min limit 200; offset := Z.max offset 0 |}.

Section Routes.
Context {World : Type}.
Variable perform : forall R, Call R -> World -> (Exn + R) * World.

(** [checkPathPermissionForOperation] of services/apiKeyService.js, which is
    not part of the sources: the path-permission predicate, applied to the
    key's basic path and the request path. *)
Variable checkPathPermissionForOperation : string -> string -> bool.

(** [getMimeTypeFromFilename] (utils/fileUtils.js) and [buildS3Url]
    (utils/s3Utils.js), not part of the sources. *)
Variable getMimeTypeFromFilename : string -> string.
Variable buildS3Url : S3Config -> string -> string.

Local Abbreviation M := (M Call World).
Local Abbreviation call := (call perform).

(** checkPathPermission, lines 850-857 *)
Definition checkPathPermission (userInfo : UserInfo) (path : string) : bool :=
  match userInfo with
  | AdminUser _ => true
  | ApiKeyUser info => checkPathPermissionForOperation (AuthService.ki_basicPath info) path
  end.

(** The catch clause shared by the routes. *)
Definition on_error (defaultMessage : string) (error : Exn) : ApiResponse :=
  match error with
  | HTTPException code m => error_json code m
  | ServiceError _ _ m =>
      error_json ApiStatus.INTERNAL_ERROR (if Js.truthy_str m then m else defaultMessage)
  end.

Definition mkdir (userInfo : UserInfo) (path : option string) : M ApiResponse :=
  match path with
  | Some path =>
      if negb (Js.truthy_str path) then ret (error_json ApiStatus.BAD_REQUEST "请提供目录路径")
      else if negb (checkPathPermission userInfo path)
      then ret (error_json ApiStatus.FORBIDDEN "没有权限在此路径创建目录")
      else
        try_catch
          (call (CreateDirectory path userInfo) ;;;
           ret (success_json "目录创建成功" None))
          (fun error => ret (on_error "创建目录失败" error))
  | None => ret (error_json ApiStatus.BAD_REQUEST "请提供目录路径")
  end.

Definition upload (userInfo : UserInfo) (file : option UploadedFile) (path : option string)
    (useMultipart : bool) : M ApiResponse :=
  try_catch
    (match file, path with
     | Some file, Some path =>
         if negb (Js.truthy_str path) then ret (error_json ApiStatus.BAD_REQUEST "请提供文件和路径")
         else if negb (checkPathPermission userInfo path)
         then ret (error_json ApiStatus.FORBIDDEN "没有权限在此路径上传文件")
         else
           result <- call (UploadFile path file userInfo useMultipart) ;;
           if FsRoutes.useMultipart result
           then ret (success_json "需要使用分片上传" (Some (upload_data result)))
           else ret (success_json "文件上传成功" (Some (upload_data result)))
     | _, _ => ret (error_json ApiStatus.BAD_REQUEST "请提供文件和路径")
     end)
    (fun error => ret (on_error "上传文件失败" error)).

Definition remove (userInfo : UserInfo) (path : option string) : M ApiResponse :=
  match path with
  | Some path =>
      if negb (Js.truthy_str path) then ret (error_json ApiStatus.BAD_REQUEST "请提供路径")
      else if negb (checkPathPermission userInfo path)
      then ret (error_json ApiStatus.FORBIDDEN "没有权限删除此路径的文件")
      else
        try_catch
          (call (RemoveItem path userInfo) ;;;
           ret (success_json "删除成功" None))
          (fun error => ret (on_error "删除失败" error))
  | None => ret (error_json ApiStatus.BAD_REQUEST "请提供路径")
  end.

Definition rename (userInfo : UserInfo) (oldPath newPath : option string) : M ApiResponse :=
  match oldPath, newPath with
  | Some oldPath, Some newPath =>
      if negb (Js.truthy_str oldPath) || negb (Js.truthy_str newPath)
      then ret (error_json ApiStatus.BAD_REQUEST "请提供原路径和新路径")
      else if negb (checkPathPermission userInfo oldPath)
              || negb (checkPathPermission userInfo newPath)
      then ret (error_json ApiStatus.FORBIDDEN "没有权限重命名此路径的文件")
      else
        try_catch
          (call (RenameItem oldPath newPath userInfo) ;;;
           ret (success_json "重命名成功" None))
          (fun error => ret (on_error "重命名失败" error))
  | _, _ => ret (error_json ApiStatus.BAD_REQUEST "请提供原路径和新路径")
  end.

(** The loop of batch-remove: the first path that fails the check. *)
Definition first_forbidden (userInfo : UserInfo) (paths : list string) : option string :=
  List.find (fun path => negb (checkPathPermission userInfo path)) paths.

Definition batch_remove (userInfo : UserInfo) (paths : option (list string)) : M ApiResponse :=
  match paths with
  | Some ((_ :: _) as paths) =>
      match (if negb (hasFullAccess userInfo) then first_forbidden userInfo paths else None) with
      | Some path => ret (error_json ApiStatus.FORBIDDEN ("没有权限删除路径: " +:+ path))
      | None =>
          try_catch
            (result <- call (BatchRemoveItems paths userInfo) ;;
             ret (success_json "批量删除完成" (Some result)))
            (fun error => ret (on_error "批量删除失败" error))
      end
  | _ => ret (error_json ApiStatus.BAD_REQUEST "请提供有效的路径数组")
  end.

(** The loop of batch-copy: the message for the first item whose source or
    target fails the check. *)
Fixpoint first_forbidden_item (userInfo : UserInfo) (items : list (string * string))
  : option string :=
  match items with
  | [] => None
  | (sourcePath, targetPath) :: rest =>
      if negb (checkPathPermission userInfo sourcePath)
      then Some ("没有权限访问源路径: " +:+ sourcePath)
      else if negb (checkPathPermission userInfo targetPath)
      then Some ("没有权限访问目标路径: " +:+ targetPath)
      else first_forbidden_item userInfo rest
  end.

Definition batch_copy (userInfo : UserInfo) (items : option (list (string * string)))
    (skipExisting : bool) : M ApiResponse :=
  match items with
  | Some ((_ :: _) as items) =>
      match (if negb (hasFullAccess userInfo) then first_forbidden_item userInfo items
             else None) with
      | Some m => ret (error_json ApiStatus.FORBIDDEN m)
      | None =>
          try_catch
            (result <- call (BatchCopyItems items userInfo skipExisting) ;;
             let failed := Z.of_nat (List.length (bc_failed result)) in
             if hasCrossStorageOperations result then
               ret (success_json "批量复制请求处理完成，包含跨存储操作"
                      (Some (JsonObj
                         [("crossStorage", JsonBool true);
                          ("requiresClientSideCopy", JsonBool true);
                          ("standardCopyResults",
                           JsonObj [("success", JsonNum (bc_success result));
                                    ("skipped", JsonNum (bc_skipped result));
                                    ("failed", JsonNum failed)]);
                          ("crossStorageResults", crossStorageResults result);
                          ("failed", JsonArr (bc_failed result));
                          ("details", details result)])))
             else
               ret (success_json
                      ("批量复制完成，成功: " +:+ show (bc_success result) +:+ "，跳过: "
                       +:+ show (bc_skipped result) +:+ "，失败: " +:+ show failed)
                      (Some (JsonObj
                         [("crossStorage", JsonBool false);
                          ("success", JsonNum (bc_success result));
                          ("skipped", JsonNum (bc_skipped result));
                          ("failed", JsonNum failed);
                          ("details", details result)]))))
            (fun error => ret (on_error "批量复制失败" error))
      end
  | _ => ret (error_json ApiStatus.BAD_REQUEST "请提供有效的复制项数组")
  end.

Definition update (userInfo : UserInfo) (path : option string) (content : option Json)
    : M ApiResponse :=
  match path, content with
  | Some path, Some content =>
      if negb (Js.truthy_str path) then ret (error_json ApiStatus.BAD_REQUEST "请提供文件路径和内容")
      else if negb (checkPathPermission userInfo path)
      then ret (error_json ApiStatus.FORBIDDEN "没有权限更新此路径的文件")
      else
        try_catch
          (result <- call (UpdateFile path content userInfo) ;;
           ret (success_json "文件更新成功" (Some result)))
          (fun error => ret (on_error "更新文件失败" error))
  | _, _ => ret (error_json ApiStatus.BAD_REQUEST "请提供文件路径和内容")
  end.

(** Lines 1355-1376 of the presign route: the object key of the target. *)
Definition presign_key (mount : Mount) (s3Config : S3Config) (targetPath fileName : string)
  : string :=
  let relativePathInMount :=
    if String.eqb (mount_path mount) "/" then Js.substring_from 1 targetPath
    else
      let r := Js.substring_from (String.length (mount_path mount)) targetPath in
      let r := if negb (Js.startsWith r "/") then "/" +:+ r else r in
      Js.substring_from 1 r in
  let rootPrefix :=
    match root_prefix s3Config with
    | Some rp => if Js.truthy_str rp then (if Js.endsWith rp "/" then rp else rp +:+ "/")
                 else EmptyString
    | None => EmptyString
    end in
  let s3Path := rootPrefix +:+ relativePathInMount in
  if Js.truthy_str s3Path then s3Path else fileName.

Definition presign (userInfo : UserInfo) (path fileName : option string) : M ApiResponse :=
  try_catch
    (match path, fileName with
     | Some path, Some fileName =>
         if negb (Js.truthy_str path) || negb (Js.truthy_str fileName)
         then ret (error_json ApiStatus.BAD_REQUEST "请提供上传路径和文件名")
         else
           let tempTargetPath := target_path path fileName in
           if negb (checkPathPermission userInfo tempTargetPath)
           then ret (error_json ApiStatus.FORBIDDEN "没有权限在此路径上传文件")
           else
             mountResult <- call (FindMountPointByPath path userInfo) ;;
             match mountResult with
             | MountError code m => ret (error_json code m)
             | MountFound None _ => ret (error_json ApiStatus.BAD_REQUEST "当前路径不支持预签名URL上传")
             | MountFound (Some mount) subPath =>
                 if negb (String.eqb (storage_type mount) "S3")
                 then ret (error_json ApiStatus.BAD_REQUEST "当前路径不支持预签名URL上传")
                 else
                   s3Config <- call (FindS3Config (storage_config_id mount)) ;;
                   match s3Config with
                   | None => ret (error_json ApiStatus.NOT_FOUND "存储配置不存在")
                   | Some s3Config =>
                       let targetPath := target_path path fileName in
                       let s3Path := presign_key mount s3Config targetPath fileName in
                       let finalContentType := getMimeTypeFromFilename fileName in
                       presignedUrl <- call (GeneratePresignedPutUrl s3Config s3Path finalContentType) ;;
                       let s3Url := buildS3Url s3Config s3Path in
                       fileId <- call GenerateFileId ;;
                       ret (success_json "获取预签名URL成功"
                              (Some (JsonObj
                                 [("presignedUrl", JsonStr presignedUrl);
                                  ("fileId", JsonStr fileId);
                                  ("s3Path", JsonStr s3Path);
                                  ("s3Url", JsonStr s3Url);
                                  ("mountId", JsonStr (mount_id mount));
                                  ("s3ConfigId", JsonStr (cfg_id s3Config));
                                  ("targetPath", JsonStr targetPath);
                                  ("contentType", JsonStr finalContentType)])))
                   end
             end
     | _, _ => ret (error_json ApiStatus.BAD_REQUEST "请提供上传路径和文件名")
     end)
    (fun error => ret (on_error "获取预签名URL失败" error)).

(** The route of a request. *)
Definition handle (userInfo : UserInfo) (req : FsRequest) : M ApiResponse :=
  match req with
  | Mkdir p => mkdir userInfo p
  | Upload f p m => upload userInfo f p m
  | Remove p => remove userInfo p
  | Rename o n => rename userInfo o n
  | BatchRemove ps => batch_remove userInfo ps
  | BatchCopy items sk => batch_copy userInfo items sk
  | Update p c => update userInfo p c
  | Presign p f => presign userInfo p f
  end.

End Routes.

(** *** A reference service layer: it refuses nothing and records the paths
    it was asked to change. *)
Module Sim.

Definition perform (R : Type) (c : Call R) (w : list string) : (Exn + R) * list string :=
  match c in Call T return (Exn + T) * list string with
  | CreateDirectory p _ => (inr tt, p :: w)
  | UploadFile p _ _ m => (inr {| useMultipart := m; upload_data := JsonNull |}, p :: w)
  | RemoveItem p _ => (inr tt, p :: w)
  | RenameItem o n _ => (inr tt, n :: o :: w)
  | BatchRemoveItems ps _ => (inr JsonNull, ps ++ w)
  | UpdateFile p _ _ => (inr JsonNull, p :: w)
  | BatchCopyItems items _ _ =>
      (inr {| hasCrossStorageOperations := false; bc_success := Z.of_nat (List.length items);
              bc_skipped := 0; bc_failed := []; crossStorageResults := JsonNull;
              details := JsonNull |}, List.map snd items ++ w)
  | FindMountPointByPath p _ =>
      (inr (MountFound (Some {| mount_id := "m1"; storage_type := "S3"; mount_path := "/";
                                storage_config_id := "c1" |}) p), w)
  | FindS3Config i => (inr (Some {| cfg_id := i; root_prefix := None |}), w)
  | GeneratePresignedPutUrl _ k _ => (inr ("https://bucket.s3.example/" +:+ k +:+ "?sig"), w)
  | GenerateFileId => (inr "file-1", w)
  end.

Definition team_a_key : AuthService.KeyInfo :=
  {| AuthService.ki_id := "id-key1"; AuthService.ki_name := "name-key1";
     AuthService.ki_key := "key1"; AuthService.ki_basicPath := "/team-a/";
     AuthService.ki_permissions :=
       {| AuthService.text := false; AuthService.file := true;
          AuthService.mount := true; AuthService.admin := false |} |}.

Definition team_a : UserInfo := ApiKeyUser team_a_key.

Definition s3_url (cfg : S3Config) (k : string) : string := "https://bucket.s3.example/" +:+ k.

End Sim.

End FsRoutes.

(** ** routes/urlUploadRoutes.js: POST /api/url/commit *)

Module UrlUpload.

(** A row of the files table. *)
Record FileRecord := {
  id : string;
  s3_config_id : string;
  storage_path : string;
  created_by : option string;
  slug : string;
  size : Z
}.

Record S3Config := {
  cfg_id : string;
  total_storage_bytes : option Z
}.

(** The result row of getTotalSizeByS3ConfigExcludingFile. *)
Record Usage := { total_used : option Z }.

(** The caller, as PermissionUtils reads it from the context. *)
Record Caller := {
  isAdmin : bool;
  userId : string;
  authType : string
}.

(** The JSON body of the commit request. *)
Record CommitBody := {
  file_id : option string;
  etag : option string;
  body_size : Js.JsVal;
  password : option string;
  expires_in : Js.JsVal;
  remark : option string;
  body_slug : option string;
  max_views : Js.JsVal
}.

(** The fields written by the commit; a number that is [Some None] is NaN. *)
Record UpdateData := {
  ud_etag : option string;
  ud_created_by : string;
  ud_remark : option string;
  ud_password : option string;
  ud_expires_at : option string;
  ud_max_views : option (option Z);
  ud_updated_at : string;
  ud_size : option Z;
  ud_slug : option string
}.

Record CommitData := {
  cd_file : FileRecord;
  hasPassword : bool;
  expiresAt : option string;
  maxViews : option (option Z);
  url : string
}.

Record ApiResponse := {
  http_status : Z;
  code : Z;
  message : string;
  data : option CommitData;
  success : bool
}.

(** Modelled from the spec: [createErrorResponse] of utils/common.js is
    absent; it fills the envelope of section 6 with the status as code and
    success false. *)
Definition error_json (code : Z) (message : string) : ApiResponse :=
  {| http_status := code; code := code; message := message; data := None;
     success := false |}.

Inductive Call : Type -> Type :=
| FindFileById (fileId : string) : Call (option FileRecord)
| FindS3ConfigByIdAndAdmin (configId adminId : string) : Call (option S3Config)
| FindPublicS3ConfigById (configId : string) : Call (option S3Config)
| FindS3ConfigById (configId : string) : Call (option S3Config)
| GetTotalSizeByS3ConfigExcludingFile (configId fileId : string) : Call (option Usage)
| DeleteFileFromS3 (config : S3Config) (storagePath : string) : Call unit
| HashPassword (password : string) : Call string
| FindBySlugExcludingId (slug fileId : string) : Call (option FileRecord)
| UpdateFile (fileId : string) (updateData : UpdateData) : Call unit
| UpsertFilePasswordRecord (fileId password : string) : Call unit
| UpdateParentDirectoriesModifiedTimeHelper (config : S3Config) (storagePath : string)
    : Call unit
| ClearCache (configId : string) : Call unit.

(** [/^[a-zA-Z0-9_-]+$/] *)
Definition slug_char (c : ascii) : bool :=
  let n := Ascii.nat_of_ascii c in
  (Nat.leb 97 n && Nat.leb n 122) || (Nat.leb 65 n && Nat.leb n 90)
  || (Nat.leb 48 n && Nat.leb n 57) || Nat.eqb n 95 || Nat.eqb n 45.

Definition slug_ok (s : string) : bool :=
  Js.truthy_str s && List.forallb slug_char (String.list_ascii_of_string s).

(** [parseInt(body.size || 0)] *)
Definition committed_size (body : CommitBody) : option Z :=
  Js.parseInt (if Js.truthy (body_size body) then body_size body else Js.JNum 0).

(** Line 253: [usageResult?.total_used || 0] *)
Definition current_usage (usageResult : option Usage) : Z :=
  match usageResult with
  | Some u => Js.num_or (total_used u) 0
  | None => 0
  end.

(** Lines 236-242: the configuration is looked up as the administrator's
    own or as a public one. *)
Definition config_lookup (caller : Caller) (file : FileRecord) : Call (option S3Config) :=
  if isAdmin caller then FindS3ConfigByIdAndAdmin (s3_config_id file) (userId caller)
  else FindPublicS3ConfigById (s3_config_id file).

(** Lines 257-260: [totalAfterCommit = currentUsage + fileSize] and
    [totalAfterCommit > s3Config.total_storage_bytes]; a NaN size compares
    false. *)
Definition exceeds (currentUsage : Z) (fileSize : option Z) (capacity : Z) : bool :=
  match fileSize with
  | Some n => capacity <? Js.plus currentUsage n
  | None => false
  end.

(** Line 270, [await fileRepository.deleteById(file.id)]. FileRepository
    (repositories/FileRepository.js) removes a row with [deleteFile]; it
    defines no [deleteById], and what it uses of its base class (findById,
    create, update, delete, ...) takes the table first. The routes that
    delete a file record elsewhere in the file (lines 2757 and 3220) call
    [deleteFile]. Calling the method that is not there throws this
    TypeError, before the database is asked anything. *)
Definition deleteById_is_not_a_function : Exn :=
  ServiceError None "TypeError" "fileRepository.deleteById is not a function".

Section Handler.
Context {World : Type}.
Variable perform : forall R, Call R -> World -> (Exn + R) * World.

(** [formatFileSize] of utils/common.js, not part of the sources; the clock:
    the present time and the time a number of hours from now, as ISO text. *)
Variable formatFileSize : Z -> string.
Variable now : string.
Variable hours_from_now : Z -> string.

Local Abbreviation M := (M Call World).
Local Abbreviation call := (call perform).

(** Lines 248-285: the capacity check; [Some] is the response returned from
    inside the block. *)
Definition capacity_check (s3Config : S3Config) (file : FileRecord) (body : CommitBody)
    : M (option ApiResponse) :=
  match total_storage_bytes s3Config with
  | None => ret None
  | Some capacity =>
      usageResult <- call (GetTotalSizeByS3ConfigExcludingFile (s3_config_id file) (id file)) ;;
      let currentUsage := current_usage usageResult in
      let fileSize := committed_size body in
      if exceeds currentUsage fileSize capacity then
        try_catch
          (call (DeleteFileFromS3 s3Config (storage_path file)))
          (fun deleteError => ret tt) ;;;
        throw (A:=unit) deleteById_is_not_a_function ;;;
        let remainingSpace := Z.max 0 (Js.minus capacity currentUsage) in
        ret (Some (error_json ApiStatus.BAD_REQUEST
                     ("存储空间不足。文件大小("
                      +:+ formatFileSize (match fileSize with Some n => n | None => 0 end)
                      +:+ ")超过剩余空间(" +:+ formatFileSize remainingSpace
                      +:+ ")。存储桶总容量限制为" +:+ formatFileSize capacity
                      +:+ "。文件已被删除。")))
      else ret None
  end.

(** Lines 287-404: the record is updated and returned. *)
Definition finish_commit (caller : Caller) (fileId : string) (file : FileRecord)
    (body : CommitBody) : M ApiResponse :=
  passwordHash <-
    (if Js.truthy_opt (password body)
     then h <- call (HashPassword (Js.str_or (password body) EmptyString)) ;; ret (Some h)
     else ret None) ;;
  let expiresAt :=
    if Js.truthy (expires_in body) then
      match Js.parseInt (expires_in body) with
      | Some h => if 0 <? h then Some (hours_from_now h) else None
      | None => None
      end
    else None in
  let remark := if Js.truthy_opt (remark body) then remark body else None in
  slugUpdate <-
    (if Js.truthy_opt (body_slug body) then
       let s := Js.str_or (body_slug body) EmptyString in
       if negb (slug_ok s)
       then ret (inl (error_json ApiStatus.BAD_REQUEST
                        "自定义链接格式无效，只允许字母、数字、连字符和下划线"))
       else
         existingSlug <- call (FindBySlugExcludingId s fileId) ;;
         match existingSlug with
         | Some _ => ret (inl (error_json ApiStatus.CONFLICT "自定义链接已被其他文件占用"))
         | None => ret (inr (Some s))
         end
     else ret (inr None)) ;;
  match slugUpdate with
  | inl response => ret response
  | inr newSlug =>
      let maxViews := if Js.truthy (max_views body) then Some (Js.parseInt (max_views body))
                      else None in
      let fileSize :=
        if Js.truthy (body_size body) then
          match Js.parseInt (body_size body) with
          | Some n => Some (if n <? 0 then 0 else n)
          | None => Some 0
          end
        else None in
      let creator := if String.eqb (authType caller) "admin" then userId caller
                     else "apikey:" +:+ userId caller in
      let updateData :=
        {| ud_etag := if Js.truthy_opt (etag body) then etag body else None;
           ud_created_by := creator;
           ud_remark := remark;
           ud_password := passwordHash;
           ud_expires_at := expiresAt;
           ud_max_views := maxViews;
           ud_updated_at := now;
           ud_size := fileSize;
           ud_slug := newSlug |} in
      call (UpdateFile fileId updateData) ;;;
      (if Js.truthy_opt (password body)
       then call (UpsertFilePasswordRecord fileId (Js.str_or (password body) EmptyString))
       else ret tt) ;;;
      try_catch
        (s3Config <- call (FindS3ConfigById (s3_config_id file)) ;;
         match s3Config with
         | Some s3Config =>
             call (UpdateParentDirectoriesModifiedTimeHelper s3Config (storage_path file))
         | None => ret tt
         end)
        (fun error => ret tt) ;;;
      call (ClearCache (s3_config_id file)) ;;;
      updatedFile <- call (FindFileById fileId) ;;
      match updatedFile with
      | None => throw (ServiceError None "TypeError" "Cannot read properties of null")
      | Some updatedFile =>
          ret {| http_status := 200; code := ApiStatus.SUCCESS; message := "文件提交成功";
                 data := Some {| cd_file := updatedFile;
                                 hasPassword := match passwordHash with
                                                | Some h => Js.truthy_str h
                                                | None => false
                                                end;
                                 expiresAt := expiresAt;
                                 maxViews := maxViews;
                                 url := "/file/" +:+ slug updatedFile |};
                 success := true |}
      end
  end.

(** Does another creator own the record? *)
Definition owned_by_other (file : FileRecord) (owner : string) : bool :=
  match created_by file with
  | Some cb => Js.truthy_str cb && negb (String.eqb cb owner)
  | None => false
  end.

Definition commit (caller : Caller) (body : CommitBody) : M ApiResponse :=
  try_catch
    (if negb (Js.truthy_opt (file_id body))
     then ret (error_json ApiStatus.BAD_REQUEST "缺少文件ID参数")
     else
       let fileId := Js.str_or (file_id body) EmptyString in
       file <- call (FindFileById fileId) ;;
       match file with
       | None => ret (error_json ApiStatus.NOT_FOUND "文件不存在或已被删除")
       | Some file =>
           if isAdmin caller && owned_by_other file (userId caller)
           then ret (error_json ApiStatus.FORBIDDEN "您无权更新此文件")
           else if String.eqb (authType caller) "apikey"
                   && owned_by_other file ("apikey:" +:+ userId caller)
           then ret (error_json ApiStatus.FORBIDDEN "此API密钥无权更新此文件")
           else
             s3Config <- call (config_lookup caller file) ;;
             match s3Config with
             | None => ret (error_json ApiStatus.BAD_REQUEST "无效的S3配置ID或无权访问该配置")
             | Some s3Config =>
                 rejected <- capacity_check s3Config file body ;;
                 match rejected with
                 | Some response => ret response
                 | None => finish_commit caller fileId file body
                 end
             end
       end)
    (fun error =>
       ret (error_json ApiStatus.INTERNAL_ERROR ("提交文件失败: " +:+ exn_message error))).

End Handler.

(** A deletion: of the object, the only one the handler can ask for. *)
Definition is_delete (ev : Event Call) : bool :=
  match ev with
  | Ev c => match c with
            | DeleteFileFromS3 _ _ => true
            | _ => false
            end
  end.

(** A write to the files table or to the bucket. *)
Definition is_write (ev : Event Call) : bool :=
  match ev with
  | Ev c => match c with
            | DeleteFileFromS3 _ _ | UpdateFile _ _
            | UpsertFilePasswordRecord _ _ | UpdateParentDirectoriesModifiedTimeHelper _ _ =>
                true
            | _ => false
            end
  end.

(** The size written to the files table, if one is, is not negative. *)
Definition writes_valid_size (ev : Event Call) : bool :=
  match ev with
  | Ev c => match c with
            | UpdateFile _ updateData =>
                match ud_size updateData with
                | Some n => 0 <=? n
                | None => true
                end
            | _ => true
            end
  end.

(** *** A reference store for the commit: the files table, the storage
    configurations and the keys held by the bucket. [delete_fails] makes the
    object store refuse deletions. *)
Module Sim.

Record Store := {
  files : gmap string FileRecord;
  configs : gmap string S3Config;
  bucket : gset string;
  delete_fails : bool
}.

Definition used (w : Store) (configId fileId : string) : Z :=
  map_fold (fun k f acc =>
              if String.eqb (s3_config_id f) configId && negb (String.eqb k fileId)
              then acc + size f else acc) 0 (files w).

Definition perform (R : Type) (c : Call R) (w : Store) : (Exn + R) * Store :=
  match c in Call T return (Exn + T) * Store with
  | FindFileById i => (inr (files w !! i), w)
  | FindS3ConfigByIdAndAdmin i _ => (inr (configs w !! i), w)
  | FindPublicS3ConfigById i => (inr (configs w !! i), w)
  | FindS3ConfigById i => (inr (configs w !! i), w)
  | GetTotalSizeByS3ConfigExcludingFile c f =>
      (inr (Some {| total_used := Some (used w c f) |}), w)
  | DeleteFileFromS3 _ k =>
      if delete_fails w then (inl (ServiceError (Some 503) "SlowDown" "try later"), w)
      else (inr tt, {| files := files w; configs := configs w;
                       bucket := bucket w ∖ {[k]}; delete_fails := delete_fails w |})
  | HashPassword p => (inr ("hash:" +:+ p), w)
  | FindBySlugExcludingId _ _ => (inr None, w)
  | UpdateFile _ _ => (inr tt, w)
  | UpsertFilePasswordRecord _ _ => (inr tt, w)
  | UpdateParentDirectoriesModifiedTimeHelper _ _ => (inr tt, w)
  | ClearCache _ => (inr tt, w)
  end.

Definition a_file (i k : string) (n : Z) : FileRecord :=
  {| id := i; s3_config_id := "c1"; storage_path := k; created_by := Some "admin-1";
     slug := "s-" +:+ i; size := n |}.

(** A bucket capped at 100 bytes that holds 40 bytes, and the 70-byte object
    of a pending upload. *)
Definition store (deleteFails : bool) : Store :=
  {| files := {[ "f1" := a_file "f1" "old.bin" 40; "f2" := a_file "f2" "new.bin" 0 ]};
     configs := {[ "c1" := {| cfg_id := "c1"; total_storage_bytes := Some 100 |} ]};
     bucket := {[ "old.bin"; "new.bin" ]};
     delete_fails := deleteFails |}.

Definition admin : Caller := {| isAdmin := true; userId := "admin-1"; authType := "admin" |}.

Definition commit_70 : CommitBody :=
  {| file_id := Some "f2"; etag := Some "e"; body_size := Js.JNum 70; password := None;
     expires_in := Js.JUndefined; remark := None; body_slug := None;
     max_views := Js.JUndefined |}.

Definition format (n : Z) : string := DecimalString.NilZero.string_of_int (Z.to_int n) +:+ " B".

(** The same tables over a bucket without a capacity limit. *)
Definition open_store : Store :=
  {| files := files (store false);
     configs := {[ "c1" := {| cfg_id := "c1"; total_storage_bytes := None |} ]};
     bucket := bucket (store false);
     delete_fails := false |}.

(** A commit whose size does not read as a number. *)
Definition commit_nan : CommitBody :=
  {| file_id := Some "f2"; etag := Some "e"; body_size := Js.JStr "big"; password := None;
     expires_in := Js.JUndefined; remark := None; body_slug := None;
     max_views := Js.JUndefined |}.

(** A commit that asks for a link with a slash in it. *)
Definition commit_bad_slug : CommitBody :=
  {| file_id := Some "f2"; etag := Some "e"; body_size := Js.JNum 70;
     password := Some "pw"; expires_in := Js.JUndefined; remark := None;
     body_slug := Some "a/b"; max_views := Js.JUndefined |}.

Definition later (h : Z) : string := "later".

End Sim.

End UrlUpload.

(** ** webdav/methods/put.js: the helpers of the buffered multipart upload

    combineBuffers, removeUsedBuffers, ensureArrayBuffer, uploadPartWithRetry
    and bufferedMultipartUpload. Sizes and part numbers are counts. *)

Module WebdavPutParts.

(** combineBuffers, lines 62-77: the loop that fills the result from its
    start. *)
Fixpoint combine_loop (bufferList : list (list Byte.byte)) (remaining : nat)
  : list Byte.byte :=
  match bufferList with
  | [] => []
  | buffer :: rest =>
      if (remaining <=? 0)%nat then []
      else
        let copySize := Nat.min (List.length buffer) remaining in
        firstn copySize buffer ++ combine_loop rest (remaining - copySize)
  end.

(** [new Uint8Array(targetSize)] is filled with zeros; the loop overwrites
    its beginning. *)
Definition combineBuffers (bufferList : list (list Byte.byte)) (targetSize : nat)
  : list Byte.byte :=
  let written := combine_loop bufferList targetSize in
  written ++ repeat Byte.x00 (targetSize - List.length written).

Record Remaining := {
  remainingBuffers : list (list Byte.byte);
  remainingSize : nat
}.

(** removeUsedBuffers, lines 85-108: the loop, with its three variables. *)
Fixpoint remove_loop (bufferList : list (list Byte.byte)) (usedSize : nat)
    (remainingBuffers : list (list Byte.byte)) (remainingSize processedSize : nat)
  : Remaining :=
  match bufferList with
  | [] => {| remainingBuffers := remainingBuffers; remainingSize := remainingSize |}
  | buffer :: rest =>
      if (processedSize + List.length buffer <=? usedSize)%nat then
        remove_loop rest usedSize remainingBuffers remainingSize
          (processedSize + List.length buffer)
      else if (processedSize <? usedSize)%nat then
        let usedFromThisBuffer := (usedSize - processedSize)%nat in
        let remainingFromThisBuffer := skipn usedFromThisBuffer buffer in
        remove_loop rest usedSize (remainingBuffers ++ [remainingFromThisBuffer])
          (remainingSize + List.length remainingFromThisBuffer) usedSize
      else
        remove_loop rest usedSize (remainingBuffers ++ [buffer])
          (remainingSize + List.length buffer) processedSize
  end.

Definition removeUsedBuffers (bufferList : list (list Byte.byte)) (usedSize : nat)
  : Remaining :=
  remove_loop bufferList usedSize [] 0 0.

(** The data handed to uploadPartWithRetry. *)
Inductive PartData :=
| ArrayBufferData (bytes : list Byte.byte)
| Uint8ArrayData (bytes : list Byte.byte)
| OtherData.

(** What [fileSystem.uploadBackendPart] and the upload callback resolve to. *)
Record PartResult := { PartNumber : nat; ETag : string }.

Inductive Call : Type -> Type :=
| UploadBackendPart (path userIdOrInfo userType uploadId : string) (partNumber : nat)
    (validData : list Byte.byte) (s3Key : string) : Call PartResult
| SetTimeout (delayMs : Z) : Call unit
| UploadPartCallback (partNumber : nat) (partData : list Byte.byte) : Call PartResult.

Definition MAX_RETRIES : nat := 3.
Definition RETRY_DELAY_BASE : Z := 1000.

(** The attempts of a part upload recorded in a trace. *)
Definition is_attempt (ev : Event Call) : bool :=
  match ev with
  | Ev c => match c with
            | UploadBackendPart _ _ _ _ _ _ _ => true
            | _ => false
            end
  end.

(** The waits recorded in a trace, in milliseconds. *)
Fixpoint delays (tr : list (Event Call)) : list Z :=
  match tr with
  | [] => []
  | Ev c :: rest =>
      match c with
      | SetTimeout ms => ms :: delays rest
      | _ => delays rest
      end
  end.

(** The parts handed to the upload callback, with their numbers. *)
Fixpoint uploaded (tr : list (Event Call)) : list (nat * list Byte.byte) :=
  match tr with
  | [] => []
  | Ev c :: rest =>
      match c with
      | UploadPartCallback n d => (n, d) :: uploaded rest
      | _ => uploaded rest
      end
  end.

(** The variables of the loop of bufferedMultipartUpload. *)
Record Progress := {
  bufferList : list (list Byte.byte);
  totalBufferSize : nat;
  partNumber : nat;
  parts : list PartResult;
  totalProcessed : nat
}.

Record UploadSummary := {
  us_parts : list PartResult;
  us_totalProcessed : nat
}.

(** What holds of the loop variables of bufferedMultipartUpload whenever the
    inner loop is entered or left, [consumed] being the bytes read so far
    and [tr] the calls made: the buffered size is the size of the buffers;
    the parts uploaded, followed by the buffers, are the bytes read; the
    parts are numbered from 1 and the next number is at hand; every part
    has [partSize] bytes. *)
Definition loop_invariant (partSize : nat) (consumed : list Byte.byte) (st : Progress)
    (tr : list (Event Call)) : Prop :=
  totalBufferSize st = List.length (List.concat (bufferList st)) /\
  List.concat (List.map snd (uploaded tr)) ++ List.concat (bufferList st) = consumed /\
  List.map fst (uploaded tr) = List.seq 1 (List.length (uploaded tr)) /\
  partNumber st = S (List.length (uploaded tr)) /\
  List.Forall (fun d => List.length d = partSize) (List.map snd (uploaded tr)) /\
  totalProcessed st = List.length (List.concat (List.map snd (uploaded tr))) /\
  List.length (parts st) = List.length (uploaded tr).

Section Parts.
Context {World : Type}.
Variable perform : forall R, Call R -> World -> (Exn + R) * World.

Local Abbreviation M := (M Call World).
Local Abbreviation call := (call perform).

(** ensureArrayBuffer, lines 116-124 *)
Definition ensureArrayBuffer (data : PartData) : M (list Byte.byte) :=
  match data with
  | ArrayBufferData b => ret b
  | Uint8ArrayData b => ret b
  | OtherData => throw (ServiceError None "Error" "数据必须是ArrayBuffer或Uint8Array格式")
  end.

(** uploadPartWithRetry, lines 153-178: the rounds [attempt], [attempt + 1],
    ... up to [maxRetries]; [remaining] counts the rounds left; [inl] is the
    value returned from inside the try. With [maxRetries] below 1 no error
    was caught and the source throws undefined, rendered here as an error
    with neither name nor message. *)
Fixpoint retry_rounds (remaining attempt : nat) (lastError : option Exn)
    (path uploadId : string) (partNumber : nat) (partData : PartData)
    (userIdOrInfo userType s3Key : string) (maxRetries : nat) : M PartResult :=
  match remaining with
  | O =>
      match lastError with
      | Some error => throw error
      | None => throw (ServiceError None EmptyString EmptyString)
      end
  | S rest =>
      outcome <-
        try_catch
          (validData <- ensureArrayBuffer partData ;;
           r <- call (UploadBackendPart path userIdOrInfo userType uploadId partNumber
                        validData s3Key) ;;
           ret (inl r))
          (fun error =>
             (if (attempt <? maxRetries)%nat
              then call (SetTimeout (RETRY_DELAY_BASE * 2 ^ (Z.of_nat attempt - 1)))
              else ret tt) ;;;
             ret (inr error)) ;;
      match outcome with
      | inl r => ret r
      | inr error =>
          retry_rounds rest (S attempt) (Some error) path uploadId partNumber partData
            userIdOrInfo userType s3Key maxRetries
      end
  end.

Definition uploadPartWithRetry (path uploadId : string) (partNumber : nat)
    (partData : PartData) (userIdOrInfo userType s3Key : string) (maxRetries : nat)
    : M PartResult :=
  retry_rounds maxRetries 1 None path uploadId partNumber partData userIdOrInfo userType
    s3Key maxRetries.

(** bufferedMultipartUpload, lines 317-347: the inner loop, which uploads a
    part of [partSize] bytes while that many are buffered. [fuel] bounds the
    rounds: every round lowers the buffered size when [partSize] is
    positive (with [partSize] 0 the source does not leave the loop). *)
Fixpoint upload_full_parts (fuel partSize : nat)
    (uploadPartCallback : nat -> list Byte.byte -> M PartResult) (st : Progress)
    : M Progress :=
  match fuel with
  | O => ret st
  | S f =>
      if (partSize <=? totalBufferSize st)%nat then
        let partData := combineBuffers (bufferList st) partSize in
        let r := removeUsedBuffers (bufferList st) partSize in
        partResult <- uploadPartCallback (partNumber st) partData ;;
        upload_full_parts f partSize uploadPartCallback
          {| bufferList := remainingBuffers r;
             totalBufferSize := remainingSize r;
             partNumber := S (partNumber st);
             parts := parts st ++ [partResult];
             totalProcessed := (totalProcessed st + List.length partData)%nat |}
      else ret st
  end.

(** Lines 294-348: the outer loop over the chunks the reader yields. *)
Fixpoint read_chunks (chunks : list (list Byte.byte)) (partSize : nat)
    (uploadPartCallback : nat -> list Byte.byte -> M PartResult) (st : Progress)
    : M Progress :=
  match chunks with
  | [] => ret st
  | value :: rest =>
      let st1 := {| bufferList := bufferList st ++ [value];
                    totalBufferSize := (totalBufferSize st + List.length value)%nat;
                    partNumber := partNumber st;
                    parts := parts st;
                    totalProcessed := totalProcessed st |} in
      st2 <- upload_full_parts (S (totalBufferSize st1)) partSize uploadPartCallback st1 ;;
      read_chunks rest partSize uploadPartCallback st2
  end.

(** bufferedMultipartUpload, lines 280-354. The release of the reader in the
    finally clause changes nothing the embedding records. *)
Definition bufferedMultipartUpload (stream : WebdavPut.Stream) (partSize : nat)
    (uploadPartCallback : nat -> list Byte.byte -> M PartResult) : M UploadSummary :=
  st <- read_chunks (WebdavPut.chunks stream) partSize uploadPartCallback
          {| bufferList := []; totalBufferSize := 0; partNumber := 1; parts := [];
             totalProcessed := 0 |} ;;
  match WebdavPut.failure stream with
  | Some error => throw error
  | None =>
      if (0 <? totalBufferSize st)%nat then
        let finalChunk := combineBuffers (bufferList st) (totalBufferSize st) in
        partResult <- uploadPartCallback (partNumber st) finalChunk ;;
        ret {| us_parts := parts st ++ [partResult];
               us_totalProcessed := (totalProcessed st + totalBufferSize st)%nat |}
      else ret {| us_parts := parts st; us_totalProcessed := totalProcessed st |}
  end.

End Parts.

(** *** A reference uploader: it accepts every part and keeps them. *)
Module Sim.

Definition perform (R : Type) (c : Call R) (w : list (nat * list Byte.byte))
  : (Exn + R) * list (nat * list Byte.byte) :=
  match c in Call T return (Exn + T) * list (nat * list Byte.byte) with
  | UploadBackendPart _ _ _ _ n d _ =>
      (inr {| PartNumber := n; ETag := "etag" |}, w ++ [(n, d)])
  | SetTimeout _ => (inr tt, w)
  | UploadPartCallback n d => (inr {| PartNumber := n; ETag := "etag" |}, w ++ [(n, d)])
  end.

Definition abc : list Byte.byte := [Byte.x61; Byte.x62; Byte.x63].
Definition de : list Byte.byte := [Byte.x64; Byte.x65].

End Sim.

End WebdavPutParts.

(** ** S3FileOperations.js: download *)

Module S3Download.

(** The fields of the GetObject response the method reads. The date of
    [LastModified] is kept as the text its toUTCString gives; the body
    stream as its bytes; [ContentLength] is a number of bytes below 10^21,
    which toString writes with all its digits. *)
Record GetOutput := {
  ContentType : option string;
  ContentLength : option Z;
  ContentRange : option string;
  ETag : option string;
  LastModified : option string;
  Body : list Byte.byte
}.

(** The request, as far as the method reads it: its Range header. *)
Record Request := { range : option string }.

Record FileResponse := {
  fr_status : Z;
  fr_headers : list (string * string);
  fr_body : list Byte.byte
}.

Inductive Call : Type -> Type :=
| CreateS3Client : Call unit
| SendGetObject (Bucket Key : string) (Range : option string) : Call GetOutput.

(** The double-quote character *)
Definition quote : string := String (Ascii.ascii_of_nat 34) EmptyString.

(** Lines 53-58: the Range of the command. *)
Definition requested_range (request : option Request) : option string :=
  match request with
  | Some rq => if Js.truthy_opt (range rq) then range rq else None
  | None => None
  end.

(** The value of a header, if it was set. *)
Definition header (name : string) (rsp : FileResponse) : option string :=
  match List.find (fun h => String.eqb (fst h) name) (fr_headers rsp) with
  | Some h => Some (snd h)
  | None => None
  end.

Section Download.
Context {World : Type}.
Variable perform : forall R, Call R -> World -> (Exn + R) * World.

(** [this.config.bucket_name]; [getMimeTypeFromFilename] of
    utils/fileUtils.js and the built-in [encodeURIComponent]. *)
Variable bucket_name : string.
Variable getMimeTypeFromFilename : string -> string.
Variable encodeURIComponent : string -> string.

Local Abbreviation M := (M Call World).
Local Abbreviation call := (call perform).

(** storage/fs/utils/ErrorHandler.js, over the calls of this method *)
Definition handleFsError {A} (fn : M A) (operationName defaultErrorMessage : string) : M A :=
  try_catch fn (fun error =>
    if is_HTTPException error then throw error
    else throw (HTTPException ApiStatus.INTERNAL_ERROR
                  (if Js.truthy_str (exn_message error) then exn_message error
                   else defaultErrorMessage))).

(** getFileFromS3, lines 42-119. No header is set twice, so that the
    headers are the list of the pairs set, in order. *)
Definition getFileFromS3 (bucket s3SubPath fileName : string) (forceDownload : bool)
    (request : option Request) : M FileResponse :=
  try_catch
    (call CreateS3Client ;;;
     response <- call (SendGetObject bucket s3SubPath (requested_range request)) ;;
     let contentType := Js.str_or (ContentType response) (getMimeTypeFromFilename fileName) in
     let headers :=
       [("Content-Type", contentType);
        ("Content-Length", match ContentLength response with
                           | Some n => FsRoutes.show n
                           | None => "0"
                           end);
        ("Cache-Control", "public, max-age=31536000")]
       ++ (if forceDownload
           then [("Content-Disposition",
                  "attachment; filename=" +:+ quote +:+ encodeURIComponent fileName +:+ quote)]
           else if Js.startsWith contentType "image/" || Js.startsWith contentType "video/"
                   || String.eqb contentType "application/pdf"
           then [("Content-Disposition",
                  "inline; filename=" +:+ quote +:+ encodeURIComponent fileName +:+ quote)]
           else [])
       ++ (if Js.truthy_opt (ContentRange response)
           then [("Content-Range", Js.str_or (ContentRange response) EmptyString);
                 ("Accept-Ranges", "bytes")]
           else [])
       ++ (if Js.truthy_opt (ETag response)
           then [("ETag", Js.str_or (ETag response) EmptyString)]
           else [])
       ++ (match LastModified response with
           | Some d => [("Last-Modified", d)]
           | None => []
           end) in
     let status := if Js.truthy_opt (ContentRange response) then 206 else 200 in
     ret {| fr_status := status; fr_headers := headers; fr_body := Body response |})
    (fun error =>
       if status_is error 404
       then throw (HTTPException ApiStatus.NOT_FOUND "文件不存在")
       else if status_is error 403
       then throw (HTTPException ApiStatus.FORBIDDEN "没有权限访问该文件")
       else throw (HTTPException ApiStatus.INTERNAL_ERROR
                     ("获取文件失败: " +:+ exn_message error))).

(** downloadFile, lines 340-349 *)
Definition downloadFile (s3SubPath fileName : string) (request : option Request)
    : M FileResponse :=
  handleFsError
    (getFileFromS3 bucket_name s3SubPath fileName false request)
    "下载文件" "下载文件失败".

End Download.

(** *** A reference bucket for downloads: text objects by key. A request
    with a Range is answered with the whole object as one range. *)
Module Sim.

Definition perform (R : Type) (c : Call R) (w : gmap string string)
  : (Exn + R) * gmap string string :=
  match c in Call T return (Exn + T) * gmap string string with
  | CreateS3Client => (inr tt, w)
  | SendGetObject _ k r =>
      match w !! k with
      | Some text =>
          (inr {| ContentType := Some "text/plain";
                  ContentLength := Some (Js.length text);
                  ContentRange := match r with
                                  | Some _ => Some ("bytes 0-" +:+ FsRoutes.show (Js.length text - 1)
                                                    +:+ "/" +:+ FsRoutes.show (Js.length text))
                                  | None => None
                                  end;
                  ETag := Some "abc";
                  LastModified := None;
                  Body := List.map Ascii.byte_of_ascii (String.list_ascii_of_string text) |}, w)
      | None => (inl (ServiceError (Some 404) "NoSuchKey" "The specified key does not exist."), w)
      end
  end.

Definition bucket : gmap string string := {[ "docs/a.txt" := "hello" ]}.

Definition encode (s : string) : string := s.

End Sim.

End S3Download.

(** ** routes/fsRoutes.js: POST /api/fs/presign/commit *)

Module FsPresignCommit.

(** The JSON body of the request. *)
Record CommitBody := {
  fileId : option string;
  s3Path : option string;
  s3Url : option string;
  targetPath : option string;
  s3ConfigId : option string;
  mountId : option string;
  etag : option string;
  fileSize : Js.JsVal
}.

(** The row written to the files table. *)
Record FileRow := {
  row_id : string;
  filename : option string;
  storage_path : string;
  s3_url : option string;
  mimetype : string;
  size : Js.JsVal;
  s3_config_id : string;
  slug : string;
  row_etag : option string;
  created_by : option string
}.

Inductive Call : Type -> Type :=
| InsertFile (row : FileRow) : Call unit
| ClearCache (mountId : option string) : Call unit.

(** getCreatedBy, lines 877-883 *)
Definition getCreatedBy (userInfo : FsRoutes.UserInfo) : option string :=
  match userInfo with
  | FsRoutes.AdminUser id => id
  | FsRoutes.ApiKeyUser info => Some ("apikey:" +:+ AuthService.ki_id info)
  end.

Definition json_of (v : Js.JsVal) : FsRoutes.Json :=
  match v with
  | Js.JUndefined | Js.JNull => FsRoutes.JsonNull
  | Js.JBool b => FsRoutes.JsonBool b
  | Js.JNum n => FsRoutes.JsonNum n
  | Js.JStr s => FsRoutes.JsonStr s
  end.

(** The row was written. *)
Definition is_insert (ev : Event Call) : bool :=
  match ev with
  | Ev c => match c with
            | InsertFile _ => true
            | _ => false
            end
  end.

Section Route.
Context {World : Type}.
Variable perform : forall R, Call R -> World -> (Exn + R) * World.

(** [getMimeTypeFromFilename] of utils/fileUtils.js, not part of the
    sources; it is handed undefined when the target path has no segment. *)
Variable getMimeTypeFromFilename : option string -> string.

Local Abbreviation M := (M Call World).
Local Abbreviation call := (call perform).

(** Lines 1419-1494 *)
Definition presign_commit (userInfo : FsRoutes.UserInfo) (body : CommitBody)
    : M FsRoutes.ApiResponse :=
  try_catch
    (let fileSize := if Js.truthy (fileSize body) then fileSize body else Js.JNum 0 in
     if negb (Js.truthy_opt (fileId body)) || negb (Js.truthy_opt (s3Path body))
        || negb (Js.truthy_opt (s3ConfigId body)) || negb (Js.truthy_opt (targetPath body))
     then ret (FsRoutes.error_json ApiStatus.BAD_REQUEST "请提供完整的上传信息")
     else
       let fileId := Js.str_or (fileId body) EmptyString in
       let targetPath := Js.str_or (targetPath body) EmptyString in
       let fileName := Js.last_segment targetPath in
       let contentType := getMimeTypeFromFilename fileName in
       let fileSlug := "M-" +:+ String.substring 0 5 fileId in
       let createdBy := getCreatedBy userInfo in
       call (InsertFile {| row_id := fileId;
                           filename := fileName;
                           storage_path := Js.str_or (s3Path body) EmptyString;
                           s3_url := s3Url body;
                           mimetype := contentType;
                           size := fileSize;
                           s3_config_id := Js.str_or (s3ConfigId body) EmptyString;
                           slug := fileSlug;
                           row_etag := etag body;
                           created_by := createdBy |}) ;;;
       try_catch (call (ClearCache (mountId body))) (fun cacheError => ret tt) ;;;
       ret (FsRoutes.success_json "文件上传记录成功"
              (Some (FsRoutes.JsonObj
                 ([("fileId", FsRoutes.JsonStr fileId)]
                  ++ match fileName with
                     | Some n => [("fileName", FsRoutes.JsonStr n)]
                     | None => []
                     end
                  ++ [("targetPath", FsRoutes.JsonStr targetPath);
                      ("fileSize", json_of fileSize);
                      ("contentType", FsRoutes.JsonStr contentType)])))))
    (fun error =>
       ret match error with
           | HTTPException code m => FsRoutes.error_json code m
           | ServiceError _ _ m =>
               FsRoutes.error_json ApiStatus.INTERNAL_ERROR
                 (if Js.truthy_str m then m else "提交预签名上传完成失败")
           end).

End Route.

(** *** A reference files table: the rows inserted, newest first. *)
Module Sim.

Definition perform (R : Type) (c : Call R) (w : list FileRow) : (Exn + R) * list FileRow :=
  match c in Call T return (Exn + T) * list FileRow with
  | InsertFile row => (inr tt, row :: w)
  | ClearCache _ => (inl (ServiceError None "Error" "cache unavailable"), w)
  end.

Definition mime (name : option string) : string := "application/octet-stream".

Definition a_commit : CommitBody :=
  {| fileId := Some "0123456789"; s3Path := Some "team-b/x.bin"; s3Url := None;
     targetPath := Some "/team-b/x.bin"; s3ConfigId := Some "c1"; mountId := Some "m1";
     etag := None; fileSize := Js.JNum 3 |}.

End Sim.

End FsPresignCommit.

(** ** routes/urlUploadRoutes.js: POST /api/url/cancel *)

Module UrlCancel.

Record CancelData := {
  cd_file_id : string;
  cd_status : string;
  cd_message : string
}.

Record ApiResponse := {
  http_status : Z;
  code : Z;
  message : string;
  data : option CancelData;
  success : bool
}.

(** Modelled from the spec: [createErrorResponse] of utils/common.js is
    absent; it fills the envelope of section 6 with the status as code and
    success false. *)
Definition error_json (code : Z) (message : string) : ApiResponse :=
  {| http_status := code; code := code; message := message; data := None;
     success := false |}.

Inductive Call : Type -> Type :=
| FindFileById (fileId : string) : Call (option UrlUpload.FileRecord)
| FindS3ConfigById (configId : string) : Call (option UrlUpload.S3Config)
| DeleteFileFromS3 (config : UrlUpload.S3Config) (storagePath : string) : Call unit
| DeleteFilePasswordRecord (fileId : string) : Call unit
| ClearCache (configId : string) : Call unit.

(** A removal, of the object or of the password row. *)
Definition is_removal (ev : Event Call) : bool :=
  match ev with
  | Ev c => match c with
            | DeleteFileFromS3 _ _ | DeleteFilePasswordRecord _ => true
            | _ => false
            end
  end.

Section Handler.
Context {World : Type}.
Variable perform : forall R, Call R -> World -> (Exn + R) * World.

Local Abbreviation M := (M Call World).
Local Abbreviation call := (call perform).

(** Lines 675-754: the body of the try and its catch, for a caller
    authorised as [authorizedBy]; [adminId] and [apiKeyId] are both the
    caller's id where they are read. Line 724 calls
    [fileRepository.deleteById], as line 270 of the commit does. *)
Definition cancel_as (authorizedBy : string) (userId : string)
    (file_id : option string) : M ApiResponse :=
  try_catch
    (if negb (Js.truthy_opt file_id)
     then ret (error_json ApiStatus.BAD_REQUEST "缺少文件ID参数")
     else
       file <- call (FindFileById (Js.str_or file_id EmptyString)) ;;
       match file with
       | None => ret (error_json ApiStatus.NOT_FOUND "文件不存在或已被删除")
       | Some file =>
           if String.eqb authorizedBy "admin" && UrlUpload.owned_by_other file userId
           then ret (error_json ApiStatus.FORBIDDEN "您无权取消此文件的上传")
           else if String.eqb authorizedBy "apikey"
                   && UrlUpload.owned_by_other file ("apikey:" +:+ userId)
           then ret (error_json ApiStatus.FORBIDDEN "此API密钥无权取消此文件的上传")
           else
             s3Config <- call (FindS3ConfigById (UrlUpload.s3_config_id file)) ;;
             match s3Config with
             | None => ret tt
             | Some s3Config =>
                 try_catch
                   (call (DeleteFileFromS3 s3Config (UrlUpload.storage_path file)))
                   (fun s3Error => ret tt)
             end ;;;
             call (DeleteFilePasswordRecord (UrlUpload.id file)) ;;;
             throw (A:=unit) UrlUpload.deleteById_is_not_a_function ;;;
             try_catch (call (ClearCache (UrlUpload.s3_config_id file)))
               (fun cacheError => ret tt) ;;;
             ret {| http_status := 200; code := ApiStatus.SUCCESS;
                    message := "URL上传已成功取消";
                    data := Some {| cd_file_id := UrlUpload.id file;
                                    cd_status := "cancelled";
                                    cd_message := "文件记录已被删除" |};
                    success := true |}
       end)
    (fun error =>
       let statusCode := if Js.includes (exn_message error) "文件不存在"
                         then ApiStatus.NOT_FOUND else ApiStatus.INTERNAL_ERROR in
       ret (error_json statusCode ("取消URL上传失败: " +:+ exn_message error))).

(** Lines 653-755 *)
Definition cancel (caller : UrlUpload.Caller) (file_id : option string) : M ApiResponse :=
  if UrlUpload.isAdmin caller
  then cancel_as "admin" (UrlUpload.userId caller) file_id
  else if String.eqb (UrlUpload.authType caller) "apikey"
  then cancel_as "apikey" (UrlUpload.userId caller) file_id
  else ret (error_json ApiStatus.FORBIDDEN
              "需要管理员权限或有效的API密钥才能取消URL上传").

End Handler.

(** *** The reference store of the commit, answering the calls of cancel *)
Module Sim.

Definition perform (R : Type) (c : Call R) (w : UrlUpload.Sim.Store)
  : (Exn + R) * UrlUpload.Sim.Store :=
  match c in Call T return (Exn + T) * UrlUpload.Sim.Store with
  | FindFileById i => (inr (UrlUpload.Sim.files w !! i), w)
  | FindS3ConfigById i => (inr (UrlUpload.Sim.configs w !! i), w)
  | DeleteFileFromS3 _ k =>
      if UrlUpload.Sim.delete_fails w
      then (inl (ServiceError (Some 503) "SlowDown" "try later"), w)
      else (inr tt, {| UrlUpload.Sim.files := UrlUpload.Sim.files w;
                       UrlUpload.Sim.configs := UrlUpload.Sim.configs w;
                       UrlUpload.Sim.bucket := UrlUpload.Sim.bucket w ∖ {[k]};
                       UrlUpload.Sim.delete_fails := UrlUpload.Sim.delete_fails w |})
  | DeleteFilePasswordRecord _ => (inr tt, w)
  | ClearCache _ => (inr tt, w)
  end.

End Sim.

End UrlCancel.

(** * Properties *)

(** Unfolding of the monad's combinators, and evaluation of a handler along
    the answers the collaborators are assumed to give. *)
Ltac m_unfold :=
  cbv [run bind try_catch call ret throw]; cbn [world trace fst snd app].

Ltac m_eval :=
  repeat (m_unfold;
          repeat match goal with
                 | H : ?p _ ?c ?w = _ |- context [?p _ ?c ?w] => rewrite H
                 | H : ?b = true |- context [if ?b then _ else _] => rewrite H
                 | H : ?b = false |- context [if ?b then _ else _] => rewrite H
                 end;
          cbn [world trace fst snd app is_HTTPException]).

Ltac destruct_perform perform :=
  repeat match goal with
         | |- context [perform ?R ?c ?w] =>
             destruct (perform R c w) as [[?|?] ?];
             cbn [world trace fst snd app is_HTTPException]
         end.

(** ** Numbers *)

Section NumberFacts.

(** An integer of at most 53 bits is a double. *)
Lemma to_double_small (x : Z) : Z.abs x < 2 ^ 53 -> Js.to_double x = x.
Proof.
  intros H. unfold Js.to_double.
  destruct (Z.eq_dec (Z.abs x) 0) as [E|E].
  - rewrite E. reflexivity.
  - assert (Hl : Z.log2 (Z.abs x) < 53) by (apply Z.log2_lt_pow2; lia).
    destruct (Z.leb_spec (Z.log2 (Z.abs x) - 52) 0); [reflexivity | lia].
Qed.

(** Rounding keeps the sign. *)
Lemma to_double_nonneg (x : Z) : 0 <= x -> 0 <= Js.to_double x.
Proof.
  intros H. unfold Js.to_double.
  destruct (Z.log2 (Z.abs x) - 52 <=? 0) eqn:E; [exact H|].
  apply Z.leb_gt in E. rewrite Z.abs_eq by exact H.
  set (e := Z.log2 x - 52) in *.
  assert (Hq : 0 <= Z.shiftr x e) by (apply Z.shiftr_nonneg; exact H).
  apply Z.mul_nonneg_nonneg; [lia|].
  apply Z.shiftl_nonneg.
  destruct (_ <? _); [exact Hq|].
  destruct (_ <? _); [lia|].
  destruct (Z.even _); lia.
Qed.

Lemma plus_small (a b : Z) : Z.abs (a + b) < 2 ^ 53 -> Js.plus a b = a + b.
Proof. apply to_double_small. Qed.

(** A number below 10^21 in magnitude reads back as itself. *)
Lemma parseInt_num_small (n : Z) : Z.abs n < 10 ^ 21 -> Js.parseInt_num n = n.
Proof.
  intros H. unfold Js.parseInt_num.
  destruct (Z.ltb_spec (Z.abs n) (10 ^ 21)); [reflexivity | lia].
Qed.

End NumberFacts.

(** ** The trace only grows *)

Section TraceFacts.
Context {Call : Type -> Type} {World : Type}.
Variable perform : forall R, Call R -> World -> (Exn + R) * World.

Lemma appends_ret {A} (a : A) : appends (ret (Call:=Call) (World:=World) a).
Proof. intros s. exists []. cbn. symmetry. apply app_nil_r. Qed.

Lemma appends_throw {A} (e : Exn) : appends (throw (Call:=Call) (World:=World) (A:=A) e).
Proof. intros s. exists []. cbn. symmetry. apply app_nil_r. Qed.

Lemma appends_call {R} (c : Call R) : appends (call perform c).
Proof.
  intros s. exists [Ev c]. unfold call.
  destruct (perform R c (world s)) as [r w]. reflexivity.
Qed.

Lemma appends_bind {A B} (m : M Call World A) (k : A -> M Call World B) :
  appends m -> (forall a, appends (k a)) -> appends (bind m k).
Proof.
  intros Hm Hk s. unfold bind. destruct (Hm s) as [l Hl].
  destruct (m s) as [[e|a] s1]; cbn in *.
  - eauto.
  - destruct (Hk a s1) as [l' Hl']. exists (l ++ l').
    rewrite Hl', Hl. symmetry. apply app_assoc.
Qed.

Lemma appends_try_catch {A} (m : M Call World A) (h : Exn -> M Call World A) :
  appends m -> (forall e, appends (h e)) -> appends (try_catch m h).
Proof.
  intros Hm Hh s. unfold try_catch. destruct (Hm s) as [l Hl].
  destruct (m s) as [[e|a] s1]; cbn in *.
  - destruct (Hh e s1) as [l' Hl']. exists (l ++ l').
    rewrite Hl', Hl. symmetry. apply app_assoc.
  - eauto.
Qed.

Lemma appends_if {A} (b : bool) (m1 m2 : M Call World A) :
  appends m1 -> appends m2 -> appends (if b then m1 else m2).
Proof. destruct b; auto. Qed.

Lemma starts_with_call {R} (c : Call R) : starts_with c (call perform c).
Proof.
  intros w. unfold run, call. cbn.
  destruct (perform R c w) as [r w1]. cbn. eauto.
Qed.

Lemma starts_with_bind {A B R} (c : Call R) (m : M Call World A) (k : A -> M Call World B) :
  starts_with c m -> (forall a, appends (k a)) -> starts_with c (bind m k).
Proof.
  intros Hm Hk w. destruct (Hm w) as [rest Hr]. unfold run, bind in *.
  destruct (m (mkSt w [])) as [[e|a] s1]; cbn in *.
  - eauto.
  - destruct (Hk a s1) as [l Hl]. rewrite Hl, Hr. cbn. eauto.
Qed.

Lemma starts_with_try_catch {A R} (c : Call R) (m : M Call World A) (h : Exn -> M Call World A) :
  starts_with c m -> (forall e, appends (h e)) -> starts_with c (try_catch m h).
Proof.
  intros Hm Hh w. destruct (Hm w) as [rest Hr]. unfold run, try_catch in *.
  destruct (m (mkSt w [])) as [[e|a] s1]; cbn in *.
  - destruct (Hh e s1) as [l Hl]. rewrite Hl, Hr. cbn. eauto.
  - eauto.
Qed.

End TraceFacts.

Create HintDb trace_grows.
#[export] Hint Resolve appends_ret appends_throw appends_call appends_bind
  appends_try_catch appends_if starts_with_call starts_with_bind
  starts_with_try_catch : trace_grows.

(** ** rename *)

Section RenameFacts.
Import S3FileOperations.
Context {World : Type}.
Variable perform : forall R, Call R -> World -> (Exn + R) * World.
Variable bucket : string.

Lemma renameFile_heads_source_first (old new : string) (w : World) :
  exists rest,
    trace (snd (run (renameFile perform bucket old new) w))
    = sent (HeadObject bucket old) :: rest.
Proof.
  unfold renameFile, handleFsError. m_unfold.
  destruct (perform _ (Send (HeadObject bucket old)) w) as [[e|o] w1]; cbn.
  - destruct (is_HTTPException e); cbn; eauto.
  - destruct (perform _ (Send (HeadObject bucket new)) w1) as [[e|o2] w2]; cbn.
    + destruct (status_is e 404); cbn.
      * destruct (perform _ (Send (CopyObject bucket bucket old new)) w2) as [[e3|o3] w3]; cbn.
        -- destruct (is_HTTPException e3); cbn; eauto.
        -- destruct (perform _ (Send (DeleteObject bucket old)) w3) as [[e4|o4] w4]; cbn.
           ++ destruct (is_HTTPException e4); cbn; eauto.
           ++ eauto.
      * destruct (is_HTTPException e); cbn; eauto.
    + eauto.
Qed.

Lemma renameFile_conflict (old new : string) (w w1 w2 : World) (o1 o2 : S3Output) :
  perform _ (Send (HeadObject bucket old)) w = (inr o1, w1) ->
  perform _ (Send (HeadObject bucket new)) w1 = (inr o2, w2) ->
  run (renameFile perform bucket old new) w
  = (inl (HTTPException ApiStatus.CONFLICT "目标文件已存在"),
     mkSt w2 [sent (HeadObject bucket old); sent (HeadObject bucket new)]).
Proof.
  intros H1 H2. unfold renameFile, handleFsError. m_eval. reflexivity.
Qed.

Lemma renameFile_copy_fails (old new : string) (w w1 w2 w3 : World)
    (o1 : S3Output) (e2 e3 : Exn) :
  perform _ (Send (HeadObject bucket old)) w = (inr o1, w1) ->
  perform _ (Send (HeadObject bucket new)) w1 = (inl e2, w2) ->
  status_is e2 404 = true ->
  perform _ (Send (CopyObject bucket bucket old new)) w2 = (inl e3, w3) ->
  let r := run (renameFile perform bucket old new) w in
  (exists e, fst r = inl e) /\
  snd r = mkSt w3 [sent (HeadObject bucket old); sent (HeadObject bucket new);
                   sent (CopyObject bucket bucket old new)].
Proof.
  intros H1 H2 H3 H4. unfold renameFile, handleFsError. m_eval.
  destruct (is_HTTPException e3); cbn; eauto.
Qed.

Lemma renameFile_copy_then_delete (old new : string) (w w1 w2 w3 w4 : World)
    (o1 o3 : S3Output) (e2 : Exn) (r4 : Exn + S3Output) :
  perform _ (Send (HeadObject bucket old)) w = (inr o1, w1) ->
  perform _ (Send (HeadObject bucket new)) w1 = (inl e2, w2) ->
  status_is e2 404 = true ->
  perform _ (Send (CopyObject bucket bucket old new)) w2 = (inr o3, w3) ->
  perform _ (Send (DeleteObject bucket old)) w3 = (r4, w4) ->
  let r := run (renameFile perform bucket old new) w in
  snd r = mkSt w4 [sent (HeadObject bucket old); sent (HeadObject bucket new);
                   sent (CopyObject bucket bucket old new);
                   sent (DeleteObject bucket old)] /\
  (forall o4, r4 = inr o4 -> fst r = inr (renamed old new)).
Proof.
  intros H1 H2 H3 H4 H5. unfold renameFile, handleFsError. m_eval.
  destruct r4 as [e4|o4]; cbn.
  - destruct (is_HTTPException e4); cbn; split; try reflexivity; discriminate.
  - split; [reflexivity | intros; reflexivity].
Qed.

(** C8. rename(oldPath, newPath) on a file first sends a HEAD for the source
    key, and a failure of that HEAD ends the operation there. When a HEAD
    for the new key finds an object, rename fails with HTTPException 409
    (conflict) and sends nothing else; when that HEAD fails otherwise than
    with 404, rename fails and sends nothing else. When the new key is
    absent (the HEAD answers 404), CopyObject to the new key is sent and
    then DeleteObject of the old key, in that order, and DeleteObject is
    sent only once CopyObject has succeeded: a failed copy ends the
    operation with an error and no delete. In every case the store is left
    as the commands that were sent left it. *)
Theorem renameFile_head_copy_delete (old new : string) (w : World) :
  let r := run (renameFile perform bucket old new) w in
  let head_old := sent (HeadObject bucket old) in
  let head_new := sent (HeadObject bucket new) in
  let copy := sent (CopyObject bucket bucket old new) in
  let del := sent (DeleteObject bucket old) in
  (exists rest, trace (snd r) = head_old :: rest) /\
  (forall e1 w1,
      perform _ (Send (HeadObject bucket old)) w = (inl e1, w1) ->
      (exists e, fst r = inl e) /\ snd r = mkSt w1 [head_old]) /\
  (forall o1 w1 o2 w2,
      perform _ (Send (HeadObject bucket old)) w = (inr o1, w1) ->
      perform _ (Send (HeadObject bucket new)) w1 = (inr o2, w2) ->
      r = (inl (HTTPException 409 "目标文件已存在"), mkSt w2 [head_old; head_new])) /\
  (forall o1 w1 e2 w2,
      perform _ (Send (HeadObject bucket old)) w = (inr o1, w1) ->
      perform _ (Send (HeadObject bucket new)) w1 = (inl e2, w2) ->
      exn_httpStatusCode e2 <> Some 404 ->
      (exists e, fst r = inl e) /\ snd r = mkSt w2 [head_old; head_new]) /\
  (forall o1 w1 e2 w2 r3 w3,
      perform _ (Send (HeadObject bucket old)) w = (inr o1, w1) ->
      perform _ (Send (HeadObject bucket new)) w1 = (inl e2, w2) ->
      exn_httpStatusCode e2 = Some 404 ->
      perform _ (Send (CopyObject bucket bucket old new)) w2 = (r3, w3) ->
      match r3 with
      | inl e3 =>
          (exists e, fst r = inl e) /\ snd r = mkSt w3 [head_old; head_new; copy]
      | inr o3 =>
          forall r4 w4,
            perform _ (Send (DeleteObject bucket old)) w3 = (r4, w4) ->
            snd r = mkSt w4 [head_old; head_new; copy; del] /\
            match r4 with
            | inl e4 => exists e, fst r = inl e
            | inr o4 => fst r = inr (renamed old new)
            end
      end).
Proof.
  cbv zeta. split; [apply renameFile_heads_source_first|]. split; [|split; [|split]].
  - intros e1 w1 H1. unfold renameFile, handleFsError. m_eval.
    destruct (is_HTTPException e1); cbn; eauto.
  - intros o1 w1 o2 w2 H1 H2.
    exact (renameFile_conflict old new w w1 w2 o1 o2 H1 H2).
  - intros o1 w1 e2 w2 H1 H2 H3.
    assert (Hs : status_is e2 404 = false).
    { unfold status_is. destruct (exn_httpStatusCode e2) as [c|]; [|reflexivity].
      apply Z.eqb_neq. intros ->. apply H3. reflexivity. }
    unfold renameFile, handleFsError. m_eval.
    destruct (is_HTTPException e2); cbn; eauto.
  - intros o1 w1 e2 w2 r3 w3 H1 H2 H3 H4.
    assert (Hs : status_is e2 404 = true) by (unfold status_is; rewrite H3; reflexivity).
    destruct r3 as [e3|o3].
    + exact (renameFile_copy_fails old new w w1 w2 w3 o1 e2 e3 H1 H2 Hs H4).
    + intros r4 w4 H5.
      destruct (renameFile_copy_then_delete old new w w1 w2 w3 w4 o1 o3 e2 r4
                  H1 H2 Hs H4 H5) as [Ha Hb].
      split; [exact Ha|].
      destruct r4 as [e4|o4]; [|exact (Hb o4 eq_refl)].
      clear Ha Hb. unfold renameFile, handleFsError. m_eval.
      destruct (is_HTTPException e4); cbn; eauto.
Qed.

End RenameFacts.

(** C8 on a bucket holding docs/a.txt and docs/c.txt: renaming onto the free
    key docs/b.txt copies and then deletes, after which the bucket holds the
    object under the new key and no longer under the old one; renaming onto
    docs/c.txt is a conflict and leaves the bucket as it was. *)
Lemma renameFile_head_copy_delete_witness :
  let w0 := S3FileOperations.Sim.store
              [("docs/a.txt", S3FileOperations.Sim.text_object "hello");
               ("docs/c.txt", S3FileOperations.Sim.text_object "other")] None false in
  let r := run (S3FileOperations.renameFile S3FileOperations.Sim.perform
                  "bkt" "docs/a.txt" "docs/b.txt") w0 in
  let r' := run (S3FileOperations.renameFile S3FileOperations.Sim.perform
                  "bkt" "docs/a.txt" "docs/c.txt") w0 in
  (fst r = inr (S3FileOperations.renamed "docs/a.txt" "docs/b.txt") /\
   S3FileOperations.Sim.objects (world (snd r)) !! "docs/b.txt"
   = Some (S3FileOperations.Sim.text_object "hello") /\
   S3FileOperations.Sim.objects (world (snd r)) !! "docs/a.txt" = None) /\
  r' = (inl (HTTPException 409 "目标文件已存在"),
        mkSt w0 [S3FileOperations.sent (S3FileOperations.HeadObject "bkt" "docs/a.txt");
                 S3FileOperations.sent (S3FileOperations.HeadObject "bkt" "docs/c.txt")]).
Proof.
  intros w0 r r'. split.
  - destruct (renameFile_head_copy_delete S3FileOperations.Sim.perform
                "bkt" "docs/a.txt" "docs/b.txt" w0) as (_ & _ & _ & _ & H).
    specialize (H _ _ _ _ _ _ eq_refl eq_refl eq_refl eq_refl).
    cbv beta iota in H. destruct (H _ _ eq_refl) as [Hs Hr].
    split; [exact Hr|]. fold r in Hs. rewrite Hs.
    split; vm_compute; reflexivity.
  - destruct (renameFile_head_copy_delete S3FileOperations.Sim.perform
                "bkt" "docs/a.txt" "docs/c.txt" w0) as (_ & _ & H & _).
    exact (H _ _ _ _ eq_refl eq_refl).
Defined.

(** ** update-inline *)

Section UpdateFacts.
Import S3FileOperations.
Context {World : Type}.
Variable perform : forall R, Call R -> World -> (Exn + R) * World.
Variable bucket : string.
Variable getMimeTypeFromFilename : string -> string.

Lemma content_too_large_iff (content : Content) :
  content_too_large content = true <->
  exists n, measured_size content = Some n /\ ten_MiB < n.
Proof.
  destruct content as [s|b|]; cbn; unfold MAX_FILE_SIZE, ten_MiB.
  - rewrite Z.ltb_lt. split; [eauto|]. intros (n & [= <-] & H). exact H.
  - rewrite Z.ltb_lt. split; [eauto|]. intros (n & [= <-] & H). exact H.
  - split; [discriminate|]. intros (n & H & _). discriminate.
Qed.

(** C10. updateFile rejects a string longer than 10 MiB and an ArrayBuffer
    of more than 10 MiB bytes with HTTPException 400 and the world and the
    trace untouched, so before any S3 call. For a content within the limit
    it sends, after the HEAD that fetches the old metadata and whatever that
    HEAD answers, a PutObject of that content whose ContentType is the MIME
    type inferred from the file name (the key when no name is given); the
    store is then as that PutObject and the update of the parent
    directories left it, and when both succeed the result reports success
    with that MIME type. A PutObject that fails ends the operation with an
    error. *)
Theorem updateFile_size_limit (key : string) (content : Content)
    (fileName : option string) (w : World) :
  let r := run (updateFile perform bucket getMimeTypeFromFilename key content fileName) w in
  let contentType := getMimeTypeFromFilename (Js.str_or fileName key) in
  let put := PutObject bucket key content (Some contentType) in
  let touch := UpdateParentDirectoriesModifiedTime bucket key in
  (forall n, measured_size content = Some n -> ten_MiB < n ->
     r = (inl (HTTPException 400 "文件内容过大，超过最大限制(10MB)"), mkSt w [])) /\
  ((forall n, measured_size content = Some n -> n <= ten_MiB) ->
     forall r1 w1 r2 w2,
       perform _ (Send (HeadObject bucket key)) w = (r1, w1) ->
       perform _ (Send put) w1 = (r2, w2) ->
       match r2 with
       | inl e2 =>
           (exists e, fst r = inl e) /\
           snd r = mkSt w2 [sent (HeadObject bucket key); sent put]
       | inr o2 =>
           forall r3 w3,
             perform _ touch w2 = (r3, w3) ->
             snd r = mkSt w3 [sent (HeadObject bucket key); sent put; Ev touch] /\
             match r3 with
             | inl e3 => exists e, fst r = inl e
             | inr _ =>
                 fst r = inr {| ur_success := true;
                                ur_path := key;
                                ur_etag := clean_etag o2;
                                ur_mimetype := contentType;
                                ur_message := "文件更新成功";
                                isNewFile := match r1 with
                                             | inl _ => true
                                             | inr _ => false
                                             end |}
             end
       end).
Proof.
  cbv zeta. split.
  - intros n Hn Hlt.
    assert (Hbig : content_too_large content = true)
      by (apply content_too_large_iff; eauto).
    unfold updateFile, handleFsError. m_eval. reflexivity.
  - intros Hsmall r1 w1 r2 w2 H1 H2.
    assert (Hok : content_too_large content = false).
    { destruct (content_too_large content) eqn:E; [|reflexivity].
      apply content_too_large_iff in E. destruct E as (n & Hn & Hlt).
      specialize (Hsmall n Hn). lia. }
    destruct r2 as [e2|o2].
    + unfold updateFile, handleFsError. m_eval.
      destruct r1 as [e1|o1]; m_eval;
        destruct (is_HTTPException e2); cbn; eauto.
    + intros r3 w3 H3. unfold updateFile, handleFsError. m_eval.
      destruct r1 as [e1|o1]; m_eval;
        (destruct r3 as [e3|[]]; m_eval;
         [destruct (is_HTTPException e3); cbn; eauto | split; reflexivity]).
Qed.

End UpdateFacts.

(** C10 on the reference store: a text of 10 MiB + 1 characters is refused
    with nothing sent; a five-character text is written as text/plain, and
    the bucket then holds it under the key. *)
Lemma updateFile_size_limit_witness :
  let w0 := S3FileOperations.Sim.store [] None false in
  let upd c := run (S3FileOperations.updateFile S3FileOperations.Sim.perform "bkt"
                      S3FileOperations.Sim.mime "docs/a.txt" c None) w0 in
  upd (S3FileOperations.StringContent (S3FileOperations.filler 10485761))
  = (inl (HTTPException 400 "文件内容过大，超过最大限制(10MB)"), mkSt w0 []) /\
  (exists res, fst (upd (S3FileOperations.StringContent "hello")) = inr res /\
               S3FileOperations.ur_mimetype res = "text/plain") /\
  S3FileOperations.Sim.objects (world (snd (upd (S3FileOperations.StringContent "hello"))))
    !! "docs/a.txt"
  = Some {| S3FileOperations.Sim.o_body := S3FileOperations.StringContent "hello";
            S3FileOperations.Sim.o_type := Some "text/plain";
            S3FileOperations.Sim.o_etag := "new" |}.
Proof.
  intros w0 upd. split.
  - refine (proj1 (updateFile_size_limit S3FileOperations.Sim.perform "bkt"
                     S3FileOperations.Sim.mime "docs/a.txt"
                     (S3FileOperations.StringContent (S3FileOperations.filler 10485761)) None w0)
                  10485761 _ _).
    + vm_compute. reflexivity.
    + reflexivity.
  - destruct (updateFile_size_limit S3FileOperations.Sim.perform "bkt"
                S3FileOperations.Sim.mime "docs/a.txt"
                (S3FileOperations.StringContent "hello") None w0) as [_ H].
    assert (Hs : forall n, S3FileOperations.measured_size
                             (S3FileOperations.StringContent "hello") = Some n ->
                           n <= S3FileOperations.ten_MiB).
    { intros n [= <-]. vm_compute. discriminate. }
    specialize (H Hs _ _ _ _ eq_refl eq_refl). cbv beta iota in H.
    destruct (H _ _ eq_refl) as [Hst Hres]. cbv beta iota in Hres.
    split.
    + eexists. split; [exact Hres | reflexivity].
    + unfold upd. rewrite Hst. vm_compute. reflexivity.
Defined.

(** ** stat *)

Section StatFacts.
Import S3FileOperations.
Context {World : Type}.
Variable perform : forall R, Call R -> World -> (Exn + R) * World.
Variable bucket : string.
Variable driver : option Driver.
Variable FOLDER : Z.
Variable FOLDER_NAME : string.
Variable now : string.

Local Abbreviation getFileInfo := (getFileInfo perform bucket driver FOLDER FOLDER_NAME now).
Local Abbreviation build_info := (build_info perform driver FOLDER FOLDER_NAME now).
Local Abbreviation attach_urls := (attach_urls perform driver).

Lemma appends_presigned_urls key co result :
  appends (presigned_urls perform key co result).
Proof. unfold presigned_urls. auto 10 with trace_grows. Qed.

Lemma appends_attach_urls key o result : appends (attach_urls key o result).
Proof.
  unfold S3FileOperations.attach_urls.
  pose proof appends_presigned_urls. auto 10 with trace_grows.
Qed.

Lemma appends_build_info key o response : appends (build_info key o response).
Proof.
  unfold S3FileOperations.build_info.
  pose proof appends_attach_urls. auto 10 with trace_grows.
Qed.

(** The decoration never throws and touches nothing but the two URLs. *)
Lemma presigned_urls_total key co result s :
  exists r' s', presigned_urls perform key co result s = (inr r', s') /\
                isDirectory r' = isDirectory result /\ size r' = size result.
Proof.
  unfold presigned_urls. m_unfold. destruct_perform perform; eauto 6.
Qed.

Lemma attach_urls_total key o result s :
  exists r' s', attach_urls key o result s = (inr r', s') /\
                isDirectory r' = isDirectory result /\ size r' = size result.
Proof.
  unfold S3FileOperations.attach_urls.
  destruct (Js.truthy_opt (userType o) && Js.truthy_opt (userId o)); [|cbn; eauto 6].
  destruct (Js.truthy (web_proxy (mount o)) && driver_has_proxy driver);
    [|apply presigned_urls_total].
  m_unfold.
  destruct (perform _ (GenerateProxyUrl (path o) false) (world s)) as [[e1|u1] w1]; cbn.
  - apply presigned_urls_total.
  - destruct (perform _ (GenerateProxyUrl (path o) true) w1) as [[e2|u2] w2]; cbn.
    + apply presigned_urls_total.
    + eauto 6.
Qed.

Lemma appends_stat_handler key o e :
  appends
    (if status_is e 405 || status_is e 403 then
       getResponse <- call perform (Send (GetObject bucket key (Some "bytes=0-0"))) ;;
       build_info key o getResponse
     else if status_is e 404 || String.eqb (exn_name e) "NotFound" then
       throw (HTTPException ApiStatus.NOT_FOUND "文件不存在")
     else throw e).
Proof. pose proof appends_build_info. auto 10 with trace_grows. Qed.

Lemma appends_handleFsError_handler {A} d e :
  appends (World:=World) (Call:=Call) (A:=A)
    (if is_HTTPException e then throw e
     else throw (HTTPException ApiStatus.INTERNAL_ERROR
                   (if Js.truthy_str (exn_message e) then exn_message e else d))).
Proof. auto with trace_grows. Qed.

(** stat first sends a HEAD for the key. *)
Lemma getFileInfo_heads_first key o :
  starts_with (Send (HeadObject bucket key)) (getFileInfo key o).
Proof.
  unfold S3FileOperations.getFileInfo, handleFsError.
  apply starts_with_try_catch; [|intros; apply appends_handleFsError_handler].
  apply starts_with_try_catch; [|intros; apply appends_stat_handler].
  apply starts_with_bind; [apply starts_with_call|].
  intros; apply appends_build_info.
Qed.

(** An entry whose content type is application/x-directory is a directory
    of size 0, whatever else the response says. *)
Lemma build_info_directory key o response s :
  ContentType response = Some "application/x-directory" ->
  exists info s', build_info key o response s = (inr info, s') /\
                  isDirectory info = true /\ size info = 0.
Proof.
  intros Ht. unfold S3FileOperations.build_info. rewrite Ht.
  change (String.eqb "application/x-directory" x_directory) with true.
  m_unfold.
  match goal with
  | |- context [S3FileOperations.attach_urls _ _ ?k ?o ?r ?s] =>
      destruct (attach_urls_total k o r s) as (r' & s' & Ha & Hd & Hs)
  end.
  rewrite Ha. exists r', s'. cbn in Hd, Hs. auto.
Qed.

(** HEAD answered: the entry is built from the HEAD response. *)
Lemma getFileInfo_head_directory key o w resp w1 :
  perform _ (Send (HeadObject bucket key)) w = (inr resp, w1) ->
  ContentType resp = Some "application/x-directory" ->
  exists info, fst (run (getFileInfo key o) w) = inr info /\
               isDirectory info = true /\ size info = 0.
Proof.
  intros H1 Ht. unfold S3FileOperations.getFileInfo, handleFsError. m_eval.
  destruct (build_info_directory key o resp
              (mkSt w1 [Ev (Send (HeadObject bucket key))]) Ht)
    as (info & s' & Hb & Hd & Hs).
  rewrite Hb. cbn. eauto.
Qed.

(** HEAD refused with 405 or 403: a GET of the first byte follows, and the
    entry is built from its response. *)
Lemma getFileInfo_get_fallback key o w e w1 :
  perform _ (Send (HeadObject bucket key)) w = (inl e, w1) ->
  exn_httpStatusCode e = Some 405 \/ exn_httpStatusCode e = Some 403 ->
  let r := run (getFileInfo key o) w in
  (exists rest, trace (snd r) = sent (HeadObject bucket key)
                               :: sent (GetObject bucket key (Some "bytes=0-0")) :: rest) /\
  (forall resp w2,
      perform _ (Send (GetObject bucket key (Some "bytes=0-0"))) w1 = (inr resp, w2) ->
      ContentType resp = Some "application/x-directory" ->
      exists info, fst r = inr info /\ isDirectory info = true /\ size info = 0).
Proof.
  intros H1 Hc.
  assert (Hs : status_is e 405 || status_is e 403 = true).
  { unfold status_is. destruct Hc as [-> | ->]; reflexivity. }
  unfold S3FileOperations.getFileInfo, handleFsError. m_eval.
  destruct (perform _ (Send (GetObject bucket key (Some "bytes=0-0"))) w1)
    as [[e2|resp] w2] eqn:H2; cbn.
  - split; [|discriminate]. destruct (is_HTTPException e2); cbn; eauto.
  - pose proof (appends_build_info key o resp
                  (mkSt w2 [Ev (Send (HeadObject bucket key));
                            Ev (Send (GetObject bucket key (Some "bytes=0-0")))])) as [l Hl].
    cbn in Hl. split.
    + destruct (build_info key o resp _) as [[e3|i3] s3]; cbn in *.
      * destruct (is_HTTPException e3); cbn; rewrite Hl; cbn; eauto.
      * rewrite Hl; cbn; eauto.
    + intros resp' w2' [= <- <-] Ht.
      destruct (build_info_directory key o resp
                  (mkSt w2 [Ev (Send (HeadObject bucket key));
                            Ev (Send (GetObject bucket key (Some "bytes=0-0")))]) Ht)
        as (info & s' & Hb & Hd & Hsz).
      rewrite Hb. cbn. eauto.
Qed.

(** HEAD answered 404: notFound. *)
Lemma getFileInfo_head_404 key o w e w1 :
  perform _ (Send (HeadObject bucket key)) w = (inl e, w1) ->
  exn_httpStatusCode e = Some 404 ->
  run (getFileInfo key o) w
  = (inl (HTTPException 404 "文件不存在"), mkSt w1 [sent (HeadObject bucket key)]).
Proof.
  intros H1 Hc.
  unfold S3FileOperations.getFileInfo, handleFsError, status_is. m_eval.
  rewrite Hc. reflexivity.
Qed.

(** C5, the case the code misses. When the store refuses HEAD with 405 or
    403, stat falls back to a GET of the first byte; when the store answers
    that GET with 404 because the key does not exist, the error is not
    mapped to notFound: it leaves the catch block as it is and
    handleFsError turns it into HTTPException 500. *)
Theorem getFileInfo_fallback_404_is_500 key o w e w1 name message w2 :
  perform _ (Send (HeadObject bucket key)) w = (inl e, w1) ->
  exn_httpStatusCode e = Some 405 \/ exn_httpStatusCode e = Some 403 ->
  perform _ (Send (GetObject bucket key (Some "bytes=0-0"))) w1
  = (inl (ServiceError (Some 404) name message), w2) ->
  run (getFileInfo key o) w
  = (inl (HTTPException 500
            (if Js.truthy_str message then message else "获取文件信息失败")),
     mkSt w2 [sent (HeadObject bucket key);
              sent (GetObject bucket key (Some "bytes=0-0"))]).
Proof.
  intros H1 Hc H2.
  assert (Hs : status_is e 405 || status_is e 403 = true).
  { unfold status_is. destruct Hc as [-> | ->]; reflexivity. }
  unfold S3FileOperations.getFileInfo, handleFsError. m_eval. reflexivity.
Qed.

End StatFacts.

(** C5 on a store that refuses HEAD with 405 and holds no object: stat of a
    missing key answers 500, not 404. *)
Lemma getFileInfo_fallback_404_is_500_witness :
  let w0 := S3FileOperations.Sim.store [] (Some 405) false in
  fst (run (S3FileOperations.getFileInfo S3FileOperations.Sim.perform "bkt"
              (Some S3FileOperations.Sim.proxy_driver) 0 "folder" "now" "docs/missing.txt"
              (S3FileOperations.Sim.options (Js.JBool false) "/docs/missing.txt")) w0)
  = inl (HTTPException 500 "The specified key does not exist.").
Proof.
  intros w0.
  rewrite (getFileInfo_fallback_404_is_500 S3FileOperations.Sim.perform "bkt"
             (Some S3FileOperations.Sim.proxy_driver) 0 "folder" "now" "docs/missing.txt"
             (S3FileOperations.Sim.options (Js.JBool false) "/docs/missing.txt")
             w0 _ w0 "NoSuchKey" "The specified key does not exist." w0
             eq_refl (or_introl eq_refl) eq_refl).
  reflexivity.
Defined.

(** ** Proxy or presigned URLs *)

Section UrlFacts.
Import S3FileOperations.
Context {World : Type}.
Variable perform : forall R, Call R -> World -> (Exn + R) * World.
Variable driver : option Driver.

Local Abbreviation attach_urls := (attach_urls perform driver).


End UrlFacts.



(** ** WebDAV PUT *)

Section PutFacts.
Import WebdavPut.
Context {World : Type}.
Variable perform : forall R, Call R -> World -> (Exn + R) * World.
Variable mime : string -> string.
Variable handleWebDAVError : string -> Exn -> Response.
Variable normalizeFilePath : string -> string -> string -> string.

Local Abbreviation handlePut := (handlePut perform mime handleWebDAVError normalizeFilePath).

Lemma upload_mode_run w tr :
  upload_mode perform (mkSt w tr)
  = (inr (mode_of (fst (perform _ (GetSettingMetadata "webdav_upload_mode") w))),
     mkSt (snd (perform _ (GetSettingMetadata "webdav_upload_mode") w))
          (tr ++ [Ev (GetSettingMetadata "webdav_upload_mode")])).
Proof.
  unfold upload_mode. m_unfold.
  destruct (perform _ (GetSettingMetadata "webdav_upload_mode") w) as [[e|[st|]] w1];
    reflexivity.
Qed.

Lemma clear_mount_cache_no_upload path userId userType w tr :
  filter is_upload (trace (snd (clear_mount_cache perform path userId userType (mkSt w tr))))
  = filter is_upload tr.
Proof.
  unfold clear_mount_cache. m_unfold.
  destruct (perform _ (GetDriverByPath path userId userType) w) as [[e|info] w1]; cbn.
  - rewrite filter_app. cbn. apply app_nil_r.
  - destruct (mount info) as [m|]; cbn.
    + unfold call. cbn.
      destruct (perform _ (ClearDirectoryCache (id m)) w1) as [r w2]. cbn.
      rewrite !filter_app. cbn. rewrite !app_nil_r. reflexivity.
    + rewrite filter_app. cbn. apply app_nil_r.
Qed.

(** A request the handler takes to be empty (emptyBodyCheck holds): the
    streaming pipeline is never entered; a lock conflict is answered at once;
    otherwise the one upload is a direct upload of a zero-byte file, and the
    result is the one that upload and the cache clean-up leave. *)
Lemma handlePut_empty_file (req : PutRequest) (path userId userType : string)
    (w : World) :
  snd (declared_length req) = true ->
  let r := run (handlePut req path userId userType) w in
  let filename := Js.split_pop "/" path in
  let emptyFile := {| file_data := []; file_name := filename; file_type := mime filename |} in
  let lock := CheckLockPermission path (If req) "PUT" in
  let setting := GetSettingMetadata "webdav_upload_mode" in
  let upload := UploadFile path emptyFile userId userType {| useMultipart := false |} in
  let resolve := GetDriverByPath path userId userType in
  existsb is_multipart (trace (snd r)) = false /\
  (forall conflict w1,
      perform _ lock w = (inr (Some conflict), w1) ->
      r = (inr (text_response (lc_message conflict) (lc_status conflict)),
           mkSt w1 [Ev lock])) /\
  (forall w1,
      perform _ lock w = (inr None, w1) ->
      filter is_upload (trace (snd r)) = [direct_upload path emptyFile userId userType] /\
      (forall w2 e w3,
          snd (perform _ setting w1) = w2 ->
          perform _ upload w2 = (inl e, w3) ->
          r = (inr (handleWebDAVError "PUT" e), mkSt w3 [Ev lock; Ev setting; Ev upload])) /\
      (forall w2 w3 info w4 w5,
          snd (perform _ setting w1) = w2 ->
          perform _ upload w2 = (inr tt, w3) ->
          perform _ resolve w3 = (inr info, w4) ->
          match mount info with
          | Some m => perform _ (ClearDirectoryCache (id m)) w4 = (inr tt, w5)
          | None => w5 = w4
          end ->
          r = (inr created_response,
               mkSt w5 ([Ev lock; Ev setting; Ev upload; Ev resolve]
                        ++ match mount info with
                           | Some m => [Ev (ClearDirectoryCache (id m))]
                           | None => []
                           end)))).
Proof.
  intros He. cbv zeta.
  destruct (declared_length req) as [declaredContentLength emptyBodyCheck] eqn:Hd.
  cbn [snd] in He. subst emptyBodyCheck.
  unfold WebdavPut.handlePut. rewrite Hd.
  unfold run, try_catch, bind, call. cbn [world trace app].
  destruct (perform _ (CheckLockPermission path (If req) "PUT") w) as [[e|[c|]] w1] eqn:Hl;
    cbn [fst snd trace].
  - split; [reflexivity|]. split; intros; discriminate.
  - split; [reflexivity|]. split; [|intros; discriminate].
    intros conflict w1' [= <- <-]. reflexivity.
  - rewrite upload_mode_run. cbn [fst snd app world trace].
    set (w2 := snd (perform _ (GetSettingMetadata "webdav_upload_mode") w1)).
    set (emptyFile := {| file_data := []; file_name := Js.split_pop "/" path;
                         file_type := mime (Js.split_pop "/" path) |}).
    destruct (perform _ (UploadFile path emptyFile userId userType {| useMultipart := false |}) w2)
      as [[e|[]] w3] eqn:Hu; cbn [fst snd trace].
    + split; [reflexivity|]. split; [intros; discriminate|].
      intros w1' [= <-]. split; [reflexivity|]. split.
      * intros w2' e' w3' <-. fold w2. rewrite Hu. intros [= <- <-]. reflexivity.
      * intros w2' w3' info w4 w5 <-. fold w2. rewrite Hu. intros [=].
    + match goal with
      | |- context [clear_mount_cache perform path userId userType ?s] =>
          pose proof (clear_mount_cache_no_upload path userId userType w3 (trace s)) as Hc;
          change s with (mkSt w3 (trace s)) in *
      end.
      cbn [trace] in Hc.
      split.
      * unfold clear_mount_cache, bind, call, ret. cbn [world trace].
        destruct (perform _ (GetDriverByPath path userId userType) w3) as [[e|info] w4];
          cbn; [reflexivity|].
        destruct (mount info) as [m|]; cbn; [|reflexivity].
        destruct (perform _ (ClearDirectoryCache (id m)) w4) as [[e|[]] w5]; reflexivity.
      * split; [intros; discriminate|].
        intros w1' [= <-]. split; [|split].
        -- destruct (clear_mount_cache perform path userId userType _) as [[e|[]] s5] eqn:Hcm;
             cbn [fst snd trace] in *; exact Hc.
        -- intros w2' e' w3' <-. fold w2. rewrite Hu. intros [=].
        -- intros w2' w3' info w4 w5 <-. fold w2. rewrite Hu. intros [= <-] Hg Hm.
           unfold clear_mount_cache, bind, call, ret. cbn [world trace].
           rewrite Hg. cbn.
           destruct (mount info) as [m|] eqn:Hmi; cbn.
           ++ rewrite Hm. reflexivity.
           ++ subst w5. reflexivity.
Qed.

(** C4, as the code has it. For a PUT whose Content-Length header reads as
    0 (the header text 0 in particular):
    - whatever the collaborators answer, the streaming multipart pipeline is
      never entered;
    - when the lock check reports a conflict, the answer is the conflict's
      status and message and the lock check is all that happened: nothing
      is stored;
    - when no lock stands in the way, the one upload the handler asks for is
      a direct upload (useMultipart false) of a zero-byte file at the path,
      whatever the upload mode is; if the FileSystem refuses it, the answer
      is handleWebDAVError's; if it succeeds, the file is stored (the world
      is the one the upload left, passed through the cache clean-up) and
      the answer is 201 once the clean-up has succeeded. *)
Theorem put_empty_body_is_direct (req : PutRequest) (path userId userType : string)
    (h : string) (w : World) :
  ContentLength req = Some h ->
  Js.parseInt_str h (Some 10) = Some 0 ->
  let r := run (handlePut req path userId userType) w in
  let filename := Js.split_pop "/" path in
  let emptyFile := {| file_data := []; file_name := filename; file_type := mime filename |} in
  let lock := CheckLockPermission path (If req) "PUT" in
  let setting := GetSettingMetadata "webdav_upload_mode" in
  let upload := UploadFile path emptyFile userId userType {| useMultipart := false |} in
  let resolve := GetDriverByPath path userId userType in
  existsb is_multipart (trace (snd r)) = false /\
  (forall conflict w1,
      perform _ lock w = (inr (Some conflict), w1) ->
      r = (inr (text_response (lc_message conflict) (lc_status conflict)),
           mkSt w1 [Ev lock])) /\
  (forall w1,
      perform _ lock w = (inr None, w1) ->
      filter is_upload (trace (snd r)) = [direct_upload path emptyFile userId userType] /\
      (forall w2 e w3,
          snd (perform _ setting w1) = w2 ->
          perform _ upload w2 = (inl e, w3) ->
          r = (inr (handleWebDAVError "PUT" e), mkSt w3 [Ev lock; Ev setting; Ev upload])) /\
      (forall w2 w3 info w4 w5,
          snd (perform _ setting w1) = w2 ->
          perform _ upload w2 = (inr tt, w3) ->
          perform _ resolve w3 = (inr info, w4) ->
          match mount info with
          | Some m => perform _ (ClearDirectoryCache (id m)) w4 = (inr tt, w5)
          | None => w5 = w4
          end ->
          r = (inr created_response,
               mkSt w5 ([Ev lock; Ev setting; Ev upload; Ev resolve]
                        ++ match mount info with
                           | Some m => [Ev (ClearDirectoryCache (id m))]
                           | None => []
                           end)))).
Proof.
  intros Hh Hz. apply handlePut_empty_file.
  unfold declared_length. rewrite Hh, Hz. reflexivity.
Qed.


End PutFacts.

(** C4 as stated fails: a PUT with Content-Length: 0 on a locked path is
    answered with the lock conflict and creates nothing. *)
Lemma put_empty_body_locked_counterexample :
  let r := run (WebdavPut.handlePut WebdavPut.Sim.perform_locked WebdavPut.Sim.mime
                  WebdavPut.Sim.on_error WebdavPut.Sim.key_of WebdavPut.Sim.empty_put
                  "/docs/a.txt" "1" "admin") (WebdavPut.Sim.server None) in
  WebdavPut.ContentLength WebdavPut.Sim.empty_put = Some "0" /\
  fst r = inr (text_response "Locked" 423) /\
  filter WebdavPut.is_upload (trace (snd r)) = [] /\
  WebdavPut.Sim.stored (world (snd r)) = [].
Proof. cbv zeta. repeat split. Qed.

(** C4, amended, on the reference server, set to multipart mode: a PUT with
    Content-Length: 0 stores a zero-byte file by direct upload, answers 201
    and streams nothing; afterwards the server holds the empty file. *)
Lemma put_empty_body_is_direct_witness :
  let r := run (WebdavPut.handlePut WebdavPut.Sim.perform WebdavPut.Sim.mime
                  WebdavPut.Sim.on_error WebdavPut.Sim.key_of WebdavPut.Sim.empty_put
                  "/docs/a.txt" "1" "admin") (WebdavPut.Sim.server (Some "multipart")) in
  existsb WebdavPut.is_multipart (trace (snd r)) = false /\
  filter WebdavPut.is_upload (trace (snd r))
  = [WebdavPut.direct_upload "/docs/a.txt"
       {| WebdavPut.file_data := []; WebdavPut.file_name := "a.txt";
          WebdavPut.file_type := "text/plain" |} "1" "admin"] /\
  fst r = inr created_response /\
  WebdavPut.Sim.stored (world (snd r)) = [("/docs/a.txt", [])] /\
  WebdavPut.Sim.streamed (world (snd r)) = [].
Proof.
  intros r.
  destruct (put_empty_body_is_direct WebdavPut.Sim.perform WebdavPut.Sim.mime
              WebdavPut.Sim.on_error WebdavPut.Sim.key_of WebdavPut.Sim.empty_put
              "/docs/a.txt" "1" "admin" "0" (WebdavPut.Sim.server (Some "multipart"))
              eq_refl eq_refl) as (H1 & _ & H2).
  destruct (H2 _ eq_refl) as (H3 & _ & H4).
  pose proof (H4 _ _ _ _ _ eq_refl eq_refl eq_refl eq_refl) as H5.
  split; [exact H1|]. split; [exact H3|].
  fold r in H5. rewrite H5. repeat split.
Defined.



(** ** WebDAV MKCOL *)

Section MkcolFacts.
Import WebdavMkcol.
Context {World : Type}.
Variable perform : forall R, Call R -> World -> (Exn + R) * World.
Variable normalizeS3SubPath : string -> S3Config -> bool -> string.

Local Abbreviation handleMkcol := (handleMkcol perform normalizeS3SubPath).

(** C6, as the code has it. The statuses of MKCOL are decided in this order,
    each of the refusals ending the request with nothing written:
    - an error of the mount look-up is answered with its own status and
      message, before the body is read;
    - on a path that resolves to a mount, a request with a non-empty body is
      answered 415;
    - a request without body whose storage configuration is missing is
      answered 404;
    - with the configuration found and the client made, a target collection
      that already exists is answered 405;
    - a target whose parent collection does not exist is answered 409;
    - otherwise the zero-length marker object is written under the
      collection's key, and once the cache clean-up and the update of the
      mount's last use have succeeded too the answer is 201; the store is
      then as that PutObject and the two updates left it. *)
Theorem handleMkcol_statuses (path userId userType : string) (w : World) :
  let r := run (handleMkcol path userId userType) w in
  let find := Ev (FindMountPointByPath path userId userType) in
  (forall code message w1,
      perform _ (FindMountPointByPath path userId userType) w
      = (inr (MountError code message), w1) ->
      r = (inr (text_response message code), mkSt w1 [find])) /\
  (forall mount subPath w1,
      perform _ (FindMountPointByPath path userId userType) w
      = (inr (MountFound mount subPath), w1) ->
      let config := Ev (FindS3Config (storage_config_id mount)) in
      (forall body w2,
          perform _ ReqText w1 = (inr body, w2) ->
          0 < Js.length body ->
          r = (inr (text_response "MKCOL请求不应包含正文" 415), mkSt w2 [find; Ev ReqText])) /\
      (forall w2 w3,
          perform _ ReqText w1 = (inr EmptyString, w2) ->
          perform _ (FindS3Config (storage_config_id mount)) w2 = (inr None, w3) ->
          r = (inr (plain_response "存储配置不存在" 404), mkSt w3 [find; Ev ReqText; config])) /\
      (forall w2 cfg w3 w4,
          perform _ ReqText w1 = (inr EmptyString, w2) ->
          perform _ (FindS3Config (storage_config_id mount)) w2 = (inr (Some cfg), w3) ->
          perform _ (CreateS3Client cfg) w3 = (inr tt, w4) ->
          let key := valid_key (normalizeS3SubPath subPath cfg true) in
          let checked := [find; Ev ReqText; config; Ev (CreateS3Client cfg);
                          Ev (CheckDirectoryExists (bucket_name cfg) key)] in
          let put := PutObject (bucket_name cfg) key 0 EmptyString in
          (forall w5,
              perform _ (CheckDirectoryExists (bucket_name cfg) key) w4 = (inr true, w5) ->
              r = (inr (plain_response "目录已存在" 405), mkSt w5 checked)) /\
          (forall w5 parent w6,
              perform _ (CheckDirectoryExists (bucket_name cfg) key) w4 = (inr false, w5) ->
              parent_of key = Some parent ->
              perform _ (CheckDirectoryExists (bucket_name cfg) parent) w5 = (inr false, w6) ->
              r = (inr (plain_response "父目录不存在" 409),
                   mkSt w6 (checked ++ [Ev (CheckDirectoryExists (bucket_name cfg) parent)]))) /\
          (forall w5 w6 w7 w8 w9,
              perform _ (CheckDirectoryExists (bucket_name cfg) key) w4 = (inr false, w5) ->
              match parent_of key with
              | Some parent =>
                  perform _ (CheckDirectoryExists (bucket_name cfg) parent) w5 = (inr true, w6)
              | None => w6 = w5
              end ->
              perform _ put w6 = (inr tt, w7) ->
              perform _ (ClearCacheAfterWebDAVOperation key cfg true) w7 = (inr tt, w8) ->
              perform _ (UpdateMountLastUsed (id mount)) w8 = (inr tt, w9) ->
              r = (inr created_response,
                   mkSt w9 (checked
                            ++ match parent_of key with
                               | Some parent =>
                                   [Ev (CheckDirectoryExists (bucket_name cfg) parent)]
                               | None => []
                               end
                            ++ [Ev put; Ev (ClearCacheAfterWebDAVOperation key cfg true);
                                Ev (UpdateMountLastUsed (id mount))]))))).
Proof.
  cbv zeta. unfold WebdavMkcol.handleMkcol. split.
  - intros code message w1 Hm. m_eval. reflexivity.
  - intros mount subPath w1 Hm. split; [|split].
    + intros body w2 Hb Hlen. apply Z.ltb_lt in Hlen. m_eval. reflexivity.
    + intros w2 w3 Hb Hc. m_eval.
      change (0 <? Js.length EmptyString) with false. m_eval. reflexivity.
    + intros w2 cfg w3 w4 Hb Hc Hs. split; [|split].
      * intros w5 He. m_eval.
        change (0 <? Js.length EmptyString) with false. m_eval. reflexivity.
      * intros w5 parent w6 He Hp Hpe. m_eval.
        change (0 <? Js.length EmptyString) with false. m_eval.
        rewrite Hp. m_eval. cbn [negb]. reflexivity.
      * intros w5 w6 w7 w8 w9 He Hp Hput Hcl Hu. m_eval.
        change (0 <? Js.length EmptyString) with false. m_eval.
        destruct (parent_of _) as [parent|]; m_eval.
        -- cbn [negb]. m_eval. reflexivity.
        -- subst w6. m_eval. reflexivity.
Qed.

End MkcolFacts.

(** C6 as stated fails: a MKCOL with a body on a path outside every mount is
    answered with the mount look-up's 404, not 415; and a MKCOL with a body
    on a collection that exists is answered 415, not 405. *)
Lemma handleMkcol_order_counterexample :
  let go path keys body := fst (run (WebdavMkcol.handleMkcol WebdavMkcol.Sim.perform
                                       WebdavMkcol.Sim.normalize path "1" "admin")
                                  (WebdavMkcol.Sim.server keys body)) in
  go "/other/new" [] "<x/>" = inr (text_response "挂载点不存在" 404) /\
  bool_decide ("docs/new/" ∈ WebdavMkcol.Sim.keys
                 (WebdavMkcol.Sim.server ["docs/"; "docs/new/"] "<x/>")) = true /\
  go "/dav/docs/new" ["docs/"; "docs/new/"] "<x/>"
  = inr (text_response "MKCOL请求不应包含正文" 415).
Proof. cbv zeta. split; [|split]; vm_compute; reflexivity. Qed.

(** C6, amended, on the reference server: a body gives 415, an existing
    collection 405, a fresh collection under an existing parent 201, after
    which the bucket holds the marker key. *)
Lemma handleMkcol_statuses_witness :
  let go keys body := run (WebdavMkcol.handleMkcol WebdavMkcol.Sim.perform
                             WebdavMkcol.Sim.normalize "/dav/docs/new" "1" "admin")
                        (WebdavMkcol.Sim.server keys body) in
  (exists rsp, fst (go ["docs/"] "<x/>") = inr rsp /\ status rsp = 415) /\
  (exists rsp, fst (go ["docs/"; "docs/new/"] EmptyString) = inr rsp /\ status rsp = 405) /\
  fst (go ["docs/"] EmptyString) = inr created_response /\
  bool_decide ("docs/new/" ∈ WebdavMkcol.Sim.keys (world (snd (go ["docs/"] EmptyString))))
  = true /\
  bool_decide ("docs/new/" ∈ WebdavMkcol.Sim.keys (WebdavMkcol.Sim.server ["docs/"] EmptyString))
  = false.
Proof.
  intros go. split; [|split; [|split; [|split]]].
  - destruct (handleMkcol_statuses WebdavMkcol.Sim.perform WebdavMkcol.Sim.normalize
                "/dav/docs/new" "1" "admin" (WebdavMkcol.Sim.server ["docs/"] "<x/>"))
      as [_ H].
    destruct (H _ _ _ eq_refl) as [H1 _].
    eexists. split; [unfold go; rewrite (H1 _ _ eq_refl eq_refl)|]; reflexivity.
  - destruct (handleMkcol_statuses WebdavMkcol.Sim.perform WebdavMkcol.Sim.normalize
                "/dav/docs/new" "1" "admin"
                (WebdavMkcol.Sim.server ["docs/"; "docs/new/"] EmptyString)) as [_ H].
    destruct (H _ _ _ eq_refl) as (_ & _ & H1).
    destruct (H1 _ _ _ _ eq_refl eq_refl eq_refl) as [H2 _].
    eexists. split; [unfold go; rewrite (H2 _ eq_refl)|]; reflexivity.
  - destruct (handleMkcol_statuses WebdavMkcol.Sim.perform WebdavMkcol.Sim.normalize
                "/dav/docs/new" "1" "admin" (WebdavMkcol.Sim.server ["docs/"] EmptyString))
      as [_ H].
    destruct (H _ _ _ eq_refl) as (_ & _ & H1).
    destruct (H1 _ _ _ _ eq_refl eq_refl eq_refl) as (_ & _ & H2).
    unfold go. rewrite (H2 _ _ _ _ _ eq_refl eq_refl eq_refl eq_refl eq_refl). reflexivity.
  - destruct (handleMkcol_statuses WebdavMkcol.Sim.perform WebdavMkcol.Sim.normalize
                "/dav/docs/new" "1" "admin" (WebdavMkcol.Sim.server ["docs/"] EmptyString))
      as [_ H].
    destruct (H _ _ _ eq_refl) as (_ & _ & H1).
    destruct (H1 _ _ _ _ eq_refl eq_refl eq_refl) as (_ & _ & H2).
    unfold go. rewrite (H2 _ _ _ _ _ eq_refl eq_refl eq_refl eq_refl eq_refl).
    vm_compute. reflexivity.
  - vm_compute. reflexivity.
Defined.

(** ** Strings *)

Section StringFacts.

Lemma append_nil (s : string) : EmptyString +:+ s = s.
Proof. reflexivity. Qed.

Lemma append_cons (d : ascii) (u s : string) : String d u +:+ s = String d (u +:+ s).
Proof. reflexivity. Qed.

Lemma indexOf_char_app (c : ascii) (u p : string) :
  Js.indexOf_char c u = None ->
  Js.indexOf_char c (u +:+ String c p) = Some (String.length u).
Proof.
  induction u as [|d u IH]; intros H.
  - rewrite append_nil. cbn [Js.indexOf_char]. rewrite Ascii.eqb_refl. reflexivity.
  - rewrite append_cons. cbn [Js.indexOf_char String.length] in *.
    destruct (Ascii.eqb c d); [discriminate|].
    destruct (Js.indexOf_char c u); [discriminate|].
    rewrite (IH eq_refl). reflexivity.
Qed.

Lemma substring_app_prefix (u v : string) :
  String.substring 0 (String.length u) (u +:+ v) = u.
Proof.
  induction u as [|d u IH].
  - rewrite append_nil. destruct v; reflexivity.
  - rewrite append_cons. cbn [String.length String.substring]. rewrite IH. reflexivity.
Qed.

Lemma substring_all (p : string) : String.substring 0 (String.length p) p = p.
Proof.
  induction p as [|d p IH]; cbn [String.length String.substring];
    [reflexivity | rewrite IH; reflexivity].
Qed.

Lemma length_app (u v : string) :
  String.length (u +:+ v) = (String.length u + String.length v)%nat.
Proof.
  induction u as [|d u IH].
  - reflexivity.
  - rewrite append_cons. cbn [String.length]. rewrite IH. reflexivity.
Qed.

Lemma substring_from_app (c : ascii) (u p : string) :
  Js.substring_from (S (String.length u)) (u +:+ String c p) = p.
Proof.
  unfold Js.substring_from. rewrite length_app. cbn [String.length].
  replace (String.length u + S (String.length p) - S (String.length u))%nat
    with (String.length p) by lia.
  induction u as [|d u IH].
  - rewrite append_nil. cbn [String.length String.substring]. apply substring_all.
  - rewrite append_cons. cbn [String.length String.substring]. exact IH.
Qed.

End StringFacts.

(** ** Basic credentials *)

Section BasicAuthFacts.
Import AuthService.
Context {World : Type}.
Variable perform : forall R, Call R -> World -> (Exn + R) * World.

Local Abbreviation validateBasicAuth := (validateBasicAuth perform).

(** The credentials [username:password], once decoded and split at the first
    colon. *)
Lemma validateBasicAuth_split (token username password : string) (s : St Call World) :
  Js.atob token = Some (username +:+ String ":" password) ->
  Js.indexOf_char ":" username = None ->
  Js.truthy_str username = true ->
  Js.truthy_str password = true ->
  validateBasicAuth token s
  = try_catch
      (asAdmin <- basic_admin perform username password ;;
       match asAdmin with
       | Some result => ret result
       | None =>
           asKey <- basic_api_key perform username password ;;
           match asKey with
           | Some result => ret result
           | None => ret unauthenticated
           end
       end)
      (fun error => ret unauthenticated) s.
Proof.
  intros Ha Hc Hu Hp. unfold AuthService.validateBasicAuth. rewrite Ha.
  rewrite (indexOf_char_app _ _ _ Hc), substring_app_prefix, substring_from_app.
  rewrite Hu, Hp. reflexivity.
Qed.

(** The guard of the API key branch: [String(mount_permission) === "1" ||
    mount_permission === true] holds of the number 1, the text 1 and true,
    and of nothing else. *)
Lemma hasMountPermission_iff (v : Js.JsVal) :
  Js.String_is_1 v || Js.strict_eq_true v = true <->
  v = Js.JNum 1 \/ v = Js.JStr "1" \/ v = Js.JBool true.
Proof.
  destruct v as [| |b|n|s]; cbn.
  - split; [discriminate | intros [H|[H|H]]; discriminate].
  - split; [discriminate | intros [H|[H|H]]; discriminate].
  - destruct b; (split; [intros H; auto; discriminate H|]);
      intros [H|[H|H]]; try discriminate H; reflexivity.
  - rewrite orb_false_r, Z.eqb_eq. split.
    + intros ->. auto.
    + intros [H|[H|H]]; [congruence | discriminate | discriminate].
  - rewrite orb_false_r. split.
    + intros H. apply String.eqb_eq in H. subst. auto.
    + intros [H|[H|H]]; [discriminate | | discriminate].
      injection H as ->. reflexivity.
Qed.

(** C9, as the code has it. For Basic credentials username:password (the
    username non-empty and free of colons, the password non-empty):
    - when the username names an admin account and the password verifies
      against it, the result is an authenticated administrator (isAdmin
      holds; the authType recorded is basic) with all permissions and basic
      path /;
    - when the credentials do not sign in an administrator and the username
      is the key of an API key record: if the record's mount permission is
      set (it is the number 1, the text 1 or true), username and password
      are identical, the key has not expired and its last-used time could be
      updated, the result is an apikey principal carrying that record's
      permissions and its basic path (/ when it has none);
    - if the record's mount permission is not set, the result is the
      unauthenticated one, whether or not username and password are
      identical, and neither the expiry is checked nor the last use written;
    - so it is when username and password differ, and when the key has
      expired. *)
Theorem validateBasicAuth_principals (token username password : string) (w : World) :
  Js.atob token = Some (username +:+ String ":" password) ->
  Js.indexOf_char ":" username = None ->
  Js.truthy_str username = true ->
  Js.truthy_str password = true ->
  let r := run (validateBasicAuth token) w in
  (forall a w1 w2,
      perform _ (FindAdminByUsername username) w = (inr (Some a), w1) ->
      perform _ (VerifyPassword password (admin_password a)) w1 = (inr true, w2) ->
      r = (inr (basic_admin_result a),
           mkSt w2 [Ev (FindAdminByUsername username);
                    Ev (VerifyPassword password (admin_password a))]) /\
      isAdmin (basic_admin_result a) = true /\
      permissions (basic_admin_result a) = all_permissions /\
      basicPath (basic_admin_result a) = "/") /\
  (forall s1 keyRecord w2,
      basic_admin perform username password (mkSt w []) = (inr None, s1) ->
      perform _ (FindOneApiKey username) (world s1) = (inr (Some keyRecord), w2) ->
      let mountPermission := mount_permission keyRecord in
      let set := mountPermission = Js.JNum 1 \/ mountPermission = Js.JStr "1"
                 \/ mountPermission = Js.JBool true in
      let found := trace s1 ++ [Ev (FindOneApiKey username)] in
      let expiry := Ev (CheckAndDeleteExpiredApiKey keyRecord) in
      (set -> username = password ->
       forall w3 w4,
         perform _ (CheckAndDeleteExpiredApiKey keyRecord) w2 = (inr false, w3) ->
         perform _ (UpdateLastUsed (key_id keyRecord)) w3 = (inr tt, w4) ->
         r = (inr (api_key_result keyRecord (key keyRecord)),
              mkSt w4 (found ++ [expiry; Ev (UpdateLastUsed (key_id keyRecord))])) /\
         authType (api_key_result keyRecord (key keyRecord)) = "apikey" /\
         permissions (api_key_result keyRecord (key keyRecord)) = key_permissions keyRecord /\
         basicPath (api_key_result keyRecord (key keyRecord))
         = Js.str_or (basic_path keyRecord) "/") /\
      (~ set -> r = (inr unauthenticated, mkSt w2 found)) /\
      (username <> password -> r = (inr unauthenticated, mkSt w2 found)) /\
      (set -> username = password ->
       forall w3,
         perform _ (CheckAndDeleteExpiredApiKey keyRecord) w2 = (inr true, w3) ->
         r = (inr unauthenticated, mkSt w3 (found ++ [expiry])))).
Proof.
  intros Ha Hc Hu Hp. cbv zeta. unfold run.
  rewrite (validateBasicAuth_split token username password _ Ha Hc Hu Hp).
  split.
  - intros a w1 w2 H1 H2. unfold basic_admin. m_eval. repeat split.
  - intros s1 keyRecord w2 Hadm Hk.
    unfold try_catch, bind. rewrite Hadm.
    unfold basic_api_key, findByKey. rewrite Hu. cbn [negb].
    destruct s1 as [w1 tr1]. cbn [world trace] in *.
    split; [|split; [|split]].
    + intros Hset Heq w3 w4 He Hl. apply hasMountPermission_iff in Hset.
      rewrite <- Heq, String.eqb_refl. m_eval.
      rewrite <- app_assoc. repeat split.
    + intros Hset.
      assert (Hg : Js.String_is_1 (mount_permission keyRecord)
                   || Js.strict_eq_true (mount_permission keyRecord) = false).
      { destruct (Js.String_is_1 _ || Js.strict_eq_true _) eqn:E; [|reflexivity].
        apply hasMountPermission_iff in E. contradiction. }
      m_eval. reflexivity.
    + intros Hne. apply String.eqb_neq in Hne. m_eval.
      destruct (Js.String_is_1 _ || Js.strict_eq_true _); reflexivity.
    + intros Hset Heq w3 He. apply hasMountPermission_iff in Hset.
      rewrite <- Heq, String.eqb_refl. m_eval.
      rewrite <- app_assoc. reflexivity.
Qed.

End BasicAuthFacts.

(** C9 as stated fails: key2 is a stored, unexpired API key, and Basic
    credentials key2:key2 do not authenticate, because the record's mount
    permission is off. *)
Lemma basic_key_without_mount_counterexample :
  let w := AuthService.Sim.db in
  let r := fst (run (AuthService.authenticate AuthService.Sim.perform
                       (Some "Basic a2V5MjprZXky")) w) in
  Js.atob "a2V5MjprZXky" = Some "key2:key2" /\
  (exists keyRecord,
      AuthService.Sim.api_keys w !! "key2" = Some keyRecord /\
      AuthService.key keyRecord = "key2" /\
      fst (AuthService.Sim.perform _ (AuthService.CheckAndDeleteExpiredApiKey keyRecord) w)
      = inr false) /\
  r = inr AuthService.unauthenticated /\
  AuthService.isAuthenticated AuthService.unauthenticated = false.
Proof.
  cbv zeta. split; [reflexivity|]. split; [|split; reflexivity].
  eexists. split; [reflexivity|]. split; reflexivity.
Qed.

(** C9, amended, on the reference store: root:s3cret signs in the
    administrator, key1:key1 the API key with its permissions and basic
    path, and key2:key2, a key without mount permission, nobody. *)
Lemma validateBasicAuth_principals_witness :
  let go token := fst (run (AuthService.validateBasicAuth AuthService.Sim.perform token)
                         AuthService.Sim.db) in
  go "cm9vdDpzM2NyZXQ="
  = inr (AuthService.basic_admin_result
           {| AuthService.admin_id := "admin-1";
              AuthService.admin_password := AuthService.Sim.hash "s3cret" |}) /\
  go "a2V5MTprZXkx"
  = inr (AuthService.api_key_result
           (AuthService.Sim.a_key "key1" (Js.JNum 1) (Some "/team-a/")) "key1") /\
  go "a2V5MjprZXky" = inr AuthService.unauthenticated.
Proof.
  intros go. split; [|split].
  - destruct (validateBasicAuth_principals AuthService.Sim.perform
                "cm9vdDpzM2NyZXQ=" "root" "s3cret" AuthService.Sim.db
                eq_refl eq_refl eq_refl eq_refl) as [H _].
    unfold go. rewrite (proj1 (H _ _ _ eq_refl eq_refl)). reflexivity.
  - destruct (validateBasicAuth_principals AuthService.Sim.perform
                "a2V5MTprZXkx" "key1" "key1" AuthService.Sim.db
                eq_refl eq_refl eq_refl eq_refl) as [_ H].
    destruct (H _ _ _ eq_refl eq_refl) as [H1 _].
    unfold go.
    rewrite (proj1 (H1 (or_introl eq_refl) eq_refl _ _ eq_refl eq_refl)). reflexivity.
  - destruct (validateBasicAuth_principals AuthService.Sim.perform
                "a2V5MjprZXky" "key2" "key2" AuthService.Sim.db
                eq_refl eq_refl eq_refl eq_refl) as [_ H].
    destruct (H _ _ _ eq_refl eq_refl) as (_ & H2 & _).
    unfold go. rewrite H2; [reflexivity|].
    intros [E|[E|E]]; discriminate E.
Defined.

(** ** The path check of the /api/fs routes *)

Section PathCheckFacts.
Import FsRoutes.
Context {World : Type}.
Variable perform : forall R, Call R -> World -> (Exn + R) * World.
Variable checkPathPermissionForOperation : string -> string -> bool.
Variable pathPermission : string -> string -> bool.
Variable getMimeTypeFromFilename : string -> string.
Variable buildS3Url : S3Config -> string -> string.

Local Abbreviation checkPathPermission := (checkPathPermission checkPathPermissionForOperation).
Local Abbreviation handle :=
  (handle perform checkPathPermissionForOperation getMimeTypeFromFilename buildS3Url).

Lemma first_forbidden_some (info : AuthService.KeyInfo) (paths : list string) (p : string) :
  In p paths ->
  checkPathPermissionForOperation (AuthService.ki_basicPath info) p = false ->
  exists q, first_forbidden checkPathPermissionForOperation (ApiKeyUser info) paths = Some q.
Proof.
  intros Hin Hp. unfold first_forbidden.
  destruct (find _ paths) as [q|] eqn:Hf; [eauto|].
  pose proof (find_none _ _ Hf p Hin) as Hn. cbn in Hn. rewrite Hp in Hn. discriminate.
Qed.

Lemma first_forbidden_item_some (info : AuthService.KeyInfo)
    (items : list (string * string)) (p : string) :
  In p (List.concat (List.map (fun it => [fst it; snd it]) items)) ->
  checkPathPermissionForOperation (AuthService.ki_basicPath info) p = false ->
  exists m, first_forbidden_item checkPathPermissionForOperation (ApiKeyUser info) items = Some m.
Proof.
  intros Hin Hp. induction items as [|[src tgt] rest IH]; cbn in *; [contradiction|].
  destruct (checkPathPermissionForOperation (AuthService.ki_basicPath info) src) eqn:Hs;
    cbn; [|eauto].
  destruct (checkPathPermissionForOperation (AuthService.ki_basicPath info) tgt) eqn:Ht;
    cbn; [|eauto].
  destruct Hin as [<- | [<- | Hin]]; [congruence | congruence | auto].
Qed.

(** An API key principal that holds the file permission becomes the route's
    API key user, and the basic path the routes check is the key's. *)
Lemma unifiedFsAuth_api_key (keyRecord : AuthService.ApiKeyRecord) (k : string) :
  Js.strict_eq_1 (AuthService.file_permission keyRecord) = true ->
  exists info,
    unifiedFsAuth (Some (AuthService.api_key_result keyRecord k)) = inr (ApiKeyUser info) /\
    AuthService.ki_basicPath info
    = AuthService.basicPath (AuthService.api_key_result keyRecord k).
Proof.
  intros Hf. unfold unifiedFsAuth. cbn. rewrite Hf. eauto.
Qed.

(** C1. For an API key user with basic path A and each of the operations
    mkdir, upload, remove, rename, batch-remove, batch-copy, update and
    presign: a request that carries its required parameters and puts to the
    check a path p on which the path-permission predicate fails for A is
    answered 403 with the world untouched and the trace empty, that is
    before any call to the storage services. An administrator passes the
    check of the routes for every path, and so does an authenticated admin
    principal in AuthService.checkPathPermission, where an API key principal
    is judged by the predicate on its basic path. *)
Theorem path_check_refuses_before_storage :
  (forall (info : AuthService.KeyInfo) (req : FsRequest) (p : string) (w : World),
      has_required_parameters req = true ->
      In p (checked_paths req) ->
      checkPathPermissionForOperation (AuthService.ki_basicPath info) p = false ->
      exists rsp, run (handle (ApiKeyUser info) req) w = (inr rsp, mkSt w []) /\
                  http_status rsp = 403) /\
  (forall id p, checkPathPermission (AdminUser id) p = true) /\
  (forall a p,
      AuthService.isAuthenticated a = true ->
      AuthService.isAdmin a = true ->
      AuthService.checkPathPermission pathPermission a p = true) /\
  (forall keyRecord k p,
      AuthService.checkPathPermission pathPermission (AuthService.api_key_result keyRecord k) p
      = pathPermission (Js.str_or (AuthService.basic_path keyRecord) "/") p).
Proof.
  split; [|split; [|split]].
  - intros info req p w Hreq Hin Hp.
    destruct req as [path | file path m | path | o n | ps | items sk | path c | path f];
      cbn [handle FsRoutes.handle has_required_parameters checked_paths] in *.
    + destruct path as [path|]; [|discriminate]. cbn in Hreq, Hin.
      destruct Hin as [<-|[]].
      unfold mkdir. rewrite Hreq. cbn. rewrite Hp. cbn. eauto.
    + destruct file as [file|]; [|discriminate].
      destruct path as [path|]; [|discriminate]. cbn in Hreq, Hin.
      destruct Hin as [<-|[]].
      unfold upload. m_unfold. rewrite Hreq. cbn. rewrite Hp. cbn. eauto.
    + destruct path as [path|]; [|discriminate]. cbn in Hreq, Hin.
      destruct Hin as [<-|[]].
      unfold remove. rewrite Hreq. cbn. rewrite Hp. cbn. eauto.
    + destruct o as [o|]; [|discriminate].
      destruct n as [n|];
        [|cbn in Hreq; rewrite andb_false_r in Hreq; discriminate].
      cbn in Hreq, Hin. apply andb_prop in Hreq. destruct Hreq as [Ho Hn].
      unfold rename. rewrite Ho, Hn. cbn [negb orb].
      destruct Hin as [<-|[<-|[]]]; cbn; rewrite Hp; cbn.
      * eauto.
      * rewrite orb_true_r. cbn. eauto.
    + destruct ps as [[|q qs]|]; try discriminate. cbn in Hin.
      destruct (first_forbidden_some info (q :: qs) p Hin Hp) as [x Hx].
      unfold batch_remove. cbn [hasFullAccess negb]. rewrite Hx. cbn. eauto.
    + destruct items as [[|it its]|]; try discriminate.
      destruct (first_forbidden_item_some info (it :: its) p Hin Hp) as [x Hx].
      unfold batch_copy. cbn [hasFullAccess negb]. rewrite Hx. cbn. eauto.
    + destruct path as [path|]; [|discriminate]. destruct c as [c|];
        [|cbn in Hreq; rewrite andb_false_r in Hreq; discriminate].
      cbn in Hreq, Hin. rewrite andb_true_r in Hreq. destruct Hin as [<-|[]].
      unfold update. rewrite Hreq. cbn. rewrite Hp. cbn. eauto.
    + destruct path as [path|]; [|discriminate]. destruct f as [f|];
        [|cbn in Hreq; rewrite andb_false_r in Hreq; discriminate].
      cbn in Hreq, Hin. apply andb_prop in Hreq. destruct Hreq as [Hpa Hf].
      destruct Hin as [<-|[]].
      unfold presign. m_unfold. rewrite Hpa, Hf. cbn. rewrite Hp. cbn. eauto.
  - reflexivity.
  - intros a p Ha Hadm. unfold AuthService.checkPathPermission. rewrite Ha, Hadm. reflexivity.
  - intros keyRecord k p. unfold AuthService.checkPathPermission. cbn.
    unfold Js.str_or. destruct (AuthService.basic_path keyRecord) as [b|]; [|reflexivity].
    destruct (Js.truthy_str b) eqn:Hb; [rewrite Hb|]; reflexivity.
Qed.

End PathCheckFacts.

(** C1 on the reference services: the key of /team-a/ is refused 403 on
    paths of /team-b/, for a single path, a batch and a presign target, and
    the services are not reached. *)
Lemma path_check_refuses_before_storage_witness :
  let go req := run (FsRoutes.handle FsRoutes.Sim.perform AuthService.Sim.prefix_permission
                       WebdavPut.Sim.mime FsRoutes.Sim.s3_url FsRoutes.Sim.team_a req) [] in
  (exists rsp, go (FsRoutes.Mkdir (Some "/team-b/x")) = (inr rsp, mkSt [] []) /\
               FsRoutes.http_status rsp = 403) /\
  (exists rsp, go (FsRoutes.BatchCopy (Some [("/team-a/x", "/team-a/y");
                                             ("/team-a/z", "/team-b/z")]) true)
               = (inr rsp, mkSt [] []) /\
               FsRoutes.http_status rsp = 403) /\
  (exists rsp, go (FsRoutes.Presign (Some "/team-b") (Some "f.txt")) = (inr rsp, mkSt [] []) /\
               FsRoutes.http_status rsp = 403).
Proof.
  intros go.
  pose proof (proj1 (path_check_refuses_before_storage FsRoutes.Sim.perform
                       AuthService.Sim.prefix_permission AuthService.Sim.prefix_permission
                       WebdavPut.Sim.mime FsRoutes.Sim.s3_url)) as H.
  split; [|split].
  - refine (H FsRoutes.Sim.team_a_key (FsRoutes.Mkdir (Some "/team-b/x")) "/team-b/x" []
              eq_refl _ eq_refl).
    left. reflexivity.
  - refine (H FsRoutes.Sim.team_a_key
              (FsRoutes.BatchCopy (Some [("/team-a/x", "/team-a/y");
                                           ("/team-a/z", "/team-b/z")]) true)
              "/team-b/z" [] eq_refl _ eq_refl).
    right. right. right. left. reflexivity.
  - refine (H FsRoutes.Sim.team_a_key (FsRoutes.Presign (Some "/team-b") (Some "f.txt"))
              "/team-b/f.txt" [] eq_refl _ eq_refl).
    left. reflexivity.
Defined.

(** ** The capacity check of the commit *)

Section CommitFacts.
Import UrlUpload.
Context {World : Type}.
Variable perform : forall R, Call R -> World -> (Exn + R) * World.
Variable formatFileSize : Z -> string.
Variable now : string.
Variable hours_from_now : Z -> string.

Local Abbreviation commit := (commit perform formatFileSize now hours_from_now).

(** C2, the case the code misses. When the caller may update the file
    record, the storage configuration has a capacity (total_storage_bytes is
    not null) and the bytes already used by the other files of the
    configuration plus the committed size exceed it, the commit asks the
    object store to delete the uploaded object (whether or not that deletion
    succeeds) and then calls fileRepository.deleteById, a method
    FileRepository does not have: the TypeError is caught by the handler's
    outer catch, the answer is HTTP 500, and the deletion of the object is
    the last thing asked of any collaborator, so the file record is not
    deleted. *)
Theorem commit_over_capacity (caller : Caller) (body : CommitBody) (fileId : string)
    (file : FileRecord) (cfg : S3Config) (capacity n : Z) (usage : option Usage)
    (rd : Exn + unit) (w w1 w2 w3 w4 : World) :
  file_id body = Some fileId ->
  Js.truthy_str fileId = true ->
  perform _ (FindFileById fileId) w = (inr (Some file), w1) ->
  isAdmin caller && owned_by_other file (userId caller) = false ->
  String.eqb (authType caller) "apikey"
  && owned_by_other file ("apikey:" +:+ userId caller) = false ->
  perform _ (config_lookup caller file) w1 = (inr (Some cfg), w2) ->
  total_storage_bytes cfg = Some capacity ->
  perform _ (GetTotalSizeByS3ConfigExcludingFile (s3_config_id file) (id file)) w2
  = (inr usage, w3) ->
  committed_size body = Some n ->
  capacity < Js.plus (current_usage usage) n ->
  perform _ (DeleteFileFromS3 cfg (storage_path file)) w3 = (rd, w4) ->
  run (commit caller body) w
  = (inr (error_json 500 "提交文件失败: fileRepository.deleteById is not a function"),
     mkSt w4 [Ev (FindFileById fileId);
              Ev (config_lookup caller file);
              Ev (GetTotalSizeByS3ConfigExcludingFile (s3_config_id file) (id file));
              Ev (DeleteFileFromS3 cfg (storage_path file))]).
Proof.
  intros Hid Ht Hf Ha Hk Hc Hcap Hu Hn Hex Hd.
  assert (Hx : exceeds (current_usage usage) (committed_size body) capacity = true).
  { rewrite Hn. cbn. apply Z.ltb_lt. exact Hex. }
  unfold UrlUpload.commit, capacity_check, Js.truthy_opt, Js.str_or.
  rewrite Hid, Ht. cbn [negb]. m_eval. rewrite Hcap. m_eval.
  destruct rd as [e|[]]; m_eval; reflexivity.
Qed.

End CommitFacts.

(** C2 on the reference store: with a capacity of 100 bytes, 40 bytes in use
    and a commit of 70 bytes, the answer is HTTP 500; the uploaded object
    has been deleted from the bucket and its record is still in the files
    table. *)
Lemma commit_over_capacity_witness :
  let r := run (UrlUpload.commit UrlUpload.Sim.perform UrlUpload.Sim.format "now"
                  UrlUpload.Sim.later UrlUpload.Sim.admin UrlUpload.Sim.commit_70)
             (UrlUpload.Sim.store false) in
  UrlUpload.Sim.used (UrlUpload.Sim.store false) "c1" "f2" = 40 /\
  UrlUpload.committed_size UrlUpload.Sim.commit_70 = Some 70 /\
  (exists rsp, fst r = inr rsp /\ UrlUpload.http_status rsp = 500) /\
  UrlUpload.Sim.files (world (snd r)) !! "f2" = Some (UrlUpload.Sim.a_file "f2" "new.bin" 0) /\
  elements (UrlUpload.Sim.bucket (world (snd r))) = ["old.bin"].
Proof.
  intros r.
  pose proof (commit_over_capacity UrlUpload.Sim.perform UrlUpload.Sim.format "now"
                UrlUpload.Sim.later UrlUpload.Sim.admin UrlUpload.Sim.commit_70 "f2"
                (UrlUpload.Sim.a_file "f2" "new.bin" 0)
                {| UrlUpload.cfg_id := "c1"; UrlUpload.total_storage_bytes := Some 100 |}
                100 70 _ _ (UrlUpload.Sim.store false) _ _ _ _
                eq_refl eq_refl eq_refl eq_refl eq_refl eq_refl eq_refl eq_refl eq_refl
                eq_refl eq_refl) as Hrun.
  fold r in Hrun.
  split; [reflexivity|]. split; [reflexivity|]. split; [|split].
  - eexists. rewrite Hrun. split; reflexivity.
  - rewrite Hrun. vm_compute. reflexivity.
  - rewrite Hrun. vm_compute. reflexivity.
Defined.



(** ** What a computation calls, and whether it returns *)

Section TraceOnly.
Context {Call : Type -> Type} {World : Type}.
Variable perform : forall R, Call R -> World -> (Exn + R) * World.
Variable P : Event Call -> bool.

Lemma emits_only_ret {A} (a : A) : emits_only (World:=World) P (ret a).
Proof. intros s. exists []. cbn. split; [symmetry; apply app_nil_r | reflexivity]. Qed.

Lemma emits_only_throw {A} (e : Exn) : emits_only (World:=World) (A:=A) P (throw e).
Proof. intros s. exists []. cbn. split; [symmetry; apply app_nil_r | reflexivity]. Qed.

Lemma emits_only_call {R} (c : Call R) : P (Ev c) = true -> emits_only P (call perform c).
Proof.
  intros Hc s. exists [Ev c]. unfold call.
  destruct (perform R c (world s)) as [r w]. cbn. rewrite Hc. auto.
Qed.

Lemma emits_only_bind {A B} (m : M Call World A) (k : A -> M Call World B) :
  emits_only P m -> (forall a, emits_only P (k a)) -> emits_only P (bind m k).
Proof.
  intros Hm Hk s. unfold bind. destruct (Hm s) as (l & Hl & Pl).
  destruct (m s) as [[e|a] s1]; cbn in *.
  - eauto.
  - destruct (Hk a s1) as (l' & Hl' & Pl'). exists (l ++ l').
    rewrite Hl', Hl, forallb_app, Pl, Pl'. split; [symmetry; apply app_assoc | reflexivity].
Qed.

Lemma emits_only_try_catch {A} (m : M Call World A) (h : Exn -> M Call World A) :
  emits_only P m -> (forall e, emits_only P (h e)) -> emits_only P (try_catch m h).
Proof.
  intros Hm Hh s. unfold try_catch. destruct (Hm s) as (l & Hl & Pl).
  destruct (m s) as [[e|a] s1]; cbn in *.
  - destruct (Hh e s1) as (l' & Hl' & Pl'). exists (l ++ l').
    rewrite Hl', Hl, forallb_app, Pl, Pl'. split; [symmetry; apply app_assoc | reflexivity].
  - eauto.
Qed.

Lemma emits_only_if {A} (b : bool) (m1 m2 : M Call World A) :
  emits_only P m1 -> emits_only P m2 -> emits_only P (if b then m1 else m2).
Proof. destruct b; auto. Qed.

Lemma emits_only_run {A} (m : M Call World A) (w : World) :
  emits_only P m -> forallb P (trace (snd (run m w))) = true.
Proof. intros Hm. destruct (Hm (mkSt w [])) as (l & Hl & Pl). unfold run. now rewrite Hl. Qed.

Lemma never_throws_ret {A} (a : A) : never_throws (Call:=Call) (World:=World) (ret a).
Proof. intros s. cbn. eauto. Qed.

Lemma never_throws_bind {A B} (m : M Call World A) (k : A -> M Call World B) :
  never_throws m -> (forall a, never_throws (k a)) -> never_throws (bind m k).
Proof.
  intros Hm Hk s. unfold bind. destruct (Hm s) as (a & s1 & ->). apply Hk.
Qed.

Lemma never_throws_try_catch {A} (m : M Call World A) (h : Exn -> M Call World A) :
  (forall e, never_throws (h e)) -> never_throws (try_catch m h).
Proof.
  intros Hh s. unfold try_catch. destruct (m s) as [[e|a] s1]; [apply Hh | eauto].
Qed.

Lemma never_throws_if {A} (b : bool) (m1 m2 : M Call World A) :
  never_throws m1 -> never_throws m2 -> never_throws (if b then m1 else m2).
Proof. destruct b; auto. Qed.

End TraceOnly.

Create HintDb trace_only.
#[export] Hint Resolve emits_only_ret emits_only_throw emits_only_call emits_only_bind
  emits_only_try_catch emits_only_if : trace_only.

Create HintDb returns.
#[export] Hint Resolve never_throws_ret never_throws_bind never_throws_try_catch
  never_throws_if : returns.

(** ** exists and copy *)

Section CopyFacts.
Import S3FileOperations.
Context {World : Type}.
Variable perform : forall R, Call R -> World -> (Exn + R) * World.
Variable bucket : string.

Local Abbreviation copyFile := (copyFile perform bucket).

(** exists sends one HEAD and never throws: it answers true when the HEAD
    succeeds and false on every failure, of whatever status. *)
Lemma exists_reports_any_failure_as_absent (key : string) (w : World) :
  let answer := perform _ (Send (HeadObject bucket key)) w in
  run (exists_ perform bucket key) w
  = (inr (match fst answer with inr _ => true | inl _ => false end),
     mkSt (snd answer) [sent (HeadObject bucket key)]).
Proof.
  cbv zeta. unfold exists_. m_unfold.
  destruct (perform _ (Send (HeadObject bucket key)) w) as [[e|o] w1]; cbn; [|reflexivity].
  destruct (status_is e 404); reflexivity.
Qed.

(** X1. copyFile with skipExisting: when the HEAD of the source and the HEAD
    of the target both succeed, the copy is skipped: the result says so, the
    two HEADs are the only commands sent (no CopyObject, no update of the
    parent directories) and the store is as they left it. *)
Theorem copyFile_skips_existing_target (src tgt : string) (w w1 w2 : World)
    (o1 o2 : S3Output) :
  perform _ (Send (HeadObject bucket src)) w = (inr o1, w1) ->
  perform _ (Send (HeadObject bucket tgt)) w1 = (inr o2, w2) ->
  run (copyFile src tgt true) w
  = (inr {| cr_success := true; skipped := true; source := src; target := tgt;
            cr_message := "文件已存在，跳过复制" |},
     mkSt w2 [sent (HeadObject bucket src); sent (HeadObject bucket tgt)]).
Proof.
  intros H1 H2. unfold S3FileOperations.copyFile. m_eval. reflexivity.
Qed.

(** X2. copyFile when nothing fails: after the HEAD of the source, the target
    is looked at only with skipExisting (and found absent, 404); then
    CopyObject is sent and the parent directories of the target are updated;
    the result reports a copy that was not skipped, and the store is as
    these calls left it. *)
Theorem copyFile_copies_and_touches_parents (src tgt : string) (skipExisting : bool)
    (w w1 w2 w3 w4 : World) (o1 o3 : S3Output) :
  perform _ (Send (HeadObject bucket src)) w = (inr o1, w1) ->
  (if skipExisting
   then exists e, perform _ (Send (HeadObject bucket tgt)) w1 = (inl e, w2) /\
                  exn_httpStatusCode e = Some 404
   else w2 = w1) ->
  perform _ (Send (CopyObject bucket bucket src tgt)) w2 = (inr o3, w3) ->
  perform _ (UpdateParentDirectoriesModifiedTime bucket tgt) w3 = (inr tt, w4) ->
  run (copyFile src tgt skipExisting) w
  = (inr {| cr_success := true; skipped := false; source := src; target := tgt;
            cr_message := "文件复制成功" |},
     mkSt w4 (sent (HeadObject bucket src)
              :: (if skipExisting then [sent (HeadObject bucket tgt)] else [])
              ++ [sent (CopyObject bucket bucket src tgt);
                  Ev (UpdateParentDirectoriesModifiedTime bucket tgt)])).
Proof.
  intros H1 H2 H3 H4. unfold S3FileOperations.copyFile.
  destruct skipExisting.
  - destruct H2 as (e & H2 & Hc). m_eval. unfold status_is. rewrite Hc. cbn. m_eval.
    reflexivity.
  - subst w2. m_eval. reflexivity.
Qed.

Lemma emits_only_copyFile (src tgt : string) (skipExisting : bool) :
  emits_only keeps_objects (copyFile src tgt skipExisting).
Proof.
  unfold S3FileOperations.copyFile.
  repeat first
    [ apply emits_only_try_catch | apply emits_only_bind | apply emits_only_if
    | apply emits_only_ret | apply emits_only_throw
    | apply emits_only_call; reflexivity | intros ? ].
Qed.

(** X3. copyFile never sends a PutObject or a DeleteObject, whatever the store
    answers. Every error it throws is an HTTPException, 404 (the source does
    not exist) or 500 with the prefixed message of the cause. A failing HEAD
    of the source ends the copy at once, with 404 exactly when the status of
    the failure was 404; with skipExisting, a HEAD of the target that fails
    with another status than 404 ends it with 500 before any CopyObject. *)
Theorem copyFile_failures (src tgt : string) (skipExisting : bool) (w : World) :
  let r := run (copyFile src tgt skipExisting) w in
  forallb keeps_objects (trace (snd r)) = true /\
  (forall e, fst r = inl e ->
     e = HTTPException 404 "源文件不存在" \/
     exists m, e = HTTPException 500 ("复制文件失败: " +:+ m)) /\
  (forall e w1,
     perform _ (Send (HeadObject bucket src)) w = (inl e, w1) ->
     r = (inl (if status_is e 404 then HTTPException 404 "源文件不存在"
               else HTTPException 500 ("复制文件失败: " +:+ exn_message e)),
          mkSt w1 [sent (HeadObject bucket src)])) /\
  (forall o1 w1 e w2,
     skipExisting = true ->
     perform _ (Send (HeadObject bucket src)) w = (inr o1, w1) ->
     perform _ (Send (HeadObject bucket tgt)) w1 = (inl e, w2) ->
     status_is e 404 = false ->
     r = (inl (HTTPException 500 ("复制文件失败: " +:+ exn_message e)),
          mkSt w2 [sent (HeadObject bucket src); sent (HeadObject bucket tgt)])).
Proof.
  cbv zeta. split; [apply emits_only_run, emits_only_copyFile|]. split; [|split].
  - intros e. unfold S3FileOperations.copyFile. m_unfold.
    destruct_perform perform;
      repeat (match goal with
              | |- context [if ?b then _ else _] => destruct b eqn:?
              end; cbn [world trace fst snd app negb]; destruct_perform perform);
      intros [= <-]; eauto.
  - intros e w1 H1. unfold S3FileOperations.copyFile. m_eval.
    destruct (status_is e 404); reflexivity.
  - intros o1 w1 e w2 -> H1 H2 Hc. unfold S3FileOperations.copyFile. m_eval.
    rewrite ?Hc. cbn. rewrite ?Hc. reflexivity.
Qed.

End CopyFacts.

(** X1 on the reference store: both objects are there, and the copy is
    skipped after the two HEADs. *)
Lemma copyFile_skips_existing_target_witness :
  let w0 := S3FileOperations.Sim.store
              [("docs/a.txt", S3FileOperations.Sim.text_object "hello");
               ("docs/b.txt", S3FileOperations.Sim.text_object "other")] None false in
  run (S3FileOperations.copyFile S3FileOperations.Sim.perform "bkt"
         "docs/a.txt" "docs/b.txt" true) w0
  = (inr {| S3FileOperations.cr_success := true; S3FileOperations.skipped := true;
            S3FileOperations.source := "docs/a.txt";
            S3FileOperations.target := "docs/b.txt";
            S3FileOperations.cr_message := "文件已存在，跳过复制" |},
     mkSt w0 [S3FileOperations.sent (S3FileOperations.HeadObject "bkt" "docs/a.txt");
              S3FileOperations.sent (S3FileOperations.HeadObject "bkt" "docs/b.txt")]).
Proof.
  intros w0.
  exact (copyFile_skips_existing_target S3FileOperations.Sim.perform "bkt"
           "docs/a.txt" "docs/b.txt" w0 _ _ _ _ eq_refl eq_refl).
Defined.

(** X2 on the reference store: docs/a.txt is copied to the free key
    docs/b.txt, after which the bucket holds the object under both keys. *)
Lemma copyFile_copies_and_touches_parents_witness :
  let w0 := S3FileOperations.Sim.store
              [("docs/a.txt", S3FileOperations.Sim.text_object "hello")] None false in
  let r := run (S3FileOperations.copyFile S3FileOperations.Sim.perform "bkt"
                  "docs/a.txt" "docs/b.txt" true) w0 in
  (exists res, fst r = inr res /\ S3FileOperations.skipped res = false) /\
  S3FileOperations.Sim.objects (world (snd r)) !! "docs/b.txt"
  = Some (S3FileOperations.Sim.text_object "hello") /\
  S3FileOperations.Sim.objects (world (snd r)) !! "docs/a.txt"
  = Some (S3FileOperations.Sim.text_object "hello").
Proof.
  intros w0 r.
  pose proof (copyFile_copies_and_touches_parents S3FileOperations.Sim.perform "bkt"
                "docs/a.txt" "docs/b.txt" true w0 _ _ _ _ _ _ eq_refl
                (ex_intro _ _ (conj eq_refl eq_refl)) eq_refl eq_refl) as Hrun.
  fold r in Hrun. rewrite Hrun.
  split; [eexists; split; reflexivity|].
  split; vm_compute; reflexivity.
Defined.

(** ** Path segments *)

Section SegmentFacts.

Lemma includes_char_snoc (c d : ascii) (u : string) :
  Js.includes_char c u = false ->
  Ascii.eqb c d = false ->
  Js.includes_char c (u +:+ String d EmptyString) = false.
Proof.
  unfold Js.includes_char.
  induction u as [|x u IH]; rewrite ?append_nil, ?append_cons; cbn; intros Hu Hd.
  - now rewrite Hd.
  - destruct (Ascii.eqb c x); [discriminate|].
    destruct (Js.indexOf_char c u); [discriminate|].
    specialize (IH eq_refl Hd).
    destruct (Js.indexOf_char c (u +:+ String d EmptyString)); [discriminate|reflexivity].
Qed.

Lemma split_aux_pieces (c : ascii) (s cur : string) :
  Js.includes_char c cur = false ->
  Forall (fun x => Js.includes_char c x = false) (Js.split_aux c s cur).
Proof.
  revert cur. induction s as [|d s IH]; cbn; intros cur Hcur.
  - auto.
  - destruct (Ascii.eqb c d) eqn:Hd.
    + constructor; [exact Hcur | apply IH; reflexivity].
    + apply IH. now apply includes_char_snoc.
Qed.

Lemma last_segment_some (s x : string) :
  Js.last_segment s = Some x ->
  Js.truthy_str x = true /\ Js.includes_char "/" x = false.
Proof.
  unfold Js.last_segment. intros H.
  assert (Hin : In x (List.filter Js.truthy_str (Js.split "/" s))).
  { apply in_rev.
    destruct (rev (List.filter Js.truthy_str (Js.split "/" s))) as [|y l];
      [discriminate|].
    injection H as ->. left. reflexivity. }
  apply filter_In in Hin. destruct Hin as [Hin Ht]. split; [exact Ht|].
  pose proof (split_aux_pieces "/" s EmptyString eq_refl) as Hall.
  apply (proj1 (List.Forall_forall _ _) Hall x Hin).
Qed.

End SegmentFacts.

(** ** stat, update: errors, flags and what is never sent *)

Section OperationFacts.
Import S3FileOperations.
Context {World : Type}.
Variable perform : forall R, Call R -> World -> (Exn + R) * World.
Variable bucket : string.
Variable driver : option Driver.
Variable FOLDER : Z.
Variable FOLDER_NAME : string.
Variable now : string.
Variable mime : string -> string.

Local Abbreviation getFileInfo := (getFileInfo perform bucket driver FOLDER FOLDER_NAME now).
Local Abbreviation build_info := (build_info perform driver FOLDER FOLDER_NAME now).
Local Abbreviation attach_urls := (attach_urls perform driver).
Local Abbreviation updateFile := (updateFile perform bucket mime).

Lemma handleFsError_throws_HTTPException {A} (fn : M Call World A) (op d : string)
    (s s' : St Call World) (e : Exn) :
  handleFsError fn op d s = (inl e, s') -> is_HTTPException e = true.
Proof.
  unfold handleFsError, try_catch.
  destruct (fn s) as [[e0|a] s0]; [|discriminate].
  destruct (is_HTTPException e0) eqn:E; cbn; intros [= <- <-]; auto.
Qed.

Lemma copyFile_throws_HTTPException (src tgt : string) (skipExisting : bool)
    (s s' : St Call World) (e : Exn) :
  copyFile perform bucket src tgt skipExisting s = (inl e, s') -> is_HTTPException e = true.
Proof.
  unfold copyFile. unfold try_catch at 1.
  match goal with |- context [match ?m s with _ => _ end] => destruct (m s) as [[e0|a] s0] end;
    [|discriminate].
  destruct (status_is e0 404); cbn; intros [= <- <-]; reflexivity.
Qed.

(** X4. Whatever handleFsError wraps, an error that leaves it is an
    HTTPException; so every error thrown by getFileInfo, updateFile and
    renameFile is one, and so is every error thrown by copyFile, which
    maps errors itself. *)
Theorem operations_throw_only_HTTPException :
  (forall (A : Type) (fn : M Call World A) (op d : string) (s s' : St Call World) (e : Exn),
      handleFsError fn op d s = (inl e, s') -> is_HTTPException e = true) /\
  (forall key o w e, fst (run (getFileInfo key o) w) = inl e -> is_HTTPException e = true) /\
  (forall key content fileName w e,
      fst (run (updateFile key content fileName) w) = inl e -> is_HTTPException e = true) /\
  (forall old new w e,
      fst (run (renameFile perform bucket old new) w) = inl e -> is_HTTPException e = true) /\
  (forall src tgt skipExisting w e,
      fst (run (copyFile perform bucket src tgt skipExisting) w) = inl e ->
      is_HTTPException e = true).
Proof.
  split; [intros A; apply handleFsError_throws_HTTPException|].
  split; [|split; [|split]]; intros; unfold run in *;
    match goal with
    | H : fst ?r = inl _ |- _ => destruct r as [x s'] eqn:Hr; cbn in H; subst x
    end.
  - unfold S3FileOperations.getFileInfo in Hr.
    exact (handleFsError_throws_HTTPException _ _ _ _ _ _ Hr).
  - unfold S3FileOperations.updateFile in Hr.
    exact (handleFsError_throws_HTTPException _ _ _ _ _ _ Hr).
  - unfold renameFile in Hr.
    exact (handleFsError_throws_HTTPException _ _ _ _ _ _ Hr).
  - exact (copyFile_throws_HTTPException _ _ _ _ _ _ Hr).
Qed.

Lemma emits_only_presigned_urls P key co result :
  (forall k e d c, P (Ev (GeneratePresignedUrl k e d c)) = true) ->
  emits_only P (presigned_urls perform key co result).
Proof.
  intros HP. unfold presigned_urls.
  repeat first
    [ apply emits_only_try_catch | apply emits_only_bind | apply emits_only_ret
    | apply emits_only_call; apply HP | intros ? ].
Qed.

Lemma emits_only_attach_urls P key o result :
  (forall k e d c, P (Ev (GeneratePresignedUrl k e d c)) = true) ->
  (forall p d, P (Ev (GenerateProxyUrl p d)) = true) ->
  emits_only P (attach_urls key o result).
Proof.
  intros HP HQ. unfold S3FileOperations.attach_urls.
  repeat first
    [ apply emits_only_presigned_urls; exact HP
    | apply emits_only_try_catch | apply emits_only_bind | apply emits_only_if
    | apply emits_only_ret
    | apply emits_only_call; apply HQ | intros ? ].
Qed.

Lemma emits_only_getFileInfo key o : emits_only is_read (getFileInfo key o).
Proof.
  unfold S3FileOperations.getFileInfo, handleFsError, S3FileOperations.build_info.
  repeat first
    [ apply emits_only_attach_urls; reflexivity
    | apply emits_only_try_catch | apply emits_only_bind | apply emits_only_if
    | apply emits_only_ret | apply emits_only_throw
    | apply emits_only_call; reflexivity | intros ? ].
Qed.

(** X5. getFileInfo and exists only read: every call they make is a HEAD or
    a GET of the bucket, a file-type look-up or the generation of an URL;
    no PutObject, DeleteObject, CopyObject or directory update, whatever the
    collaborators answer. *)
Theorem getFileInfo_and_exists_only_read (key : string) (o : Options) (w : World) :
  forallb is_read (trace (snd (run (getFileInfo key o) w))) = true /\
  forallb is_read (trace (snd (run (exists_ perform bucket key) w))) = true.
Proof.
  split; apply emits_only_run; [apply emits_only_getFileInfo|].
  unfold exists_.
  repeat first
    [ apply emits_only_try_catch | apply emits_only_bind | apply emits_only_if
    | apply emits_only_ret | apply emits_only_call; reflexivity | intros ? ].
Qed.

End OperationFacts.

Section StatEntryFacts.
Import S3FileOperations.
Context {World : Type}.
Variable perform : forall R, Call R -> World -> (Exn + R) * World.
Variable bucket : string.
Variable driver : option Driver.
Variable FOLDER : Z.
Variable FOLDER_NAME : string.
Variable now : string.

Local Abbreviation getFileInfo := (getFileInfo perform bucket driver FOLDER FOLDER_NAME now).
Local Abbreviation build_info := (build_info perform driver FOLDER FOLDER_NAME now).
Local Abbreviation attach_urls := (attach_urls perform driver).

Ltac split_cases :=
  repeat (destruct_perform perform;
          try match goal with
              | |- context [if ?b then _ else _] => destruct b eqn:?
              end;
          cbn [world trace fst snd app is_HTTPException negb]).

(** X6. getFileInfo for a caller whose userType or userId is missing: no URL
    is generated (neither the proxy nor the signer is called), and an entry
    that is returned has neither preview_url nor download_url. *)
Theorem getFileInfo_anonymous_has_no_urls (key : string) (o : Options) (w : World) :
  Js.truthy_opt (userType o) && Js.truthy_opt (userId o) = false ->
  let r := run (getFileInfo key o) w in
  existsb is_url_call (trace (snd r)) = false /\
  (forall info, fst r = inr info -> preview_url info = None /\ download_url info = None).
Proof.
  intros Hanon. cbv zeta.
  unfold S3FileOperations.getFileInfo, handleFsError, S3FileOperations.build_info,
    S3FileOperations.attach_urls.
  rewrite Hanon. m_unfold.
  split_cases; (split; [reflexivity|]); cbn; intros info [= <-]; auto.
Qed.

Lemma presigned_urls_keeps key co result s :
  exists r' s', presigned_urls perform key co result s = (inr r', s') /\
                fi_name r' = fi_name result /\ fi_path r' = fi_path result.
Proof.
  unfold presigned_urls. m_unfold. destruct_perform perform; eauto 6.
Qed.

Lemma attach_urls_keeps key o result s :
  exists r' s', attach_urls key o result s = (inr r', s') /\
                fi_name r' = fi_name result /\ fi_path r' = fi_path result.
Proof.
  unfold S3FileOperations.attach_urls.
  destruct (Js.truthy_opt (userType o) && Js.truthy_opt (userId o)); [|cbn; eauto 6].
  destruct (Js.truthy (web_proxy (mount o)) && driver_has_proxy driver);
    [|apply presigned_urls_keeps].
  m_unfold.
  destruct (perform _ (GenerateProxyUrl (path o) false) (world s)) as [[e1|u1] w1]; cbn.
  - apply presigned_urls_keeps.
  - destruct (perform _ (GenerateProxyUrl (path o) true) w1) as [[e2|u2] w2]; cbn.
    + apply presigned_urls_keeps.
    + eauto 6.
Qed.

Lemma build_info_name key o response s info s' :
  build_info key o response s = (inr info, s') ->
  fi_path info = path o /\
  fi_name info = match Js.last_segment (path o) with Some n => n | None => "/" end.
Proof.
  unfold S3FileOperations.build_info. m_unfold.
  repeat match goal with
         | |- context [(if ?b then _ else _) ?s] =>
             destruct b; cbn [world trace fst snd app]
         end;
    destruct_perform perform; try discriminate;
    match goal with
    | |- context [S3FileOperations.attach_urls _ _ ?k ?o ?r ?s] =>
        destruct (attach_urls_keeps k o r s) as (r' & s1 & Ha & Hn & Hp)
    end;
    rewrite Ha; intros [= <- <-]; cbn in Hn, Hp; auto.
Qed.

(** X7. An entry returned by getFileInfo carries the requested path, and its
    name is never empty: it is free of slashes, or it is the single slash,
    which is the name given when the path has no non-empty segment. *)
Theorem getFileInfo_names_last_segment (key : string) (o : Options) (w : World)
    (info : FileInfo) :
  fst (run (getFileInfo key o) w) = inr info ->
  fi_path info = path o /\
  Js.truthy_str (fi_name info) = true /\
  (fi_name info = "/" \/ Js.includes_char "/" (fi_name info) = false) /\
  (Js.last_segment (path o) = None -> fi_name info = "/").
Proof.
  intros H.
  assert (Hh : forall e s s',
             (if status_is e 405 || status_is e 403 then
                getResponse <- call perform (Send (GetObject bucket key (Some "bytes=0-0"))) ;;
                build_info key o getResponse
              else if status_is e 404 || String.eqb (exn_name e) "NotFound" then
                throw (HTTPException ApiStatus.NOT_FOUND "文件不存在")
              else throw e) s = (inr info, s') ->
             exists resp s0 s1, build_info key o resp s0 = (inr info, s1)).
  { intros e s s'. destruct (status_is e 405 || status_is e 403).
    - m_unfold.
      destruct (perform _ (Send (GetObject bucket key (Some "bytes=0-0"))) (world s))
        as [[e2|resp] w2]; cbn; [discriminate|]. eauto.
    - destruct (status_is e 404 || (exn_name e =? "NotFound")%string); cbn; discriminate. }
  assert (Hb : exists resp s s', build_info key o resp s = (inr info, s')).
  { revert H. unfold S3FileOperations.getFileInfo, handleFsError.
    unfold run. unfold try_catch at 1.
    match goal with
    | |- context [match ?m ?s with _ => _ end] => destruct (m s) as [[e0|a] s0] eqn:E
    end.
    - destruct (is_HTTPException e0); cbn; discriminate.
    - cbn. intros [= ->]. revert E. unfold try_catch, bind, call. cbn.
      destruct (perform _ (Send (HeadObject bucket key)) w) as [[e|resp] w1]; cbn.
      + apply Hh.
      + destruct (build_info key o resp _) as [[e3|i3] s3] eqn:E3; cbn.
        * apply Hh.
        * intros [= -> ->]. eauto. }
  destruct Hb as (resp & s & s' & Hb).
  apply build_info_name in Hb. destruct Hb as [Hp Hn].
  split; [exact Hp|]. rewrite Hn.
  destruct (Js.last_segment (path o)) as [n|] eqn:E.
  - apply last_segment_some in E. destruct E as [Ht Hs].
    repeat split; auto. discriminate.
  - repeat split; auto.
Qed.

(** X8. A HEAD that fails with another status than 405 and 403 ends
    getFileInfo without a GET: with HTTPException 404 when the status is 404
    or the error's name is NotFound, with the error itself when it is an
    HTTPException, and otherwise with HTTPException 500 carrying the error's
    message (the default message when it has none). *)
Theorem getFileInfo_head_failure (key : string) (o : Options) (w w1 : World) (e : Exn) :
  perform _ (Send (HeadObject bucket key)) w = (inl e, w1) ->
  status_is e 405 || status_is e 403 = false ->
  run (getFileInfo key o) w
  = (inl (if status_is e 404 || String.eqb (exn_name e) "NotFound"
          then HTTPException 404 "文件不存在"
          else if is_HTTPException e then e
               else HTTPException 500 (if Js.truthy_str (exn_message e) then exn_message e
                                       else "获取文件信息失败")),
     mkSt w1 [sent (HeadObject bucket key)]).
Proof.
  intros H1 Hs. unfold S3FileOperations.getFileInfo, handleFsError. m_eval.
  destruct (status_is e 404 || (exn_name e =? "NotFound")%string); cbn; [reflexivity|].
  destruct (is_HTTPException e); reflexivity.
Qed.

End StatEntryFacts.

(** X6 on the reference store: the entry of a five-byte text for an
    anonymous caller, without URLs. *)
Lemma getFileInfo_anonymous_has_no_urls_witness :
  let r := run (S3FileOperations.getFileInfo S3FileOperations.Sim.perform "bkt"
                  (Some S3FileOperations.Sim.proxy_driver) 0 "folder" "now" "docs/a.txt"
                  (S3FileOperations.Sim.anonymous_options "/docs/a.txt"))
             (S3FileOperations.Sim.store
                [("docs/a.txt", S3FileOperations.Sim.text_object "hello")] None false) in
  existsb S3FileOperations.is_url_call (trace (snd r)) = false /\
  exists info, fst r = inr info /\
               S3FileOperations.size info = 5 /\
               S3FileOperations.preview_url info = None /\
               S3FileOperations.download_url info = None.
Proof.
  intros r.
  destruct (getFileInfo_anonymous_has_no_urls S3FileOperations.Sim.perform "bkt"
              (Some S3FileOperations.Sim.proxy_driver) 0 "folder" "now" "docs/a.txt"
              (S3FileOperations.Sim.anonymous_options "/docs/a.txt")
              (S3FileOperations.Sim.store
                 [("docs/a.txt", S3FileOperations.Sim.text_object "hello")] None false)
              eq_refl) as [Hcalls Hurls].
  split; [exact Hcalls|].
  eexists. split; [reflexivity|]. split; [reflexivity|].
  apply Hurls. reflexivity.
Defined.

(** X7 on the reference store: a path ending in a slash is named after
    its last segment, a path made of slashes is named by the slash. *)
Lemma getFileInfo_names_last_segment_witness :
  let stat p k := fst (run (S3FileOperations.getFileInfo S3FileOperations.Sim.perform "bkt"
                              None 0 "folder" "now" k
                              (S3FileOperations.Sim.anonymous_options p))
                         (S3FileOperations.Sim.store
                            [("docs/a.txt", S3FileOperations.Sim.text_object "hello");
                             ("root", S3FileOperations.Sim.text_object "r")] None false)) in
  (exists info, stat "/docs/a.txt/" "docs/a.txt" = inr info /\
                S3FileOperations.fi_name info = "a.txt" /\
                Js.includes_char "/" (S3FileOperations.fi_name info) = false) /\
  (exists info, stat "//" "root" = inr info /\ S3FileOperations.fi_name info = "/").
Proof.
  intros stat. split.
  - eexists. split; [reflexivity|]. split; [reflexivity|].
    destruct (getFileInfo_names_last_segment S3FileOperations.Sim.perform "bkt"
                None 0 "folder" "now" "docs/a.txt"
                (S3FileOperations.Sim.anonymous_options "/docs/a.txt/")
                (S3FileOperations.Sim.store
                   [("docs/a.txt", S3FileOperations.Sim.text_object "hello");
                    ("root", S3FileOperations.Sim.text_object "r")] None false)
                _ eq_refl) as (_ & _ & [Hroot|Hslash] & _).
    + discriminate Hroot.
    + exact Hslash.
  - eexists. split; [reflexivity|].
    exact (proj2 (proj2 (proj2
             (getFileInfo_names_last_segment S3FileOperations.Sim.perform "bkt"
                None 0 "folder" "now" "root"
                (S3FileOperations.Sim.anonymous_options "//")
                (S3FileOperations.Sim.store
                   [("docs/a.txt", S3FileOperations.Sim.text_object "hello");
                    ("root", S3FileOperations.Sim.text_object "r")] None false)
                _ eq_refl))) eq_refl).
Defined.

(** X8 on the reference store: a missing key is a 404; on a store that
    answers every HEAD with 500, stat fails with 500 and the message of the
    store. *)
Lemma getFileInfo_head_failure_witness :
  let stat rej :=
    fst (run (S3FileOperations.getFileInfo S3FileOperations.Sim.perform "bkt"
                None 0 "folder" "now" "docs/missing.txt"
                (S3FileOperations.Sim.options (Js.JBool false) "/docs/missing.txt"))
           (S3FileOperations.Sim.store [] rej false)) in
  stat None = inl (HTTPException 404 "文件不存在") /\
  stat (Some 500) = inl (HTTPException 500 "HEAD rejected").
Proof.
  intros stat. unfold stat. split.
  - rewrite (getFileInfo_head_failure S3FileOperations.Sim.perform "bkt" None 0 "folder" "now"
               "docs/missing.txt"
               (S3FileOperations.Sim.options (Js.JBool false) "/docs/missing.txt")
               (S3FileOperations.Sim.store [] None false) _ _ eq_refl eq_refl).
    reflexivity.
  - rewrite (getFileInfo_head_failure S3FileOperations.Sim.perform "bkt" None 0 "folder" "now"
               "docs/missing.txt"
               (S3FileOperations.Sim.options (Js.JBool false) "/docs/missing.txt")
               (S3FileOperations.Sim.store [] (Some 500) false) _ _ eq_refl eq_refl).
    reflexivity.
Defined.

(** ** download: ranges and failures *)

Section DownloadFacts.
Import S3Download.
Context {World : Type}.
Variable perform : forall R, Call R -> World -> (Exn + R) * World.
Variable bucket : string.
Variable mime : string -> string.
Variable encodeURIComponent : string -> string.

Local Abbreviation getFileFromS3 := (getFileFromS3 perform mime encodeURIComponent).
Local Abbreviation downloadFile := (downloadFile perform bucket mime encodeURIComponent).

(** X9. getFileFromS3 hands the Range header of the request, when there is
    one that is not empty, to the GetObject command. Once the client is made
    and the object read, the response carries the body of the object; it is
    206 with Content-Range and Accept-Ranges: bytes exactly when the answer
    of the store has a Content-Range, and 200 without these headers
    otherwise. *)
Theorem getFileFromS3_partial_content (key fileName : string) (forceDownload : bool)
    (request : option Request) (resp : GetOutput) (w w1 w2 : World) :
  perform _ CreateS3Client w = (inr tt, w1) ->
  perform _ (SendGetObject bucket key (requested_range request)) w1 = (inr resp, w2) ->
  exists rsp,
    run (getFileFromS3 bucket key fileName forceDownload request) w
    = (inr rsp, mkSt w2 [Ev CreateS3Client;
                         Ev (SendGetObject bucket key (requested_range request))]) /\
    fr_body rsp = Body resp /\
    fr_status rsp = (if Js.truthy_opt (ContentRange resp) then 206 else 200) /\
    header "Content-Range" rsp
    = (if Js.truthy_opt (ContentRange resp) then ContentRange resp else None) /\
    header "Accept-Ranges" rsp
    = (if Js.truthy_opt (ContentRange resp) then Some "bytes" else None).
Proof.
  intros H1 H2. unfold S3Download.getFileFromS3. m_eval.
  eexists. split; [reflexivity|]. split; [reflexivity|]. split; [reflexivity|].
  unfold header. cbn [fr_headers].
  destruct forceDownload;
    [|destruct (Js.startsWith _ "image/" || Js.startsWith _ "video/" || String.eqb _ _)];
    (destruct (ContentRange resp) as [cr|]; cbn [Js.truthy_opt Js.str_or];
     [destruct (Js.truthy_str cr) eqn:Hcr|]);
    destruct (Js.truthy_opt (ETag resp)); destruct (LastModified resp); split; reflexivity.
Qed.

(** X10. Every error of downloadFile is an HTTPException with status 404
    (the file does not exist), 403 (no permission) or 500 (the message of the
    cause, prefixed). *)
Theorem downloadFile_failures (key fileName : string) (request : option Request)
    (w : World) (e : Exn) :
  fst (run (downloadFile key fileName request) w) = inl e ->
  e = HTTPException 404 "文件不存在" \/
  e = HTTPException 403 "没有权限访问该文件" \/
  exists m, e = HTTPException 500 ("获取文件失败: " +:+ m).
Proof.
  unfold S3Download.downloadFile, handleFsError, S3Download.getFileFromS3. m_unfold.
  destruct_perform perform;
    repeat (match goal with
            | |- context [if ?b then _ else _] => destruct b eqn:?
            end; cbn [world trace fst snd app negb is_HTTPException]);
    cbn; intros [= <-]; eauto.
Qed.

End DownloadFacts.

(** X9 on the reference bucket: with a Range the answer is 206 and names
    the range, without one it is 200. *)
Lemma getFileFromS3_partial_content_witness :
  let get request :=
    fst (run (S3Download.getFileFromS3 S3Download.Sim.perform S3FileOperations.Sim.mime
                S3Download.Sim.encode "bkt" "docs/a.txt" "a.txt" false request)
           S3Download.Sim.bucket) in
  (exists rsp, get (Some {| S3Download.range := Some "bytes=0-4" |}) = inr rsp /\
               S3Download.fr_status rsp = 206 /\
               S3Download.header "Content-Range" rsp = Some "bytes 0-4/5" /\
               S3Download.header "Accept-Ranges" rsp = Some "bytes") /\
  (exists rsp, get None = inr rsp /\
               S3Download.fr_status rsp = 200 /\
               S3Download.header "Content-Range" rsp = None).
Proof.
  intros get. split.
  - destruct (getFileFromS3_partial_content S3Download.Sim.perform "bkt"
                S3FileOperations.Sim.mime S3Download.Sim.encode "docs/a.txt" "a.txt" false
                (Some {| S3Download.range := Some "bytes=0-4" |}) _
                S3Download.Sim.bucket _ _ eq_refl eq_refl)
      as (rsp & Hrun & _ & Hst & Hcr & Har).
    exists rsp. unfold get. rewrite Hrun. repeat split; assumption.
  - destruct (getFileFromS3_partial_content S3Download.Sim.perform "bkt"
                S3FileOperations.Sim.mime S3Download.Sim.encode "docs/a.txt" "a.txt" false
                None _ S3Download.Sim.bucket _ _ eq_refl eq_refl)
      as (rsp & Hrun & _ & Hst & Hcr & _).
    exists rsp. unfold get. rewrite Hrun. repeat split; assumption.
Defined.

(** X10 on the reference bucket: a key that is not there is a 404. *)
Lemma downloadFile_failures_witness :
  fst (run (S3Download.downloadFile S3Download.Sim.perform "bkt" S3FileOperations.Sim.mime
              S3Download.Sim.encode "docs/missing.txt" "missing.txt" None)
         S3Download.Sim.bucket)
  = inl (HTTPException 404 "文件不存在").
Proof.
  destruct (downloadFile_failures S3Download.Sim.perform "bkt" S3FileOperations.Sim.mime
              S3Download.Sim.encode "docs/missing.txt" "missing.txt" None
              S3Download.Sim.bucket _ eq_refl) as [H | [H | [m H]]];
    reflexivity.
Defined.

(** ** Authentication: what is granted, and to whom *)

Section AuthFacts.
Import AuthService.
Context {World : Type}.
Variable perform : forall R, Call R -> World -> (Exn + R) * World.
Variable pathPermission : string -> string -> bool.

Local Abbreviation authenticate := (authenticate perform).
Local Abbreviation requirePermission := (requirePermission perform pathPermission).
Local Abbreviation requireAdmin := (requireAdmin perform).

Lemma authenticate_returns (header : option string) : never_throws (authenticate header).
Proof.
  unfold AuthService.authenticate.
  destruct (parseAuthHeader header) as [[type|] [token|]]; auto with returns.
  unfold validateAdminAuth, validateApiKeyAuth, validateBasicAuth.
  repeat first [ apply never_throws_if | apply never_throws_try_catch; intros ?
               | apply never_throws_ret ].
Qed.

Lemma prefix_app (p s : string) : String.prefix p (p +:+ s) = true.
Proof.
  induction p as [|c p IH]; rewrite ?append_nil, ?append_cons; cbn.
  - now destruct s.
  - destruct (ascii_dec c c) as [_|n]; [exact IH | now destruct n].
Qed.

Lemma substring_from_prefix (p s : string) :
  Js.substring_from (String.length p) (p +:+ s) = s.
Proof.
  unfold Js.substring_from. rewrite length_app.
  replace (String.length p + String.length s - String.length p)%nat
    with (String.length s) by lia.
  induction p as [|c p IH]; rewrite ?append_nil, ?append_cons; cbn.
  - apply substring_all.
  - exact IH.
Qed.

(** parseAuthHeader recognises the three schemes and returns the token
    that follows the scheme, unchanged. *)
Lemma parseAuthHeader_keeps_token (token : string) :
  parseAuthHeader (Some ("Bearer " +:+ token)) = (Some "bearer", Some token) /\
  parseAuthHeader (Some ("ApiKey " +:+ token)) = (Some "apikey", Some token) /\
  parseAuthHeader (Some ("Basic " +:+ token)) = (Some "basic", Some token).
Proof.
  unfold parseAuthHeader, Js.startsWith.
  repeat split.
  - rewrite prefix_app. change 7%nat with (String.length "Bearer ").
    now rewrite substring_from_prefix.
  - rewrite prefix_app. change 7%nat with (String.length "ApiKey ").
    now rewrite substring_from_prefix.
  - rewrite prefix_app. change 6%nat with (String.length "Basic ").
    now rewrite substring_from_prefix.
Qed.


(** X11. authenticate with no Authorization header, with a header of another
    scheme than Bearer, ApiKey and Basic, or with a scheme followed by no
    token: the result is the unauthenticated one and no collaborator is
    called. *)
Theorem authenticate_without_credentials (header : option string) (w : World) :
  match header with
  | None => True
  | Some h =>
      (Js.startsWith h "Bearer " = false /\ Js.startsWith h "ApiKey " = false /\
       Js.startsWith h "Basic " = false) \/
      h = "Bearer " \/ h = "ApiKey " \/ h = "Basic "
  end ->
  run (authenticate header) w = (inr unauthenticated, mkSt w []).
Proof.
  unfold AuthService.authenticate, parseAuthHeader.
  destruct header as [h|]; [|reflexivity].
  intros [(H1 & H2 & H3) | [-> | [-> | ->]]]; try reflexivity.
  rewrite H1, H2, H3. destruct (negb (Js.truthy_str h)); reflexivity.
Qed.

Ltac auth_cases :=
  repeat (match goal with
          | |- context [perform ?R ?c ?w] =>
              let E := fresh "E" in destruct (perform R c w) as [[?|?] ?] eqn:E
          | |- context [if ?b then _ else _] => destruct b eqn:?
          | |- context [match ?x with Some _ => _ | None => _ end] => destruct x eqn:?
          end;
          cbn [world trace fst snd app negb]).

(** X12. authenticate returns an administrator's result in two ways only:
    for a Bearer token, validateAdminToken being its one call and having
    answered with an administrator id; or for Basic credentials, the look-up
    of the administrator and verifyPassword being its only calls and
    verifyPassword having answered true. A result obtained through the
    API-key table is never an administrator's. *)
Theorem administrator_only_by_token_or_password (header : option string) (w : World)
    (a : AuthResult) :
  fst (run (authenticate header) w) = inr a ->
  isAdmin a = true ->
  let tr := trace (snd (run (authenticate header) w)) in
  (exists token i w0 w1,
      tr = [Ev (ValidateAdminToken token)] /\
      perform _ (ValidateAdminToken token) w0 = (inr (Some i), w1) /\
      a = bearer_admin_result i) \/
  (exists username password adm w0 w1,
      tr = [Ev (FindAdminByUsername username);
            Ev (VerifyPassword password (admin_password adm))] /\
      perform _ (VerifyPassword password (admin_password adm)) w0 = (inr true, w1) /\
      a = basic_admin_result adm).
Proof.
  cbv zeta. unfold AuthService.authenticate.
  destruct (parseAuthHeader header) as [[type|] [token|]]; try (cbn; intros [= <-]; discriminate).
  destruct (negb (Js.truthy_str token)); [cbn; intros [= <-]; discriminate|].
  destruct (type =? "bearer")%string; [|destruct (type =? "apikey")%string;
                                         [|destruct (type =? "basic")%string]].
  - unfold validateAdminAuth. m_unfold. auth_cases; cbn; intros [= <-]; try discriminate.
    intros _. left. eauto 10.
  - unfold validateApiKeyAuth, findByKey. m_unfold.
    auth_cases; m_unfold; auth_cases; cbn; intros [= <-]; discriminate.
  - unfold validateBasicAuth, basic_admin, basic_api_key, findByKey. m_unfold.
    auth_cases; m_unfold; auth_cases; m_unfold; auth_cases; cbn; intros [= <-];
      try discriminate.
    all: intros _; right; eauto 12.
  - cbn; intros [= <-]; discriminate.
Qed.


(** X13. validateApiKeyAuth on a key that is found: when
    checkAndDeleteExpiredApiKey reports it expired the result is the
    unauthenticated one and the last-used stamp is not written; otherwise the
    stamp is written, and the result is the key's when that write succeeds
    and the unauthenticated one when it throws. *)
Theorem validateApiKeyAuth_expiry (apiKey : string) (keyRecord : ApiKeyRecord)
    (w w1 : World) :
  Js.truthy_str apiKey = true ->
  perform _ (FindOneApiKey apiKey) w = (inr (Some keyRecord), w1) ->
  let r := run (validateApiKeyAuth perform apiKey) w in
  let checked := [Ev (FindOneApiKey apiKey); Ev (CheckAndDeleteExpiredApiKey keyRecord)] in
  (forall w2,
      perform _ (CheckAndDeleteExpiredApiKey keyRecord) w1 = (inr true, w2) ->
      r = (inr unauthenticated, mkSt w2 checked)) /\
  (forall w2 stamped w3,
      perform _ (CheckAndDeleteExpiredApiKey keyRecord) w1 = (inr false, w2) ->
      perform _ (UpdateLastUsed (key_id keyRecord)) w2 = (stamped, w3) ->
      r = (inr (match stamped with
                | inr _ => api_key_result keyRecord apiKey
                | inl _ => unauthenticated
                end),
           mkSt w3 (checked ++ [Ev (UpdateLastUsed (key_id keyRecord))]))).
Proof.
  intros Ht H1. cbv zeta. unfold validateApiKeyAuth, findByKey. rewrite Ht. cbn [negb].
  split.
  - intros w2 H2. m_eval. reflexivity.
  - intros w2 stamped w3 H2 H3. m_eval. destruct stamped as [e|[]]; reflexivity.
Qed.

Lemma substring_0_0 (s : string) : String.substring 0 0 s = EmptyString.
Proof. now destruct s. Qed.

Lemma substring_from_length (s : string) :
  Js.substring_from (String.length s) s = EmptyString.
Proof.
  unfold Js.substring_from. rewrite Nat.sub_diag.
  induction s as [|c s IH]; cbn; [reflexivity | exact IH].
Qed.

(** X14. validateBasicAuth on a token that is not base64, or whose decoded
    text has no colon, an empty user name (the colon comes first) or an empty
    password (the colon comes last): the result is the unauthenticated one
    and no collaborator is called. *)
Theorem validateBasicAuth_malformed (basicToken : string) (w : World) :
  match Js.atob basicToken with
  | None => True
  | Some decoded =>
      match Js.indexOf_char ":" decoded with
      | None => True
      | Some separatorIndex =>
          separatorIndex = 0%nat \/ S separatorIndex = String.length decoded
      end
  end ->
  run (validateBasicAuth perform basicToken) w = (inr unauthenticated, mkSt w []).
Proof.
  unfold validateBasicAuth.
  destruct (Js.atob basicToken) as [decoded|]; [|reflexivity].
  destruct (Js.indexOf_char ":" decoded) as [i|]; [|reflexivity].
  intros [-> | ->].
  - rewrite substring_0_0. reflexivity.
  - rewrite substring_from_length.
    destruct (negb (Js.truthy_str (String.substring 0 i decoded))); reflexivity.
Qed.

(** X15. requirePermission authenticates, which never throws, and decides in
    this order: 401 for an unauthenticated result; 403 naming the permission
    when it is lacking; 403 when a request path was given and does not pass
    the path check; otherwise the authentication result is returned as it
    is. *)
Theorem requirePermission_outcomes (header : option string) (p : PermissionType)
    (path : option string) (w : World) :
  exists a s,
    run (authenticate header) w = (inr a, s) /\
    run (requirePermission header p path) w
    = (if negb (isAuthenticated a)
       then inl (HTTPException 401 "需要认证访问")
       else if negb (hasPermission a p)
       then inl (HTTPException 403 ("需要" +:+ permission_name p +:+ "权限"))
       else if Js.truthy_opt path
               && negb (checkPathPermission pathPermission a (Js.str_or path EmptyString))
       then inl (HTTPException 403 "路径权限不足")
       else inr a, s).
Proof.
  destruct (authenticate_returns header (mkSt w [])) as (a & s & Ha).
  exists a, s. split; [exact Ha|].
  unfold AuthService.requirePermission, run, bind. fold authenticate. rewrite Ha.
  unfold checkPermission.
  destruct (isAuthenticated a); cbn; [|reflexivity].
  destruct (hasPermission a p); cbn; [|reflexivity].
  destruct (Js.truthy_opt path && _); reflexivity.
Qed.

(** X16. requireAdmin returns only results that are authenticated
    administrators; every refusal is the same 403, also when no credentials
    were sent at all, where requirePermission answers 401. *)
Theorem requireAdmin_outcomes (header : option string) (w : World) :
  match fst (run (requireAdmin header) w) with
  | inr a => fst (run (authenticate header) w) = inr a /\
             isAuthenticated a = true /\ isAdmin a = true
  | inl e => e = HTTPException 403 "需要管理员权限"
  end /\
  (forall p path,
      run (requireAdmin None) w
      = (inl (HTTPException 403 "需要管理员权限"), mkSt w []) /\
      run (requirePermission None p path) w
      = (inl (HTTPException 401 "需要认证访问"), mkSt w [])).
Proof.
  split; [|intros; split; reflexivity].
  destruct (authenticate_returns header (mkSt w [])) as (a & s & Ha).
  unfold AuthService.requireAdmin, run, bind. fold authenticate. rewrite Ha.
  destruct (isAuthenticated a) eqn:E1, (isAdmin a) eqn:E2; cbn; auto.
Qed.

End AuthFacts.

(** X11 on the reference store: a Digest header, a Bearer header without
    token and no header at all. *)
Lemma authenticate_without_credentials_witness :
  let go header := run (AuthService.authenticate AuthService.Sim.perform header)
                     AuthService.Sim.db in
  go (Some "Digest cm9vdDpzM2NyZXQ=") = (inr AuthService.unauthenticated, mkSt AuthService.Sim.db []) /\
  go (Some "Bearer ") = (inr AuthService.unauthenticated, mkSt AuthService.Sim.db []) /\
  go None = (inr AuthService.unauthenticated, mkSt AuthService.Sim.db []).
Proof.
  intros go. split; [|split].
  - exact (authenticate_without_credentials AuthService.Sim.perform
             (Some "Digest cm9vdDpzM2NyZXQ=") AuthService.Sim.db
             (or_introl (conj eq_refl (conj eq_refl eq_refl)))).
  - exact (authenticate_without_credentials AuthService.Sim.perform
             (Some "Bearer ") AuthService.Sim.db (or_intror (or_introl eq_refl))).
  - exact (authenticate_without_credentials AuthService.Sim.perform None
             AuthService.Sim.db I).
Defined.

(** X12 on the reference store: the Bearer token of the administrator. *)
Lemma administrator_only_by_token_or_password_witness :
  let r := run (AuthService.authenticate AuthService.Sim.perform (Some "Bearer token-1"))
             AuthService.Sim.db in
  fst r = inr (AuthService.bearer_admin_result "admin-1") /\
  (trace (snd r) = [Ev (AuthService.ValidateAdminToken "token-1")] \/
   exists username password adm,
     trace (snd r) = [Ev (AuthService.FindAdminByUsername username);
                      Ev (AuthService.VerifyPassword password
                            (AuthService.admin_password adm))]).
Proof.
  intros r. split; [reflexivity|].
  destruct (administrator_only_by_token_or_password AuthService.Sim.perform
              (Some "Bearer token-1") AuthService.Sim.db
              (AuthService.bearer_admin_result "admin-1") eq_refl eq_refl)
    as [(token & i & w0 & w1 & Htr & _) | (u & p & adm & w0 & w1 & Htr & _)].
  - left. reflexivity.
  - right. exists u, p, adm. exact Htr.
Defined.

(** X13 on the reference store: key1 once past its expiry, once in use. *)
Lemma validateApiKeyAuth_expiry_witness :
  let go w := run (AuthService.validateApiKeyAuth AuthService.Sim.perform "key1") w in
  fst (go AuthService.Sim.db_expired) = inr AuthService.unauthenticated /\
  existsb AuthService.is_last_used (trace (snd (go AuthService.Sim.db_expired))) = false /\
  fst (go AuthService.Sim.db)
  = inr (AuthService.api_key_result
           (AuthService.Sim.a_key "key1" (Js.JNum 1) (Some "/team-a/")) "key1") /\
  existsb AuthService.is_last_used (trace (snd (go AuthService.Sim.db))) = true.
Proof.
  intros go. unfold go.
  rewrite (proj1 (validateApiKeyAuth_expiry AuthService.Sim.perform "key1"
                    (AuthService.Sim.a_key "key1" (Js.JNum 1) (Some "/team-a/"))
                    AuthService.Sim.db_expired _ eq_refl eq_refl) _ eq_refl).
  rewrite (proj2 (validateApiKeyAuth_expiry AuthService.Sim.perform "key1"
                    (AuthService.Sim.a_key "key1" (Js.JNum 1) (Some "/team-a/"))
                    AuthService.Sim.db _ eq_refl eq_refl) _ _ _ eq_refl eq_refl).
  repeat split.
Defined.

(** X14 on the reference store: a token without colon, one with an empty
    password, one that is not base64. *)
Lemma validateBasicAuth_malformed_witness :
  let go token := run (AuthService.validateBasicAuth AuthService.Sim.perform token)
                    AuthService.Sim.db in
  Js.atob "cm9vdA==" = Some "root" /\
  go "cm9vdA==" = (inr AuthService.unauthenticated, mkSt AuthService.Sim.db []) /\
  Js.atob "cm9vdDo=" = Some "root:" /\
  go "cm9vdDo=" = (inr AuthService.unauthenticated, mkSt AuthService.Sim.db []) /\
  Js.atob "a" = None /\
  go "a" = (inr AuthService.unauthenticated, mkSt AuthService.Sim.db []).
Proof.
  intros go.
  split; [reflexivity|]. split; [|split; [reflexivity|split; [|split; [reflexivity|]]]].
  - exact (validateBasicAuth_malformed AuthService.Sim.perform "cm9vdA==" AuthService.Sim.db I).
  - exact (validateBasicAuth_malformed AuthService.Sim.perform "cm9vdDo=" AuthService.Sim.db
             (or_intror eq_refl)).
  - exact (validateBasicAuth_malformed AuthService.Sim.perform "a" AuthService.Sim.db I).
Defined.

(** ** PUT: refusals, failures and the number of uploads *)

Section PutEdgeFacts.
Import WebdavPut.
Context {World : Type}.
Variable perform : forall R, Call R -> World -> (Exn + R) * World.
Variable mime : string -> string.
Variable handleWebDAVError : string -> Exn -> Response.
Variable normalizeFilePath : string -> string -> string -> string.

Local Abbreviation handlePut := (handlePut perform mime handleWebDAVError normalizeFilePath).

(** A lock conflict is answered with the status and message of the
    conflict, and the lock check is the only call. *)
Lemma handlePut_lock_conflict (req : PutRequest) (path userId userType : string)
    (conflict : LockConflict) (w w1 : World) :
  perform _ (CheckLockPermission path (If req) "PUT") w = (inr (Some conflict), w1) ->
  run (handlePut req path userId userType) w
  = (inr (text_response (lc_message conflict) (lc_status conflict)),
     mkSt w1 [Ev (CheckLockPermission path (If req) "PUT")]).
Proof.
  intros H. unfold WebdavPut.handlePut. m_eval. reflexivity.
Qed.

Ltac put_cases :=
  repeat (match goal with
          | |- context [perform ?R ?c ?w] =>
              let E := fresh "E" in destruct (perform R c w) as [[?|?] ?] eqn:E
          | |- context [if ?b then _ else _] => destruct b eqn:?
          | |- context [match ?x with Some _ => _ | None => _ end] => destruct x eqn:?
          end;
          cbn [world trace fst snd app negb]).

(** X17. handlePut always answers with a response (it never throws), and in
    one request it asks for at most one upload, direct or streaming,
    whatever the collaborators answer. *)
Theorem handlePut_uploads_at_most_once (req : PutRequest) (path userId userType : string)
    (w : World) :
  let r := run (handlePut req path userId userType) w in
  (exists rsp, fst r = inr rsp) /\
  (List.length (List.filter is_upload (trace (snd r))) <= 1)%nat.
Proof.
  cbv zeta. unfold WebdavPut.handlePut, upload_mode, clear_mount_cache,
    trueStreamingUpload, read_all.
  destruct (declared_length req) as [d emptyBodyCheck].
  m_unfold.
  put_cases; m_unfold; put_cases; m_unfold; put_cases;
    (split; [eexists; reflexivity | cbn; lia]).
Qed.




(** X18. A PUT with neither a Content-Length header nor chunked transfer
    encoding, on an unlocked path, is taken to be empty: the one upload the
    handler asks for is a direct upload of a zero-byte file, whatever body
    the request carries and whatever the upload mode is; when that upload
    and the cache clean-up succeed the answer is 201 and the store is as
    they left it, the body of the request being dropped. *)
Theorem handlePut_without_length_stores_empty_file (req : PutRequest)
    (path userId userType : string) (w w1 : World) :
  ContentLength req = None ->
  isChunked (TransferEncoding req) = false ->
  perform _ (CheckLockPermission path (If req) "PUT") w = (inr None, w1) ->
  let r := run (handlePut req path userId userType) w in
  let filename := Js.split_pop "/" path in
  let emptyFile := {| file_data := []; file_name := filename; file_type := mime filename |} in
  let lock := CheckLockPermission path (If req) "PUT" in
  let setting := GetSettingMetadata "webdav_upload_mode" in
  let upload := UploadFile path emptyFile userId userType {| useMultipart := false |} in
  let resolve := GetDriverByPath path userId userType in
  filter is_upload (trace (snd r)) = [direct_upload path emptyFile userId userType] /\
  (forall w2 w3 info w4 w5,
      snd (perform _ setting w1) = w2 ->
      perform _ upload w2 = (inr tt, w3) ->
      perform _ resolve w3 = (inr info, w4) ->
      match mount info with
      | Some m => perform _ (ClearDirectoryCache (id m)) w4 = (inr tt, w5)
      | None => w5 = w4
      end ->
      r = (inr created_response,
           mkSt w5 ([Ev lock; Ev setting; Ev upload; Ev resolve]
                    ++ match mount info with
                       | Some m => [Ev (ClearDirectoryCache (id m))]
                       | None => []
                       end))).
Proof.
  intros Hcl Hch Hl. cbv zeta.
  destruct (handlePut_empty_file perform mime handleWebDAVError normalizeFilePath
              req path userId userType w) as (_ & _ & H).
  { unfold declared_length. rewrite Hcl, Hch. reflexivity. }
  destruct (H w1 Hl) as (Hu & _ & Hok). split; [exact Hu | exact Hok].
Qed.

(** A PUT that declares a body but carries none is answered 400 after the
    look-up of the upload mode, in either mode, without an upload. *)
Lemma handlePut_missing_body (req : PutRequest) (path userId userType : string)
    (w w1 : World) :
  perform _ (CheckLockPermission path (If req) "PUT") w = (inr None, w1) ->
  snd (declared_length req) = false ->
  body req = None ->
  run (handlePut req path userId userType) w
  = (inr (text_response "请求体不可用" 400),
     mkSt (snd (perform _ (GetSettingMetadata "webdav_upload_mode") w1))
          [Ev (CheckLockPermission path (If req) "PUT");
           Ev (GetSettingMetadata "webdav_upload_mode")]).
Proof.
  intros Hl Hd Hb. unfold WebdavPut.handlePut.
  destruct (declared_length req) as [d emptyBodyCheck]. cbn in Hd. subst emptyBodyCheck.
  rewrite Hb.
  unfold run, try_catch, bind. unfold call at 1. cbn [world trace app].
  rewrite Hl. cbn [fst snd trace world]. rewrite upload_mode_run.
  cbn [fst snd app world trace].
  destruct (mode_of _ =? "direct")%string; reflexivity.
Qed.

(** Direct mode: a body stream that breaks is answered through
    handleWebDAVError without an upload; an upload that fails is answered the
    same way and the directory cache is not cleared. *)
Lemma handlePut_direct_failures (req : PutRequest) (path userId userType : string)
    (stream : Stream) (w w1 : World) :
  perform _ (CheckLockPermission path (If req) "PUT") w = (inr None, w1) ->
  snd (declared_length req) = false ->
  body req = Some stream ->
  let answer := perform _ (GetSettingMetadata "webdav_upload_mode") w1 in
  mode_of (fst answer) = "direct" ->
  let r := run (handlePut req path userId userType) w in
  let filename := Js.split_pop "/" path in
  let file := {| file_data := List.concat (chunks stream); file_name := filename;
                 file_type := mime filename |} in
  let upload := UploadFile path file userId userType {| useMultipart := false |} in
  (forall e,
      failure stream = Some e ->
      r = (inr (handleWebDAVError "PUT" e),
           mkSt (snd answer) [Ev (CheckLockPermission path (If req) "PUT");
                              Ev (GetSettingMetadata "webdav_upload_mode")])) /\
  (forall e w3,
      failure stream = None ->
      perform _ upload (snd answer) = (inl e, w3) ->
      r = (inr (handleWebDAVError "PUT" e),
           mkSt w3 [Ev (CheckLockPermission path (If req) "PUT");
                    Ev (GetSettingMetadata "webdav_upload_mode");
                    Ev upload])).
Proof.
  intros Hl Hd Hb answer Hm. cbv zeta.
  assert (Hstart : forall k : string -> M Call World Response,
             (webdavUploadMode <- upload_mode perform ;; k webdavUploadMode)
               (mkSt w1 [Ev (CheckLockPermission path (If req) "PUT")])
             = k "direct" (mkSt (snd answer)
                             [Ev (CheckLockPermission path (If req) "PUT");
                              Ev (GetSettingMetadata "webdav_upload_mode")])).
  { intros k. unfold bind. rewrite upload_mode_run. fold answer. rewrite Hm.
    reflexivity. }
  unfold WebdavPut.handlePut.
  destruct (declared_length req) as [d emptyBodyCheck]. cbn in Hd. subst emptyBodyCheck.
  rewrite Hb.
  split.
  - intros e Hf. unfold run. unfold try_catch at 1. unfold bind at 1. unfold call at 1.
    cbn [world trace app]. rewrite Hl. cbn [fst snd]. rewrite Hstart.
    change (String.eqb "direct" "direct") with true. cbv iota.
    unfold read_all. rewrite Hf. reflexivity.
  - intros e w3 Hf Hu. unfold run. unfold try_catch at 1. unfold bind at 1. unfold call at 1.
    cbn [world trace app]. rewrite Hl. cbn [fst snd]. rewrite Hstart.
    change (String.eqb "direct" "direct") with true. cbv iota.
    unfold read_all. rewrite Hf. m_unfold. rewrite Hu. reflexivity.
Qed.

End PutEdgeFacts.

(** X18 on the reference server: five bytes sent without a length are
    stored as an empty file, in multipart mode too. *)
Lemma handlePut_without_length_stores_empty_file_witness :
  let r := run (WebdavPut.handlePut WebdavPut.Sim.perform WebdavPut.Sim.mime
                  WebdavPut.Sim.on_error WebdavPut.Sim.key_of WebdavPut.Sim.bare_put
                  "/docs/a.txt" "1" "admin") (WebdavPut.Sim.server (Some "multipart")) in
  WebdavPut.body WebdavPut.Sim.bare_put
  = Some {| WebdavPut.chunks := [WebdavPut.Sim.hello]; WebdavPut.failure := None |} /\
  fst r = inr created_response /\
  WebdavPut.Sim.stored (world (snd r)) = [("/docs/a.txt", [])] /\
  WebdavPut.Sim.streamed (world (snd r)) = [].
Proof.
  intros r. split; [reflexivity|].
  destruct (handlePut_without_length_stores_empty_file WebdavPut.Sim.perform
              WebdavPut.Sim.mime WebdavPut.Sim.on_error WebdavPut.Sim.key_of
              WebdavPut.Sim.bare_put "/docs/a.txt" "1" "admin"
              (WebdavPut.Sim.server (Some "multipart")) _ eq_refl eq_refl eq_refl)
    as [_ H].
  pose proof (H _ _ _ _ _ eq_refl eq_refl eq_refl eq_refl) as Hr.
  fold r in Hr. rewrite Hr. repeat split.
Defined.

(** ** MKCOL: refusals and what is written *)

Section MkcolEdgeFacts.
Import WebdavMkcol.
Context {World : Type}.
Variable perform : forall R, Call R -> World -> (Exn + R) * World.
Variable normalizeS3SubPath : string -> S3Config -> bool -> string.

Local Abbreviation handleMkcol := (handleMkcol perform normalizeS3SubPath).

Ltac mkcol_cases :=
  repeat (match goal with
          | |- context [perform ?R ?c ?w] =>
              let E := fresh "E" in destruct (perform R c w) as [[?|?] ?] eqn:E
          | |- context [if ?b then _ else _] => destruct b eqn:?
          | |- context [match ?x with Some _ => _ | None => _ end] => destruct x eqn:?
          | |- context [match ?x with MountError _ _ => _ | MountFound _ _ => _ end] =>
              destruct x eqn:?
          end;
          cbn [world trace fst snd app negb]).

(** X19. handleMkcol always answers with a response, sends at most one
    PutObject, and a PutObject it sends is an empty object (ContentLength 0,
    empty body) under a key that is not empty. *)
Theorem handleMkcol_writes_one_marker_at_most (path userId userType : string) (w : World) :
  let r := run (handleMkcol path userId userType) w in
  (exists rsp, fst r = inr rsp) /\
  forallb puts_marker_only (trace (snd r)) = true /\
  (List.length (List.filter is_put (trace (snd r))) <= 1)%nat.
Proof.
  cbv zeta. unfold WebdavMkcol.handleMkcol. m_unfold.
  mkcol_cases; m_unfold; mkcol_cases; m_unfold; mkcol_cases.
  all: split; [eexists; reflexivity|].
  all: split; [cbn; rewrite ?andb_true_r; unfold valid_key;
               try match goal with |- context [if ?b then _ else _] => destruct b eqn:? end;
               auto|].
  all: cbn; lia.
Qed.

End MkcolEdgeFacts.

(** ** /api/fs: requests without their parameters, search, and the commit
    of a presigned upload *)

Section FsEdgeFacts.
Import FsRoutes.
Context {World : Type}.
Variable perform : forall R, Call R -> World -> (Exn + R) * World.
Variable checkPathPermissionForOperation : string -> string -> bool.
Variable mime : string -> string.
Variable buildS3Url : S3Config -> string -> string.

Local Abbreviation handle :=
  (handle perform checkPathPermissionForOperation mime buildS3Url).

(** X20. A request to the /api/fs routes mkdir, upload, remove, rename,
    batch-remove, batch-copy, update and presign that lacks a parameter its
    handler requires is answered 400 with success false, for every user, and
    no service is called. *)
Theorem handle_missing_parameters (userInfo : UserInfo) (req : FsRequest) (w : World) :
  has_required_parameters req = false ->
  exists rsp, run (handle userInfo req) w = (inr rsp, mkSt w []) /\
              http_status rsp = 400 /\ success rsp = false.
Proof.
  destruct req as [p | f p m | p | o n | ps | items sk | p c | p f]; cbn; intros H;
    unfold mkdir, upload, remove, rename, batch_remove, batch_copy, update, presign;
    repeat match goal with
           | x : option _ |- _ => destruct x
           end;
    try match goal with
        | x : list _ |- _ => destruct x
        end;
    cbn in *; try discriminate;
    repeat match goal with
           | H : context [Js.truthy_str ?s] |- _ => destruct (Js.truthy_str s)
           | |- context [Js.truthy_str ?s] => destruct (Js.truthy_str s)
           end;
    cbn in *; try discriminate; eauto.
Qed.

(** X21. extractSearchParams: the limit is at most 200 and never 0, the
    offset is at least 0 and the scope is never empty; the limit is 50 and
    the offset 0 when they are left out. *)
Theorem extractSearchParams_bounds (queryParams : SearchQuery) :
  let p := extractSearchParams queryParams in
  limit p <= 200 /\ limit p <> 0 /\ 0 <= offset p /\
  Js.truthy_str (scope p) = true /\
  (sq_limit queryParams = None -> limit p = 50) /\
  (sq_offset queryParams = None -> offset p = 0).
Proof.
  cbv zeta. unfold extractSearchParams. cbn [limit offset scope].
  repeat split.
  - lia.
  - unfold Js.num_or.
    destruct (match sq_limit queryParams with
              | Some s => Js.parseInt_str s None
              | None => None
              end) as [n|]; [|lia].
    destruct (n =? 0) eqn:E; lia.
  - lia.
  - unfold Js.str_or. destruct (sq_scope queryParams) as [s|]; [|reflexivity].
    destruct (Js.truthy_str s) eqn:E; [exact E | reflexivity].
  - intros ->. reflexivity.
  - intros ->. reflexivity.
Qed.

End FsEdgeFacts.

Section PresignCommitFacts.
Import FsPresignCommit.
Context {World : Type}.
Variable perform : forall R, Call R -> World -> (Exn + R) * World.
Variable mime : option string -> string.
(** X22. presign/commit, for every API-key user and every target path: when
    the body has fileId, s3Path, s3ConfigId and targetPath, the first call is
    the insertion of the file row (storage path s3Path, slug M- followed by
    the first five characters of the file id, creator apikey: followed by
    the id of the key), then the cache is cleared; once the insertion has
    succeeded the answer is 200 whether or not the cache clean-up fails, and
    the files table is as the insertion left it. No path permission is
    consulted. *)
Theorem presign_commit_records_any_path (info : AuthService.KeyInfo) (body : CommitBody)
    (id key cfg target : string) (cleared : Exn + unit) (w w1 w2 : World) :
  fileId body = Some id -> Js.truthy_str id = true ->
  s3Path body = Some key -> Js.truthy_str key = true ->
  s3ConfigId body = Some cfg -> Js.truthy_str cfg = true ->
  targetPath body = Some target -> Js.truthy_str target = true ->
  let row := {| row_id := id;
                filename := Js.last_segment target;
                storage_path := key;
                s3_url := s3Url body;
                mimetype := mime (Js.last_segment target);
                size := if Js.truthy (fileSize body) then fileSize body else Js.JNum 0;
                s3_config_id := cfg;
                slug := "M-" +:+ String.substring 0 5 id;
                row_etag := etag body;
                created_by := Some ("apikey:" +:+ AuthService.ki_id info) |} in
  perform _ (InsertFile row) w = (inr tt, w1) ->
  perform _ (ClearCache (mountId body)) w1 = (cleared, w2) ->
  exists rsp,
    run (presign_commit perform mime (FsRoutes.ApiKeyUser info) body) w
    = (inr rsp, mkSt w2 [Ev (InsertFile row); Ev (ClearCache (mountId body))]) /\
    FsRoutes.http_status rsp = 200 /\ FsRoutes.success rsp = true.
Proof.
  intros Hi Hit Hk Hkt Hc Hct Ht Htt row Hins Hcl. subst row.
  unfold presign_commit. rewrite Hi, Hk, Hc, Ht. cbn [Js.truthy_opt Js.str_or].
  rewrite Hit, Hkt, Hct, Htt. cbn [negb orb getCreatedBy]. m_eval.
  destruct cleared as [e|[]]; cbn; eauto.
Qed.

End PresignCommitFacts.

(** X20 on the reference service layer: an empty path, a missing new
    path, an empty array. *)
Lemma handle_missing_parameters_witness :
  let go req := run (FsRoutes.handle FsRoutes.Sim.perform AuthService.Sim.prefix_permission
                       WebdavPut.Sim.mime FsRoutes.Sim.s3_url FsRoutes.Sim.team_a req) [] in
  (exists rsp, go (FsRoutes.Mkdir (Some EmptyString)) = (inr rsp, mkSt [] []) /\
               FsRoutes.http_status rsp = 400) /\
  (exists rsp, go (FsRoutes.Rename (Some "/team-a/x") None) = (inr rsp, mkSt [] []) /\
               FsRoutes.http_status rsp = 400) /\
  (exists rsp, go (FsRoutes.BatchRemove (Some [])) = (inr rsp, mkSt [] []) /\
               FsRoutes.http_status rsp = 400).
Proof.
  intros go.
  split; [|split].
  - destruct (handle_missing_parameters FsRoutes.Sim.perform AuthService.Sim.prefix_permission
                WebdavPut.Sim.mime FsRoutes.Sim.s3_url FsRoutes.Sim.team_a
                (FsRoutes.Mkdir (Some EmptyString)) [] eq_refl) as (rsp & Hrun & Hst & _).
    exists rsp. split; assumption.
  - destruct (handle_missing_parameters FsRoutes.Sim.perform AuthService.Sim.prefix_permission
                WebdavPut.Sim.mime FsRoutes.Sim.s3_url FsRoutes.Sim.team_a
                (FsRoutes.Rename (Some "/team-a/x") None) [] eq_refl) as (rsp & Hrun & Hst & _).
    exists rsp. split; assumption.
  - destruct (handle_missing_parameters FsRoutes.Sim.perform AuthService.Sim.prefix_permission
                WebdavPut.Sim.mime FsRoutes.Sim.s3_url FsRoutes.Sim.team_a
                (FsRoutes.BatchRemove (Some [])) [] eq_refl) as (rsp & Hrun & Hst & _).
    exists rsp. split; assumption.
Defined.

(** X22 on the reference files table: the key of team-a records a file
    under /team-b, which its path check refuses, while the cache clean-up
    fails. *)
Lemma presign_commit_records_any_path_witness :
  let r := run (FsPresignCommit.presign_commit FsPresignCommit.Sim.perform
                  FsPresignCommit.Sim.mime FsRoutes.Sim.team_a FsPresignCommit.Sim.a_commit)
             [] in
  FsRoutes.checkPathPermission AuthService.Sim.prefix_permission FsRoutes.Sim.team_a
    "/team-b/x.bin" = false /\
  (exists rsp, fst r = inr rsp /\ FsRoutes.http_status rsp = 200) /\
  List.map FsPresignCommit.storage_path (world (snd r)) = ["team-b/x.bin"] /\
  List.map FsPresignCommit.slug (world (snd r)) = ["M-01234"] /\
  List.map FsPresignCommit.created_by (world (snd r)) = [Some "apikey:id-key1"].
Proof.
  intros r. split; [reflexivity|].
  destruct (presign_commit_records_any_path FsPresignCommit.Sim.perform
              FsPresignCommit.Sim.mime FsRoutes.Sim.team_a_key FsPresignCommit.Sim.a_commit
              "0123456789" "team-b/x.bin" "c1" "/team-b/x.bin" _ [] _ _
              eq_refl eq_refl eq_refl eq_refl eq_refl eq_refl eq_refl eq_refl eq_refl eq_refl)
    as (rsp & Hrun & Hst & _).
  assert (Hr : r = (inr rsp, mkSt _ _)) by exact Hrun.
  rewrite Hr.
  split; [exists rsp; split; [reflexivity | exact Hst]|].
  repeat split.
Defined.

(** ** /api/url/commit and /api/url/cancel: refusals and what is written *)

Section CommitEdgeFacts.
Import UrlUpload.
Context {World : Type}.
Variable perform : forall R, Call R -> World -> (Exn + R) * World.
Variable formatFileSize : Z -> string.
Variable now : string.
Variable hours_from_now : Z -> string.

Local Abbreviation commit := (commit perform formatFileSize now hours_from_now).
Local Abbreviation finish_commit := (finish_commit perform now hours_from_now).

(** X23. /api/url/commit refuses before anything is written: without a file
    id, 400 with no call at all; for an unknown file, 404; for a file
    created by someone else, 403; in the last two cases the look-up of the
    file is the only call. *)
Theorem commit_refusals (caller : Caller) (body : CommitBody) (w : World) :
  let r := run (commit caller body) w in
  (Js.truthy_opt (file_id body) = false ->
   r = (inr (error_json 400 "缺少文件ID参数"), mkSt w [])) /\
  (forall fileId w1,
      file_id body = Some fileId -> Js.truthy_str fileId = true ->
      perform _ (FindFileById fileId) w = (inr None, w1) ->
      r = (inr (error_json 404 "文件不存在或已被删除"), mkSt w1 [Ev (FindFileById fileId)])) /\
  (forall fileId file w1,
      file_id body = Some fileId -> Js.truthy_str fileId = true ->
      perform _ (FindFileById fileId) w = (inr (Some file), w1) ->
      (isAdmin caller && owned_by_other file (userId caller))
      || (String.eqb (authType caller) "apikey"
          && owned_by_other file ("apikey:" +:+ userId caller)) = true ->
      exists rsp, r = (inr rsp, mkSt w1 [Ev (FindFileById fileId)]) /\
                  http_status rsp = 403).
Proof.
  cbv zeta. split; [|split].
  - intros H. unfold UrlUpload.commit. rewrite H. reflexivity.
  - intros fileId w1 Hid Ht Hf. unfold UrlUpload.commit, Js.truthy_opt, Js.str_or.
    rewrite Hid, Ht. cbn [negb]. m_eval. reflexivity.
  - intros fileId file w1 Hid Ht Hf Hown. unfold UrlUpload.commit, Js.truthy_opt, Js.str_or.
    rewrite Hid, Ht. cbn [negb]. m_eval.
    destruct (isAdmin caller && owned_by_other file (userId caller)); cbn; [eauto|].
    cbn in Hown. rewrite Hown. cbn. eauto.
Qed.

Lemma emits_only_finish_commit P caller fileId file body :
  (forall R (c : Call R), match c with
                          | DeleteFileFromS3 _ _ => True
                          | GetTotalSizeByS3ConfigExcludingFile _ _ => True
                          | UpdateFile _ _ => True
                          | _ => P (Ev c) = true
                          end) ->
  (forall i ud, (exists n, ud_size ud = Some n /\ n < 0) \/ P (Ev (UpdateFile i ud)) = true) ->
  emits_only P (finish_commit caller fileId file body).
Proof.
  intros HP HU. unfold UrlUpload.finish_commit.
  repeat first
    [ apply emits_only_ret | apply emits_only_throw
    | apply emits_only_try_catch | apply emits_only_bind | apply emits_only_if
    | match goal with
      | |- emits_only _ (match ?x with _ => _ end) => destruct x
      | |- emits_only _ (call _ (UpdateFile ?i ?ud)) =>
          apply emits_only_call;
          destruct (HU i ud) as [(n & Hn & Hneg)|H]; [exfalso|exact H]
      | |- emits_only _ (call _ ?c) => apply emits_only_call; exact (HP _ c)
      end
    | intros ? ].
  revert Hn. cbn [ud_size].
  destruct (Js.truthy (body_size body)); [|discriminate].
  destruct (Js.parseInt (body_size body)) as [m|]; intros [= <-]; [|lia].
  destruct (m <? 0) eqn:E; [lia | apply Z.ltb_ge in E; lia].
Qed.


Lemma forallb_run_split {A} (P : Event Call -> bool) (m : M Call World A)
    (s : St Call World) :
  emits_only P m -> forallb P (trace s) = true -> forallb P (trace (snd (m s))) = true.
Proof.
  intros Hm Hs. destruct (Hm s) as (l & Hl & Pl). rewrite Hl, forallb_app, Hs, Pl.
  reflexivity.
Qed.

(** X24. /api/url/commit on a file whose storage configuration has no
    capacity limit, or with a size that does not read as a number: the
    object store is never asked to delete the uploaded object, whatever the
    collaborators answer afterwards. *)
Theorem commit_without_limit_never_deletes (caller : Caller) (body : CommitBody)
    (fileId : string) (file : FileRecord) (cfg : S3Config) (w w1 w2 : World) :
  file_id body = Some fileId -> Js.truthy_str fileId = true ->
  perform _ (FindFileById fileId) w = (inr (Some file), w1) ->
  perform _ (config_lookup caller file) w1 = (inr (Some cfg), w2) ->
  total_storage_bytes cfg = None \/ committed_size body = None ->
  forallb (fun ev => negb (is_delete ev)) (trace (snd (run (commit caller body) w))) = true.
Proof.
  intros Hid Ht Hf Hc Hfree.
  assert (Hfin : forall s, forallb (fun ev => negb (is_delete ev)) (trace s) = true ->
                           forallb (fun ev => negb (is_delete ev))
                             (trace (snd (try_catch (finish_commit caller fileId file body)
                                            (fun error =>
                                               ret (error_json ApiStatus.INTERNAL_ERROR
                                                      ("提交文件失败: " +:+ exn_message error)))
                                            s))) = true).
  { intros s Hs. apply forallb_run_split; [|exact Hs].
    apply emits_only_try_catch; [|intros; apply emits_only_ret].
    apply emits_only_finish_commit.
    - intros R c; destruct c; auto.
    - intros i ud. right. reflexivity. }
  unfold UrlUpload.commit, capacity_check, Js.truthy_opt, Js.str_or.
  rewrite Hid, Ht. cbn [negb]. unfold run.
  unfold try_catch at 1. unfold bind at 1. unfold call at 1. cbn [world trace app].
  rewrite Hf. cbn [fst snd].
  destruct (isAdmin caller && owned_by_other file (userId caller)); [reflexivity|].
  destruct ((authType caller =? "apikey")%string
            && owned_by_other file ("apikey:" +:+ userId caller)); [reflexivity|].
  unfold bind at 1. unfold call at 1. cbn [world trace app]. rewrite Hc. cbn [fst snd].
  destruct (total_storage_bytes cfg) as [capacity|] eqn:Hcap.
  - destruct Hfree as [[=]|Hnan]. rewrite Hnan. cbn [exceeds].
    unfold bind at 1. unfold bind at 1. unfold call at 1. cbn [world trace app].
    destruct (perform _ (GetTotalSizeByS3ConfigExcludingFile (s3_config_id file) (id file)) w2)
      as [[e|u] w3]; cbn [fst snd];
      [cbn; unfold config_lookup; destruct (isAdmin caller); reflexivity|].
    apply (Hfin (mkSt w3 _)).
    cbn; unfold config_lookup; destruct (isAdmin caller); reflexivity.
  - unfold bind at 1. cbn [ret fst snd]. apply (Hfin (mkSt w2 _)).
    cbn; unfold config_lookup; destruct (isAdmin caller); reflexivity.
Qed.

Lemma emits_only_commit_sizes (caller : Caller) (body : CommitBody) :
  emits_only writes_valid_size (commit caller body).
Proof.
  unfold UrlUpload.commit, capacity_check.
  repeat first
    [ apply emits_only_finish_commit;
      [ intros R c; destruct c; auto
      | intros i ud; cbn; destruct (ud_size ud) as [n|]; [|now right];
        destruct (0 <=? n) eqn:E; [now right | left; exists n; split; [reflexivity|];
                                   apply Z.leb_gt in E; exact E] ]
    | apply emits_only_ret | apply emits_only_throw
    | apply emits_only_try_catch | apply emits_only_bind | apply emits_only_if
    | match goal with
      | |- emits_only _ (match ?x with _ => _ end) => destruct x
      | |- emits_only _ (call _ (config_lookup ?c ?f)) =>
          apply emits_only_call; unfold config_lookup; destruct (isAdmin c); reflexivity
      | |- emits_only _ (call _ ?c) => apply emits_only_call; reflexivity
      | |- forall _, _ => intros ?
      end ].
Qed.

(** X25. Whatever the request and whatever the collaborators answer, a size
    that /api/url/commit writes to the files table is not negative. *)
Theorem commit_never_writes_negative_size (caller : Caller) (body : CommitBody) (w : World) :
  forallb writes_valid_size (trace (snd (run (commit caller body) w))) = true.
Proof. apply emits_only_run, emits_only_commit_sizes. Qed.

(** X26. /api/url/commit with a custom link that has a character outside
    letters, digits, hyphen and underscore (the caller may update the
    record, no capacity limit, password hashing at work): the answer is 400
    and no write was asked for, neither of the record nor of the password
    row nor of the directories. *)
Theorem commit_invalid_slug (caller : Caller) (body : CommitBody)
    (fileId slug : string) (file : FileRecord) (cfg : S3Config) (w w1 w2 : World) :
  file_id body = Some fileId -> Js.truthy_str fileId = true ->
  perform _ (FindFileById fileId) w = (inr (Some file), w1) ->
  isAdmin caller && owned_by_other file (userId caller) = false ->
  String.eqb (authType caller) "apikey"
  && owned_by_other file ("apikey:" +:+ userId caller) = false ->
  perform _ (config_lookup caller file) w1 = (inr (Some cfg), w2) ->
  total_storage_bytes cfg = None ->
  body_slug body = Some slug -> Js.truthy_str slug = true ->
  slug_ok slug = false ->
  (Js.truthy_opt (password body) = true ->
   exists h w3, perform _ (HashPassword (Js.str_or (password body) EmptyString)) w2
                = (inr h, w3)) ->
  let r := run (commit caller body) w in
  fst r = inr (error_json 400 "自定义链接格式无效，只允许字母、数字、连字符和下划线") /\
  forallb (fun ev => negb (is_write ev)) (trace (snd r)) = true.
Proof.
  intros Hid Ht Hf Ha Hk Hc Hcap Hs Hst Hbad Hhash. cbv zeta.
  assert (Hr : exists s,
             run (commit caller body) w
             = (inr (error_json 400 "自定义链接格式无效，只允许字母、数字、连字符和下划线"), s) /\
             forallb (fun ev => negb (is_write ev)) (trace s) = true).
  { unfold UrlUpload.commit, capacity_check, UrlUpload.finish_commit.
    unfold Js.truthy_opt at 1. unfold Js.str_or at 1.
    rewrite Hid, Ht. cbn [negb]. m_eval. rewrite Hcap. m_eval.
    destruct (Js.truthy_opt (password body)) eqn:Hp.
    - destruct (Hhash eq_refl) as (h & w3 & Hh). m_eval.
      unfold Js.truthy_opt, Js.str_or. rewrite Hs, Hst, Hbad. cbn [negb]. m_unfold.
      eexists. split; [reflexivity|].
      unfold config_lookup. destruct (isAdmin caller); reflexivity.
    - m_unfold. unfold Js.truthy_opt, Js.str_or. rewrite Hs, Hst, Hbad. cbn [negb]. m_unfold.
      eexists. split; [reflexivity|].
      unfold config_lookup. destruct (isAdmin caller); reflexivity. }
  destruct Hr as (s & -> & Hs'). split; [reflexivity | exact Hs'].
Qed.

End CommitEdgeFacts.

(** X24 on the reference store, whose bucket is capped at 100 bytes: a
    size that does not read as a number is committed and the record stays. *)
Lemma commit_without_limit_never_deletes_witness :
  let r := run (UrlUpload.commit UrlUpload.Sim.perform UrlUpload.Sim.format "now"
                  UrlUpload.Sim.later UrlUpload.Sim.admin UrlUpload.Sim.commit_nan)
             (UrlUpload.Sim.store false) in
  UrlUpload.committed_size UrlUpload.Sim.commit_nan = None /\
  forallb (fun ev => negb (UrlUpload.is_delete ev)) (trace (snd r)) = true /\
  (exists rsp, fst r = inr rsp /\ UrlUpload.http_status rsp = 200) /\
  UrlUpload.Sim.files (world (snd r)) !! "f2" = Some (UrlUpload.Sim.a_file "f2" "new.bin" 0).
Proof.
  intros r. split; [reflexivity|]. split.
  - exact (commit_without_limit_never_deletes UrlUpload.Sim.perform UrlUpload.Sim.format "now"
             UrlUpload.Sim.later UrlUpload.Sim.admin UrlUpload.Sim.commit_nan "f2"
             (UrlUpload.Sim.a_file "f2" "new.bin" 0)
             {| UrlUpload.cfg_id := "c1"; UrlUpload.total_storage_bytes := Some 100 |}
             (UrlUpload.Sim.store false) _ _ eq_refl eq_refl eq_refl eq_refl
             (or_intror eq_refl)).
  - split; [eexists; split; reflexivity|]. vm_compute. reflexivity.
Defined.

(** X26 on the reference store without limit: the link a/b is refused;
    the password was hashed before. *)
Lemma commit_invalid_slug_witness :
  let r := run (UrlUpload.commit UrlUpload.Sim.perform UrlUpload.Sim.format "now"
                  UrlUpload.Sim.later UrlUpload.Sim.admin UrlUpload.Sim.commit_bad_slug)
             UrlUpload.Sim.open_store in
  fst r = inr (UrlUpload.error_json 400 "自定义链接格式无效，只允许字母、数字、连字符和下划线") /\
  forallb (fun ev => negb (UrlUpload.is_write ev)) (trace (snd r)) = true /\
  In (Ev (UrlUpload.HashPassword "pw")) (trace (snd r)).
Proof.
  intros r.
  destruct (commit_invalid_slug UrlUpload.Sim.perform UrlUpload.Sim.format "now"
              UrlUpload.Sim.later UrlUpload.Sim.admin UrlUpload.Sim.commit_bad_slug "f2" "a/b"
              (UrlUpload.Sim.a_file "f2" "new.bin" 0)
              {| UrlUpload.cfg_id := "c1"; UrlUpload.total_storage_bytes := None |}
              UrlUpload.Sim.open_store _ _ eq_refl eq_refl eq_refl eq_refl eq_refl eq_refl
              eq_refl eq_refl eq_refl eq_refl
              (fun _ => ex_intro _ _ (ex_intro _ _ eq_refl))) as [Hrsp Hw].
  split; [exact Hrsp|]. split; [exact Hw|].
  vm_compute. auto.
Defined.

Section CancelFacts.
Import UrlCancel.
Context {World : Type}.
Variable perform : forall R, Call R -> World -> (Exn + R) * World.

Local Abbreviation cancel := (cancel perform).

(** /api/url/cancel refuses a caller that is neither an administrator nor
    an API key with 403 and no call, and a record of another creator with
    403 after the look-up of the file alone. *)
Lemma cancel_refusals (caller : UrlUpload.Caller) (file_id : option string) (w : World) :
  let r := run (cancel caller file_id) w in
  (UrlUpload.isAdmin caller = false ->
   String.eqb (UrlUpload.authType caller) "apikey" = false ->
   r = (inr (error_json 403 "需要管理员权限或有效的API密钥才能取消URL上传"), mkSt w [])) /\
  (forall fileId file w1,
      file_id = Some fileId -> Js.truthy_str fileId = true ->
      perform _ (FindFileById fileId) w = (inr (Some file), w1) ->
      (if UrlUpload.isAdmin caller
       then UrlUpload.owned_by_other file (UrlUpload.userId caller)
       else String.eqb (UrlUpload.authType caller) "apikey"
            && UrlUpload.owned_by_other file ("apikey:" +:+ UrlUpload.userId caller)) = true ->
      exists rsp, r = (inr rsp, mkSt w1 [Ev (FindFileById fileId)]) /\
                  http_status rsp = 403).
Proof.
  cbv zeta. split.
  - intros Ha Hk. unfold UrlCancel.cancel. rewrite Ha, Hk. reflexivity.
  - intros fileId file w1 -> Ht Hf Hown. unfold UrlCancel.cancel, cancel_as.
    unfold Js.truthy_opt, Js.str_or. rewrite Ht. cbn [negb].
    destruct (UrlUpload.isAdmin caller).
    + m_eval. change (String.eqb "admin" "admin") with true. cbn [andb]. eauto.
    + apply andb_prop in Hown. destruct Hown as [Hk Hown]. rewrite Hk. m_eval.
      change (String.eqb "apikey" "admin") with false.
      change (String.eqb "apikey" "apikey") with true. cbn [andb]. m_eval. eauto.
Qed.

(** X27. /api/url/cancel by an administrator or an API key whom no other
    creator's record stands against: the object is deleted from the bucket
    when the storage configuration is found (a failure of that deletion is
    ignored), the password row is deleted, and the handler then stops at
    fileRepository.deleteById, a method FileRepository does not define: the
    answer is 500, the cache is not cleared and no deletion of the file
    record is asked for. *)
Theorem cancel_stops_at_missing_method (caller : UrlUpload.Caller)
    (fileId : string) (file : UrlUpload.FileRecord) (config : option UrlUpload.S3Config)
    (w w1 w2 w3 w4 : World) :
  UrlUpload.isAdmin caller || String.eqb (UrlUpload.authType caller) "apikey" = true ->
  Js.truthy_str fileId = true ->
  perform _ (FindFileById fileId) w = (inr (Some file), w1) ->
  (if UrlUpload.isAdmin caller
   then UrlUpload.owned_by_other file (UrlUpload.userId caller)
   else UrlUpload.owned_by_other file ("apikey:" +:+ UrlUpload.userId caller)) = false ->
  perform _ (FindS3ConfigById (UrlUpload.s3_config_id file)) w1 = (inr config, w2) ->
  match config with
  | Some cfg =>
      exists rd, perform _ (DeleteFileFromS3 cfg (UrlUpload.storage_path file)) w2 = (rd, w3)
  | None => w3 = w2
  end ->
  perform _ (DeleteFilePasswordRecord (UrlUpload.id file)) w3 = (inr tt, w4) ->
  run (cancel caller (Some fileId)) w
  = (inr (error_json 500 "取消URL上传失败: fileRepository.deleteById is not a function"),
     mkSt w4 ([Ev (FindFileById fileId);
               Ev (FindS3ConfigById (UrlUpload.s3_config_id file))]
              ++ match config with
                 | Some cfg => [Ev (DeleteFileFromS3 cfg (UrlUpload.storage_path file))]
                 | None => []
                 end
              ++ [Ev (DeleteFilePasswordRecord (UrlUpload.id file))])).
Proof.
  intros Hkind Ht Hf Hown Hc Hd Hp.
  unfold UrlCancel.cancel, cancel_as. unfold Js.truthy_opt, Js.str_or. rewrite Ht. cbn [negb].
  destruct (UrlUpload.isAdmin caller); cbn [orb] in Hkind.
  - m_eval. change (String.eqb "admin" "admin") with true.
    change (String.eqb "admin" "apikey") with false. cbn [andb]. m_eval.
    destruct config as [cfg|].
    + destruct Hd as [rd Hd]. m_eval. destruct rd as [e|[]]; m_eval; reflexivity.
    + subst w3. m_eval. reflexivity.
  - rewrite Hkind. m_eval. change (String.eqb "apikey" "admin") with false.
    change (String.eqb "apikey" "apikey") with true. cbn [andb]. m_eval.
    destruct config as [cfg|].
    + destruct Hd as [rd Hd]. m_eval. destruct rd as [e|[]]; m_eval; reflexivity.
    + subst w3. m_eval. reflexivity.
Qed.

End CancelFacts.

(** X27 on the reference store: the cancel is answered 500; the object
    is gone from the bucket and its record is still in the files table. *)
Lemma cancel_stops_at_missing_method_witness :
  let r := run (UrlCancel.cancel UrlCancel.Sim.perform UrlUpload.Sim.admin (Some "f2"))
             (UrlUpload.Sim.store false) in
  (exists rsp, fst r = inr rsp /\ UrlCancel.http_status rsp = 500) /\
  UrlUpload.Sim.files (world (snd r)) !! "f2" = Some (UrlUpload.Sim.a_file "f2" "new.bin" 0) /\
  elements (UrlUpload.Sim.bucket (world (snd r))) = ["old.bin"].
Proof.
  intros r.
  pose proof (cancel_stops_at_missing_method UrlCancel.Sim.perform UrlUpload.Sim.admin "f2"
                (UrlUpload.Sim.a_file "f2" "new.bin" 0)
                (Some {| UrlUpload.cfg_id := "c1"; UrlUpload.total_storage_bytes := Some 100 |})
                (UrlUpload.Sim.store false) _ _ _ _
                eq_refl eq_refl eq_refl eq_refl eq_refl
                (ex_intro _ _ eq_refl) eq_refl) as Hrun.
  fold r in Hrun. rewrite Hrun.
  split; [eexists; split; reflexivity|].
  split; vm_compute; reflexivity.
Defined.

(** ** The buffered multipart upload: parts and retries *)

Section BufferFacts.
Import WebdavPutParts.

Lemma combine_loop_firstn (bufferList : list (list Byte.byte)) (n : nat) :
  combine_loop bufferList n = firstn n (List.concat bufferList).
Proof.
  revert n. induction bufferList as [|buffer rest IH]; intros n; cbn [combine_loop List.concat].
  - now rewrite firstn_nil.
  - destruct (n <=? 0)%nat eqn:E.
    + apply Nat.leb_le in E. replace n with 0%nat by lia. reflexivity.
    + rewrite IH, firstn_app.
      destruct (Nat.le_gt_cases (List.length buffer) n) as [Hle|Hgt].
      * rewrite Nat.min_l by exact Hle. now rewrite (firstn_all2 buffer Hle), firstn_all.
      * rewrite Nat.min_r by lia.
        replace (n - n)%nat with 0%nat by lia.
        replace (n - List.length buffer)%nat with 0%nat by lia. reflexivity.
Qed.

Lemma combineBuffers_prefix (bufferList : list (list Byte.byte)) (targetSize : nat) :
  (targetSize <= List.length (List.concat bufferList))%nat ->
  combineBuffers bufferList targetSize = firstn targetSize (List.concat bufferList).
Proof.
  intros Hle. unfold combineBuffers. rewrite combine_loop_firstn, length_firstn.
  replace (targetSize - Nat.min targetSize (List.length (List.concat bufferList)))%nat
    with 0%nat by lia.
  cbn. apply app_nil_r.
Qed.

Lemma remove_loop_spec (bufferList : list (list Byte.byte)) (usedSize : nat)
    (acc : list (list Byte.byte)) (accSize processedSize : nat) :
  (processedSize <= usedSize)%nat ->
  let r := remove_loop bufferList usedSize acc accSize processedSize in
  let rest := skipn (usedSize - processedSize) (List.concat bufferList) in
  List.concat (remainingBuffers r) = List.concat acc ++ rest /\
  remainingSize r = (accSize + List.length rest)%nat /\
  (Forall (fun b => b <> []) acc -> Forall (fun b => b <> []) (remainingBuffers r)).
Proof.
  revert acc accSize processedSize.
  induction bufferList as [|buffer tail IH]; intros acc accSize processedSize Hle;
    cbn [remove_loop List.concat].
  - cbn. rewrite skipn_nil, app_nil_r. cbn. repeat split; auto.
  - cbv zeta. destruct (processedSize + List.length buffer <=? usedSize)%nat eqn:E1.
    + apply Nat.leb_le in E1.
      destruct (IH acc accSize (processedSize + List.length buffer)%nat E1) as (H1 & H2 & H3).
      rewrite skipn_app.
      rewrite (skipn_all2 buffer) by lia. cbn [app].
      replace (usedSize - processedSize - List.length buffer)%nat
        with (usedSize - (processedSize + List.length buffer))%nat by lia.
      auto.
    + apply Nat.leb_gt in E1.
      destruct (processedSize <? usedSize)%nat eqn:E2.
      * apply Nat.ltb_lt in E2.
        destruct (IH (acc ++ [skipn (usedSize - processedSize) buffer])
                    (accSize + List.length (skipn (usedSize - processedSize) buffer))%nat
                    usedSize (Nat.le_refl _)) as (H1 & H2 & H3).
        rewrite Nat.sub_diag in H1, H2. cbn [skipn] in H1, H2.
        rewrite skipn_app.
        replace (usedSize - processedSize - List.length buffer)%nat with 0%nat by lia.
        cbn [skipn]. rewrite H1, H2, List.concat_app. cbn [List.concat].
        rewrite app_nil_r, List.length_app, <- !app_assoc.
        split; [reflexivity|]. split; [lia|].
        intros Hacc. apply H3. apply List.Forall_app. split; [exact Hacc|].
        constructor; [|constructor].
        intros Hnil. apply (f_equal (@List.length _)) in Hnil.
        rewrite length_skipn in Hnil. cbn in Hnil. lia.
      * apply Nat.ltb_ge in E2. assert (processedSize = usedSize) by lia. subst processedSize.
        destruct (IH (acc ++ [buffer]) (accSize + List.length buffer)%nat usedSize
                    (Nat.le_refl _)) as (H1 & H2 & H3).
        rewrite Nat.sub_diag in H1, H2 |- *. rewrite !skipn_O in H1, H2 |- *.
        rewrite H1, H2, List.concat_app. cbn [List.concat].
        rewrite app_nil_r, List.length_app, <- !app_assoc.
        split; [reflexivity|]. split; [lia|].
        intros Hacc. apply H3. apply List.Forall_app. split; [exact Hacc|].
        constructor; [|constructor].
        intros ->. cbn in E1. lia.
Qed.

(** X28. combineBuffers and removeUsedBuffers split a list of buffers at a
    size: combineBuffers returns exactly that many bytes; removeUsedBuffers
    keeps the bytes after them, in order, reports their number and keeps no
    empty buffer; when the buffers hold at least that many bytes, the
    combined part is their beginning, and part and remainder together are the
    bytes of the buffers. *)
Theorem buffers_split_without_loss (bufferList : list (list Byte.byte)) (size : nat) :
  let bytes := List.concat bufferList in
  let r := removeUsedBuffers bufferList size in
  List.length (combineBuffers bufferList size) = size /\
  List.concat (remainingBuffers r) = skipn size bytes /\
  remainingSize r = (List.length bytes - size)%nat /\
  Forall (fun b => b <> []) (remainingBuffers r) /\
  ((size <= List.length bytes)%nat ->
   combineBuffers bufferList size = firstn size bytes /\
   combineBuffers bufferList size ++ List.concat (remainingBuffers r) = bytes).
Proof.
  cbv zeta. unfold removeUsedBuffers.
  destruct (remove_loop_spec bufferList size [] 0 0 (Nat.le_0_l _)) as (H1 & H2 & H3).
  rewrite Nat.sub_0_r in H1, H2. cbn [List.concat app] in H1. cbn in H2.
  rewrite H1, H2, length_skipn.
  split.
  { unfold combineBuffers. rewrite combine_loop_firstn, List.length_app, repeat_length,
      length_firstn. lia. }
  split; [reflexivity|]. split; [reflexivity|]. split; [apply H3; constructor|].
  intros Hle. rewrite (combineBuffers_prefix bufferList size Hle).
  split; [reflexivity | apply firstn_skipn].
Qed.

End BufferFacts.

Section PartsFacts.
Import WebdavPutParts.
Context {World : Type}.
Variable perform : forall R, Call R -> World -> (Exn + R) * World.
Variable partSize : nat.
Hypothesis partSize_positive : (0 < partSize)%nat.

(** The upload callback accepts every part. *)
Hypothesis uploads_succeed :
  forall n d w, exists r w', perform _ (UploadPartCallback n d) w = (inr r, w').

Local Abbreviation callback := (fun n d => call perform (UploadPartCallback n d)).

Lemma uploaded_app (l1 l2 : list (Event Call)) :
  uploaded (l1 ++ l2) = uploaded l1 ++ uploaded l2.
Proof.
  induction l1 as [|[R c] l1 IH]; cbn; [reflexivity|].
  destruct c; cbn; now rewrite IH.
Qed.

Lemma upload_full_parts_spec (fuel : nat) (st : Progress) (s : St Call World)
    (consumed : list Byte.byte) :
  loop_invariant partSize consumed st (trace s) ->
  (totalBufferSize st < fuel)%nat ->
  exists st' s',
    upload_full_parts fuel partSize callback st s = (inr st', s') /\
    loop_invariant partSize consumed st' (trace s') /\
    (totalBufferSize st' < partSize)%nat.
Proof.
  revert st s. induction fuel as [|f IH]; intros st s Hinv Hfuel; [lia|].
  cbn [upload_full_parts].
  destruct (partSize <=? totalBufferSize st)%nat eqn:E.
  - apply Nat.leb_le in E.
    destruct Hinv as (Hsize & Hbytes & Hnum & Hnext & Hfull & Hproc & Hparts).
    assert (Hle : (partSize <= List.length (List.concat (bufferList st)))%nat) by lia.
    pose proof (combineBuffers_prefix (bufferList st) partSize Hle) as Hcomb.
    destruct (remove_loop_spec (bufferList st) partSize [] 0 0 (Nat.le_0_l _))
      as (Hrem & Hremsize & _).
    rewrite Nat.sub_0_r in Hrem, Hremsize. cbn [List.concat app] in Hrem. cbn in Hremsize.
    fold (removeUsedBuffers (bufferList st) partSize) in Hrem, Hremsize.
    unfold bind, call.
    destruct (uploads_succeed (partNumber st) (combineBuffers (bufferList st) partSize)
                (world s)) as (r & w' & Hup).
    rewrite Hup. cbn [fst snd].
    apply IH.
    + unfold loop_invariant. cbn [bufferList totalBufferSize partNumber parts totalProcessed trace].
      rewrite uploaded_app. cbn [uploaded app].
      rewrite !List.map_app, !List.length_app, List.concat_app. cbn [List.map List.concat List.length fst snd].
      rewrite app_nil_r, Hrem, Hremsize, Hcomb.
      repeat split.
      * rewrite <- app_assoc, firstn_skipn. exact Hbytes.
      * rewrite Nat.add_1_r, seq_S, <- Hnum, Hnext. reflexivity.
      * rewrite Hnext. lia.
      * apply List.Forall_app. split; [exact Hfull|].
        constructor; [|constructor]. rewrite length_firstn. lia.
      * rewrite List.length_app, Hproc. reflexivity.
      * lia.
    + cbn [totalBufferSize]. rewrite Hremsize, length_skipn. lia.
  - apply Nat.leb_gt in E. exists st, s. auto.
Qed.

Lemma read_chunks_spec (chunks : list (list Byte.byte)) (st : Progress)
    (s : St Call World) (consumed : list Byte.byte) :
  loop_invariant partSize consumed st (trace s) ->
  (totalBufferSize st < partSize)%nat ->
  exists st' s',
    read_chunks chunks partSize callback st s = (inr st', s') /\
    loop_invariant partSize (consumed ++ List.concat chunks) st' (trace s') /\
    (totalBufferSize st' < partSize)%nat.
Proof.
  revert st s consumed. induction chunks as [|value rest IH]; intros st s consumed Hinv Hsmall.
  - cbn. rewrite app_nil_r. eauto.
  - cbn [read_chunks List.concat]. unfold bind.
    match goal with
    | |- context [upload_full_parts ?fuel _ _ ?st1 s] =>
        destruct (upload_full_parts_spec fuel st1 s (consumed ++ value))
          as (st2 & s2 & Hrun & Hinv2 & Hsmall2)
    end.
    + destruct Hinv as (Hsize & Hbytes & Hnum & Hnext & Hfull & Hproc & Hparts).
      unfold loop_invariant.
      cbn [bufferList totalBufferSize partNumber parts totalProcessed].
      rewrite List.concat_app, List.length_app. cbn [List.concat]. rewrite app_nil_r.
      repeat split; auto.
      rewrite app_assoc, Hbytes. reflexivity.
    + cbn [totalBufferSize]. lia.
    + rewrite Hrun. rewrite app_assoc. apply IH; assumption.
Qed.


(** X29. bufferedMultipartUpload with a positive part size, a stream that
    does not break and a callback that accepts every part: the parts handed
    to the callback, in order, are the bytes of the stream; they are numbered
    1, 2, ...; every part but the last has partSize bytes, none is empty and
    none is larger; totalProcessed is the length of the stream and there is
    one result per part. *)
Theorem bufferedMultipartUpload_splits_the_stream (stream : WebdavPut.Stream) (w : World) :
  WebdavPut.failure stream = None ->
  let r := run (bufferedMultipartUpload stream partSize callback) w in
  let sent := uploaded (trace (snd r)) in
  let bytes := List.concat (WebdavPut.chunks stream) in
  List.concat (List.map snd sent) = bytes /\
  List.map fst sent = List.seq 1 (List.length sent) /\
  List.Forall (fun d => List.length d = partSize) (List.removelast (List.map snd sent)) /\
  List.Forall (fun d => (0 < List.length d <= partSize)%nat) (List.map snd sent) /\
  exists summary,
    fst r = inr summary /\
    us_totalProcessed summary = List.length bytes /\
    List.length (us_parts summary) = List.length sent.
Proof.
  intros Hfail. cbv zeta.
  assert (H : exists summary sf,
             run (bufferedMultipartUpload stream partSize callback) w = (inr summary, sf) /\
             List.concat (List.map snd (uploaded (trace sf)))
             = List.concat (WebdavPut.chunks stream) /\
             List.map fst (uploaded (trace sf))
             = List.seq 1 (List.length (uploaded (trace sf))) /\
             List.Forall (fun d => List.length d = partSize)
               (List.removelast (List.map snd (uploaded (trace sf)))) /\
             List.Forall (fun d => (0 < List.length d <= partSize)%nat)
               (List.map snd (uploaded (trace sf))) /\
             us_totalProcessed summary = List.length (List.concat (WebdavPut.chunks stream)) /\
             List.length (us_parts summary) = List.length (uploaded (trace sf))).
  { unfold bufferedMultipartUpload, run. unfold bind at 1.
    match goal with
    | |- context [read_chunks ?chunks _ _ ?st0 ?s0] =>
        destruct (read_chunks_spec chunks st0 s0 []) as (st & s & Hrun & Hinv & Hsmall)
    end.
    { unfold loop_invariant. cbn. repeat split; auto. }
    { cbn. exact partSize_positive. }
    rewrite Hrun, Hfail. cbn [app] in Hinv.
    destruct Hinv as (Hsize & Hbytes & Hnum & Hnext & Hfull & Hproc & Hparts).
    destruct (0 <? totalBufferSize st)%nat eqn:E.
    - apply Nat.ltb_lt in E.
      assert (Hcomb : combineBuffers (bufferList st) (totalBufferSize st)
                      = List.concat (bufferList st)).
      { rewrite combineBuffers_prefix by lia. rewrite Hsize. apply firstn_all. }
      unfold bind, call.
      destruct (uploads_succeed (partNumber st)
                  (combineBuffers (bufferList st) (totalBufferSize st)) (world s))
        as (r & w' & Hup).
      rewrite Hup. cbn [fst snd trace ret].
      eexists. eexists. split; [reflexivity|].
      cbn [trace us_totalProcessed us_parts].
      rewrite uploaded_app. cbn [uploaded app].
      rewrite !List.map_app, !List.length_app, List.concat_app.
      cbn [List.map List.concat List.length fst snd]. rewrite app_nil_r, Hcomb.
      split; [exact Hbytes|]. split.
      { rewrite Nat.add_1_r, seq_S, <- Hnum, Hnext. reflexivity. }
      split.
      { rewrite List.removelast_last. exact Hfull. }
      split.
      { apply List.Forall_app. split.
        - eapply List.Forall_impl; [|exact Hfull]. cbn. intros d Hd. lia.
        - constructor; [|constructor]. lia. }
      rewrite <- Hbytes, List.length_app. lia.
    - apply Nat.ltb_ge in E. cbn [fst snd trace ret].
      assert (Hnil : List.concat (bufferList st) = []).
      { apply List.length_zero_iff_nil. lia. }
      rewrite Hnil, app_nil_r in Hbytes.
      eexists. eexists. split; [reflexivity|].
      cbn [trace us_totalProcessed us_parts].
      split; [exact Hbytes|]. split; [exact Hnum|]. split.
      { clear -Hfull.
        induction (List.map snd (uploaded (trace s))) as [|d l IH]; cbn; [constructor|].
        inversion Hfull; subst. destruct l; [constructor|]. constructor; auto. }
      split.
      { eapply List.Forall_impl; [|exact Hfull]. cbn. intros d Hd. lia. }
      rewrite <- Hbytes. auto. }
  destruct H as (summary & sf & -> & H1 & H2 & H3 & H4 & H5 & H6). cbn [fst snd].
  repeat split; auto. exists summary. auto.
Qed.

End PartsFacts.

(** X29 on the reference uploader: eight bytes in chunks of 3, 2 and 3,
    cut into parts of 3, 3 and 2. *)
Lemma bufferedMultipartUpload_splits_the_stream_witness :
  let stream := {| WebdavPut.chunks := [WebdavPutParts.Sim.abc; WebdavPutParts.Sim.de;
                                        WebdavPutParts.Sim.abc];
                   WebdavPut.failure := None |} in
  let r := run (WebdavPutParts.bufferedMultipartUpload stream 3
                  (fun n d => call WebdavPutParts.Sim.perform
                                (WebdavPutParts.UploadPartCallback n d))) [] in
  world (snd r)
  = [(1%nat, WebdavPutParts.Sim.abc);
     (2%nat, [Byte.x64; Byte.x65; Byte.x61]);
     (3%nat, [Byte.x62; Byte.x63])] /\
  List.concat (List.map snd (WebdavPutParts.uploaded (trace (snd r))))
  = WebdavPutParts.Sim.abc ++ WebdavPutParts.Sim.de ++ WebdavPutParts.Sim.abc.
Proof.
  intros stream r. split; [reflexivity|].
  exact (proj1 (bufferedMultipartUpload_splits_the_stream WebdavPutParts.Sim.perform 3
                  ltac:(lia)
                  (fun n d w => ex_intro _ _ (ex_intro _ _ eq_refl))
                  stream [] eq_refl)).
Defined.

Section RetryFacts.
Import WebdavPutParts.
Context {World : Type}.
Variable perform : forall R, Call R -> World -> (Exn + R) * World.
Variables (path uploadId : string) (partNumber : nat) (partData : PartData).
Variables (userIdOrInfo userType s3Key : string) (maxRetries : nat).

Local Abbreviation rounds remaining attempt lastError :=
  (retry_rounds perform remaining attempt lastError path uploadId partNumber partData
     userIdOrInfo userType s3Key maxRetries).

Lemma retry_rounds_spec (remaining : nat) :
  forall (attempt : nat) (lastError : option Exn) (s : St Call World),
    (1 <= attempt)%nat ->
    (remaining + attempt = maxRetries + 1)%nat ->
    exists l,
      trace (snd (rounds remaining attempt lastError s)) = trace s ++ l /\
      (List.length (List.filter is_attempt l) <= remaining)%nat /\
      (List.length (delays l) <= remaining - 1)%nat /\
      delays l = List.map (fun k => 1000 * 2 ^ Z.of_nat (attempt - 1 + k))
                   (List.seq 0 (List.length (delays l))) /\
      (partData = OtherData -> List.filter is_attempt l = []).
Proof.
  induction remaining as [|rest IH]; intros attempt lastError s Ha Hsum.
  - exists []. cbn. destruct lastError; cbn; rewrite app_nil_r; repeat split; auto.
  - cbn [retry_rounds]. unfold bind at 1. unfold try_catch.
    assert (Hwait : forall error s0 (pre : list (Event Call)),
               trace s0 = trace s ++ pre ->
               (List.length (List.filter is_attempt pre) <= 1)%nat ->
               delays pre = [] ->
               (partData = OtherData -> List.filter is_attempt pre = []) ->
               exists l,
                 trace (snd (bind
                               ((if (attempt <? maxRetries)%nat
                                 then call perform
                                        (SetTimeout (RETRY_DELAY_BASE
                                                     * 2 ^ (Z.of_nat attempt - 1)))
                                 else ret tt) ;;; ret (inr error))
                               (fun outcome : PartResult + Exn =>
                                  match outcome with
                                  | inl r => ret r
                                  | inr error' => rounds rest (S attempt) (Some error')
                                  end) s0))
                 = trace s ++ l /\
                 (List.length (List.filter is_attempt l) <= S rest)%nat /\
                 (List.length (delays l) <= S rest - 1)%nat /\
                 delays l = List.map (fun k => 1000 * 2 ^ Z.of_nat (attempt - 1 + k))
                              (List.seq 0 (List.length (delays l))) /\
                 (partData = OtherData -> List.filter is_attempt l = [])).
    { intros error s0 pre Hpre Hatt Hdel Hother.
      destruct (attempt <? maxRetries)%nat eqn:E.
      - apply Nat.ltb_lt in E. unfold bind, call.
        destruct (perform _ (SetTimeout _) (world s0)) as [[e|[]] w1]; cbn [fst snd ret].
        + exists (pre ++ [Ev (SetTimeout (RETRY_DELAY_BASE * 2 ^ (Z.of_nat attempt - 1)))]).
          cbn [trace]. rewrite Hpre, <- app_assoc.
          split; [reflexivity|].
          rewrite List.filter_app. cbn [List.filter is_attempt]. rewrite app_nil_r.
          assert (Hd : forall a b, delays (a ++ b) = delays a ++ delays b).
          { clear. induction a as [|[R c] a IHa]; intros b; cbn; [reflexivity|].
            destruct c; cbn; now rewrite IHa. }
          rewrite Hd, Hdel. cbn [delays app List.length List.seq List.map].
          replace (Z.of_nat (attempt - 1 + 0)) with (Z.of_nat attempt - 1) by lia.
          repeat split; auto; lia.
        + destruct (IH (S attempt) (Some error)
                      (mkSt w1 (trace s0 ++ [Ev (SetTimeout (RETRY_DELAY_BASE
                                                             * 2 ^ (Z.of_nat attempt - 1)))]))
                      ltac:(lia) ltac:(lia)) as (l & Hl & Hl1 & Hl2 & Hl3 & Hl4).
          exists (pre ++ Ev (SetTimeout (RETRY_DELAY_BASE * 2 ^ (Z.of_nat attempt - 1))) :: l).
          rewrite Hl. cbn [trace]. rewrite Hpre, <- !app_assoc. cbn [app].
          split; [reflexivity|].
          assert (Hd : forall a b, delays (a ++ b) = delays a ++ delays b).
          { clear. induction a as [|[R c] a IHa]; intros b; cbn; [reflexivity|].
            destruct c; cbn; now rewrite IHa. }
          rewrite List.filter_app, List.length_app, Hd, Hdel.
          cbn [List.filter is_attempt delays app List.length].
          split; [lia|]. split; [lia|]. split.
          * cbn [List.seq List.map]. f_equal.
            -- f_equal. f_equal. lia.
            -- rewrite Hl3 at 1. rewrite <- List.seq_shift, List.map_map.
               apply List.map_ext. intros k. f_equal. f_equal. f_equal. lia.
          * intros Ho. rewrite (Hother Ho), (Hl4 Ho). reflexivity.
      - apply Nat.ltb_ge in E. assert (rest = 0)%nat by lia. subst rest.
        unfold bind. cbn [ret fst snd retry_rounds throw].
        exists pre. rewrite Hpre. rewrite Hdel. cbn.
        repeat split; auto; lia. }
    unfold ensureArrayBuffer, bind.
    destruct partData as [b|b|] eqn:Hdata.
    + cbn [ret]. unfold call.
      destruct (perform _ (UploadBackendPart path userIdOrInfo userType uploadId partNumber
                             b s3Key) (world s)) as [[e|r] w1].
      * cbn [fst snd].
        apply (Hwait e _ [Ev (UploadBackendPart path userIdOrInfo userType uploadId
                                partNumber b s3Key)]); cbn; auto; discriminate.
      * cbn [fst snd ret]. eexists. split; [reflexivity|]. cbn. repeat split; auto; try lia.
        discriminate.
    + cbn [ret]. unfold call.
      destruct (perform _ (UploadBackendPart path userIdOrInfo userType uploadId partNumber
                             b s3Key) (world s)) as [[e|r] w1].
      * cbn [fst snd].
        apply (Hwait e _ [Ev (UploadBackendPart path userIdOrInfo userType uploadId
                                partNumber b s3Key)]); cbn; auto; discriminate.
      * cbn [fst snd ret]. eexists. split; [reflexivity|]. cbn. repeat split; auto; try lia.
        discriminate.
    + cbn [throw fst snd].
      apply (Hwait _ s []); cbn; auto. symmetry. apply app_nil_r.
Qed.

(** X30. uploadPartWithRetry makes at most maxRetries upload attempts and
    waits at most maxRetries - 1 times, the waits being 1000 ms, 2000 ms,
    4000 ms, ... in this order; data that is neither an ArrayBuffer nor a
    Uint8Array is never sent. *)
Theorem uploadPartWithRetry_is_bounded (w : World) :
  let tr := trace (snd (run (uploadPartWithRetry perform path uploadId partNumber partData
                               userIdOrInfo userType s3Key maxRetries) w)) in
  (List.length (List.filter is_attempt tr) <= maxRetries)%nat /\
  (List.length (delays tr) <= maxRetries - 1)%nat /\
  delays tr = List.map (fun k => 1000 * 2 ^ Z.of_nat k) (List.seq 0 (List.length (delays tr))) /\
  (partData = OtherData -> List.filter is_attempt tr = []).
Proof.
  cbv zeta. unfold uploadPartWithRetry, run.
  destruct (retry_rounds_spec maxRetries 1 None (mkSt w []) (Nat.le_refl _) eq_refl)
    as (l & Hl & H1 & H2 & H3 & H4).
  rewrite Hl. cbn [trace app]. repeat split; auto.
Qed.

End RetryFacts.
